(** * Smart Attendance System: session tickets and attendance admission

    A shallow embedding of the Express/Mongoose back end:
    - the Attendance model (src/unnamed/part_000, lines 243-322): the
      schema, the unique compound index, the [isLate] virtual and the
      [pre('save')] hook;
    - the Session model (src/unnamed/part_000, lines 325-396): the
      schema, the [isExpired] virtual and the [isValid] method;
    - the attendance routes (src/unnamed/part_000, lines 397-718):
      [POST /api/attendance/scan-qr], [PUT] and [DELETE
      /api/attendance/:id];
    - the session routes (src/routes/export.js, lines 571-908):
      [POST /api/sessions], [DELETE /api/sessions/:id] and
      [POST /api/sessions/:id/regenerate-qr];
    - [calculateCosineSimilarity] (src/routes/export.js, lines 545-568)
      and the face recognition routes that call it (lines 354-542);
    - the other session routes (src/routes/export.js): [GET] and
      [PUT /api/sessions];
    - the routes that read attendance (src/unnamed/part_000, lines
      522-638; src/routes/students.js, lines 63-110 and 201-279).

    JavaScript numbers are IEEE 754 binary64 values, which is what Rocq's
    primitive [float] is; a value that a request may send as a number or
    as a string is one or the other; [Date] values are their [getTime()]
    in milliseconds, a [Z], and an invalid date is [None]; Mongoose
    collections are lists of documents in insertion order, with the
    unique indexes checked on every write. *)

From Stdlib Require Import ZArith List Bool Ascii String Floats Lia Permutation.
Import ListNotations.

#[local] Set Warnings "-inexact-float".
#[local] Open Scope string_scope.
#[local] Open Scope bool_scope.
#[local] Open Scope Z_scope.

(** ** JavaScript numbers *)

Module JSNumber.

(** [a * b], [a + b], [a / b] and [Math.sqrt] are the binary64
    operations; [<], [>=] and [===] on numbers are [ltb], [leb]
    (flipped) and [eqb]: every comparison with [NaN] is false and
    [0 === -0]. *)
Definition lt (a b : float) : bool := PrimFloat.ltb a b.
Definition ge (a b : float) : bool := PrimFloat.leb b a.
Definition le (a b : float) : bool := PrimFloat.leb a b.
Definition strict_eq (a b : float) : bool := PrimFloat.eqb a b.

(** [!x] for a number: true for [0], [-0] and [NaN]. *)
Definition falsy (x : float) : bool :=
  PrimFloat.eqb x 0%float || PrimFloat.is_nan x.

End JSNumber.

(** ** JavaScript values

    What a JSON body holds where the validator asks for a float and
    converts nothing: a number, or a string. Strings are sequences of
    bytes; the strings that matter here (the numerals that pass
    [isFloat]) are ASCII, and against an ASCII string the order by bytes
    and the order by UTF-16 code units agree. *)

Module JS.

Inductive value :=
| Num (x : float)
| Str (s : string).

(** [!v]: true for [0], [-0], [NaN] and for the empty string. *)
Definition falsy (v : value) : bool :=
  match v with
  | Num x => JSNumber.falsy x
  | Str s => String.eqb s ""
  end.

End JS.

(** ** Exceptions and awaited results *)

Inductive Thrown :=
| Error (message : string)   (* [throw new Error(...)] *)
| TypeError                  (* a property read on [undefined] *)
| DuplicateKey               (* MongoDB E11000: a unique index refused the write *)
| StorageFailure.            (* any other rejection of a store operation *)

Inductive Try (A : Type) :=
| Return (a : A)
| Throw (e : Thrown).
Arguments Return {A} a.
Arguments Throw {A} e.

(** ** [calculateCosineSimilarity] (src/routes/export.js, lines 545-568) *)

(** The accumulators of the [for] loop: [dotProduct], [norm1], [norm2]. *)
Record Acc := mkAcc { dotProduct : float; norm1 : float; norm2 : float }.

(** One iteration, on [embedding1[i]] and [embedding2[i]]. *)
Definition loop_body (acc : Acc) (x y : float) : Acc :=
  {| dotProduct := (dotProduct acc + x * y)%float;
     norm1 := (norm1 acc + x * x)%float;
     norm2 := (norm2 acc + y * y)%float |}.

(** [for (let i = 0; i < embedding1.length; i++)], on arrays that were
    checked to have the same length. *)
Fixpoint loop (acc : Acc) (embedding1 embedding2 : list float) : Acc :=
  match embedding1, embedding2 with
  | x :: e1, y :: e2 => loop (loop_body acc x y) e1 e2
  | _, _ => acc
  end.

Definition calculateCosineSimilarity (embedding1 embedding2 : list float)
  : Try float :=
  if negb (Nat.eqb (List.length embedding1) (List.length embedding2)) then
    Throw (Error "Embeddings must have the same length")
  else
    let acc := loop (mkAcc 0 0 0) embedding1 embedding2 in
    let norm1 := PrimFloat.sqrt (norm1 acc) in
    let norm2 := PrimFloat.sqrt (norm2 acc) in
    if JSNumber.strict_eq norm1 0%float || JSNumber.strict_eq norm2 0%float then
      Return 0%float
    else
      Return (dotProduct acc / (norm1 * norm2))%float.

(** Swapping the two arrays swaps the two norms and keeps the dot product. *)
Definition swap_acc (acc : Acc) : Acc :=
  {| dotProduct := dotProduct acc; norm1 := norm2 acc; norm2 := norm1 acc |}.

(** ** Dates, times of day and the process environment *)

(** A [Date] is its [getTime()]: milliseconds since the epoch, UTC. *)
Definition Date := Z.

Definition msPerMinute : Z := 60000.
Definition msPerDay : Z := 86400000.

(** A time of day as the routes take it: the hour, written with two
    digits or with one ([padded] tells which: ["09:30"] or ["9:30"]), a
    colon and two digits of minutes; [split(':')] and [Number] give back
    the two numbers. *)
Record TimeString := mkTime { hours : Z; minutes : Z; padded : bool }.

(** [/^([0-1]?[0-9]|2[0-3]):[0-5][0-9]$/]: one digit of hours, or two
    from 00 to 23. *)
Definition matches_time (t : TimeString) : bool :=
  (0 <=? hours t) && (hours t <=? (if padded t then 23 else 9))
  && (0 <=? minutes t) && (minutes t <=? 59).

(** What the handlers take from the process they run in: the server's
    time zone, as the offset of its local time from UTC in milliseconds
    (taken as fixed); [process.env.FACE_RECOGNITION_THRESHOLD], [None]
    when it is unset; and three library functions that are not in the
    sources and are left open: [Number(s)], the conversion of a string
    to a number that the operators [<] and [>=] and Mongoose's cast of a
    Number path apply; express-validator's [isFloat({ min: 0, max: 1 })]
    on a string; and [trim], the sanitizer of express-validator and the
    setter of a schema path with [trim: true]. *)
Record Process := mkProcess {
  utcOffset : Z;
  FACE_RECOGNITION_THRESHOLD : option string;
  StringToNumber : string -> float;
  isFloat : string -> bool;
  trim : string -> string
}.

(** [ToNumber(v)] *)
Definition ToNumber (env : Process) (v : JS.value) : float :=
  match v with
  | JS.Num x => x
  | JS.Str s => StringToNumber env s
  end.

(** [a < b]: two strings are compared as strings, position by position;
    in every other case both sides are converted to numbers. *)
Definition JS_lt (env : Process) (a b : JS.value) : bool :=
  match a, b with
  | JS.Str s, JS.Str t => String.ltb s t
  | _, _ => JSNumber.lt (ToNumber env a) (ToNumber env b)
  end.

(** A calendar date ["YYYY-MM-DD"] is the number of its day, counted from
    1970-01-01. [new Date("YYYY-MM-DD")] is that day's midnight in UTC. *)
Definition Date_of_day (day : Z) : Date := day * msPerDay.

(** The instant of a calendar date and a time of day in the server's
    local time. *)
Definition local_time (env : Process) (day h m : Z) : Date :=
  day * msPerDay + (h * 60 + m) * msPerMinute - utcOffset env.

(** [new Date(`${date}T${time}:00`)]: a date-time without offset is read
    in the server's local time. The format has two digits of hours: with
    one, as in ["2024-01-15T9:30:00"], the result is an invalid date,
    [None]. *)
Definition Date_of_local (env : Process) (day : Z) (t : TimeString)
  : option Date :=
  if padded t && matches_time t
  then Some (local_time env day (hours t) (minutes t))
  else None.

(** [a < b] and [a >= b] on dates: every comparison with an invalid date
    is false. *)
Definition Date_lt (a b : option Date) : bool :=
  match a, b with
  | Some x, Some y => x <? y
  | _, _ => false
  end.

Definition Date_ge (a b : option Date) : bool :=
  match a, b with
  | Some x, Some y => x >=? y
  | _, _ => false
  end.

(** [d.toISOString().split('T')[0]]: the UTC calendar date of [d]. *)
Definition toISODate (d : Date) : Z := d / msPerDay.

(** [d.setHours(h, m, 0, 0)]: the local calendar date of [d], at the
    local time [h:m]. *)
Definition setHours (env : Process) (d : Date) (h m : Z) : Date :=
  ((d + utcOffset env) / msPerDay) * msPerDay
  + (h * 60 + m) * msPerMinute - utcOffset env.

(** ** Documents *)

Definition ObjectId := string.

Inductive Role := teacher_role | student_role | admin_role.

(** [req.user], set by the [auth] middleware. [faceEmbedding] is [None]
    when the path is missing, and an array otherwise. *)
Record User := mkUser {
  user_id : ObjectId;
  role : Role;
  faceEmbedding : option (list float)
}.

Module Session.

(** [sessionSchema]; [isActive] defaults to [true], [maxStudents] to 100
    and [attendanceCount] to 0. *)
Record doc := mk {
  _id : ObjectId;
  subject : string;
  description : option string;
  teacher : ObjectId;
  date : Date;
  startTime : TimeString;
  endTime : TimeString;
  qrToken : string;
  isActive : bool;
  expiresAt : Date;
  location : option string;
  maxStudents : Z;
  attendanceCount : Z
}.

(** [sessionSchema.virtual('isExpired')]: [new Date() > this.expiresAt]. *)
Definition isExpired (now : Date) (this : doc) : bool :=
  now >? expiresAt this.

(** [sessionSchema.methods.isValid] *)
Definition isValid (now : Date) (this : doc) : bool :=
  isActive this && negb (isExpired now this).

Definition set_qrToken (this : doc) (token : string) : doc :=
  mk (_id this) (subject this) (description this) (teacher this) (date this)
     (startTime this) (endTime this) token (isActive this) (expiresAt this)
     (location this) (maxStudents this) (attendanceCount this).

(** [$inc: { attendanceCount: n }] *)
Definition inc_attendanceCount (n : Z) (this : doc) : doc :=
  mk (_id this) (subject this) (description this) (teacher this) (date this)
     (startTime this) (endTime this) (qrToken this) (isActive this)
     (expiresAt this) (location this) (maxStudents this)
     (attendanceCount this + n).

End Session.

Module Attendance.

Inductive Status := present | absent | late.
Inductive Method := qr_code | face_recognition | manual.

(** The [session] path of a document: the referenced session's id, or,
    once [populate('session', ...)] has run, the session document. *)
Inductive SessionPath :=
| Ref (id : ObjectId)
| Populated (s : Session.doc).

(** [attendanceSchema], without [location] and [deviceInfo], which are
    stored as given and read by nothing. [status] defaults to ['present'],
    [markedAt] to [Date.now], [isVerified] to [false]. *)
Record doc := mk {
  _id : ObjectId;
  student : ObjectId;
  session : SessionPath;
  status : Status;
  markedAt : Date;
  method : Method;
  faceConfidence : option float;
  isVerified : bool;
  remarks : option string
}.

Definition session_id (this : doc) : ObjectId :=
  match session this with
  | Ref id => id
  | Populated s => Session._id s
  end.

Definition Status_eqb (a b : Status) : bool :=
  match a, b with
  | present, present | absent, absent | late, late => true
  | _, _ => false
  end.

Definition set_status (this : doc) (s : Status) : doc :=
  mk (_id this) (student this) (session this) s (markedAt this)
     (method this) (faceConfidence this) (isVerified this) (remarks this).

Definition set_session (this : doc) (p : SessionPath) : doc :=
  mk (_id this) (student this) p (status this) (markedAt this)
     (method this) (faceConfidence this) (isVerified this) (remarks this).

Definition set_remarks (this : doc) (r : option string) : doc :=
  mk (_id this) (student this) (session this) (status this) (markedAt this)
     (method this) (faceConfidence this) (isVerified this) r.

(** [attendanceSchema.virtual('isLate')] (lines 303-312). The getter reads
    [this.session.date] and [this.session.startTime]. On a populated
    path these are the session's fields. On a path that still holds the
    id, both reads give [undefined]: [new Date(undefined)] is an invalid
    date and [undefined.split(':')] throws a [TypeError]. ([session] is a
    required path, so the guard [if (!this.session) return false] does
    not fire on a document that passed validation.) *)
Definition isLate (env : Process) (this : doc) : Try bool :=
  match session this with
  | Ref _ => Throw TypeError
  | Populated s =>
      let sessionStart :=
        setHours env (Session.date s)
                 (hours (Session.startTime s)) (minutes (Session.startTime s)) in
      let lateThreshold := sessionStart + 15 * 60000 in
      Return (markedAt this >? lateThreshold)
  end.

(** [attendanceSchema.pre('save', ...)] *)
Definition pre_save (env : Process) (this : doc) : Try doc :=
  match isLate env this with
  | Throw e => Throw e
  | Return l =>
      if l && Status_eqb (status this) present
      then Return (set_status this late)
      else Return this
  end.

End Attendance.

(** ** The record store *)

(** The two collections, in insertion order. *)
Record Store := mkStore {
  sessions : list Session.doc;
  attendances : list Attendance.doc
}.

Definition empty : Store := mkStore [] [].

(** Whether the store rejects the next [save] or [findByIdAndUpdate] for
    a reason of its own (a lost connection, a timeout): the two writes of
    an admission are separate awaited calls, and each may fail. *)
Record Outage := mkOutage { save_rejected : bool; update_rejected : bool }.

Definition none : Outage := mkOutage false false.

(** [Session.findOne({ _id: sessionId, qrToken: token, isActive: true })] *)
Definition Session_findOne (db : Store) (sessionId : ObjectId) (token : string)
  : option Session.doc :=
  find (fun s => String.eqb (Session._id s) sessionId
                 && String.eqb (Session.qrToken s) token
                 && Session.isActive s)
       (sessions db).

(** [Session.findById(id)] *)
Definition Session_findById (db : Store) (id : ObjectId) : option Session.doc :=
  find (fun s => String.eqb (Session._id s) id) (sessions db).

(** The key of the compound index [{ student: 1, session: 1 }]. *)
Definition has_key (student session : ObjectId) (a : Attendance.doc) : bool :=
  String.eqb (Attendance.student a) student
  && String.eqb (Attendance.session_id a) session.

(** [Attendance.findOne({ student, session })] *)
Definition Attendance_findOne (db : Store) (student session : ObjectId)
  : option Attendance.doc :=
  find (has_key student session) (attendances db).

(** [Attendance.findById(id)] *)
Definition Attendance_findById (db : Store) (id : ObjectId)
  : option Attendance.doc :=
  find (fun a => String.eqb (Attendance._id a) id) (attendances db).

(** What is written for a document: its [session] path as the id. *)
Definition depopulate (a : Attendance.doc) : Attendance.doc :=
  Attendance.set_session a (Attendance.Ref (Attendance.session_id a)).

(** [attendance.save()] on a new document: the [pre('save')] hook runs,
    then the insert, which the store refuses when the [_id] or the pair
    [(student, session)] is already there
    ([attendanceSchema.index({ student: 1, session: 1 }, { unique: true })]). *)
Definition Attendance_save (env : Process) (rejected : bool) (db : Store)
    (this : Attendance.doc) : Try (Attendance.doc * Store) :=
  match Attendance.pre_save env this with
  | Throw e => Throw e
  | Return this =>
      if rejected then Throw StorageFailure
      else if existsb (fun a => String.eqb (Attendance._id a) (Attendance._id this))
                      (attendances db)
              || existsb (has_key (Attendance.student this) (Attendance.session_id this))
                         (attendances db)
      then Throw DuplicateKey
      else Return (this, mkStore (sessions db) (attendances db ++ [depopulate this]))
  end.

(** [Session.findByIdAndUpdate(id, { $inc: { attendanceCount: n } })];
    with no such session nothing is written and nothing is thrown. *)
Definition Session_findByIdAndUpdate_inc (rejected : bool) (db : Store)
    (id : ObjectId) (n : Z) : Try Store :=
  if rejected then Throw StorageFailure
  else Return (mkStore
                 (map (fun s => if String.eqb (Session._id s) id
                                then Session.inc_attendanceCount n s else s)
                      (sessions db))
                 (attendances db)).

(** [attendance.populate('session', ...)]: [None] stands for a path left
    [null] because the session is gone. *)
Definition Attendance_populate (db : Store) (a : Attendance.doc)
  : option Attendance.doc :=
  match Session_findById db (Attendance.session_id a) with
  | Some s => Some (Attendance.set_session a (Attendance.Populated s))
  | None => None
  end.

(** ** [POST /api/attendance/scan-qr] (src/unnamed/part_000, lines 409-520) *)

(** [req.body]. [faceEmbedding] stands for a descriptor a client sends
    along, as [POST /api/face-recognition/verify] takes one; the handler
    destructures [qrData], [method], [faceConfidence], [location] and
    [deviceInfo] only. *)
Record ScanBody := mkScanBody {
  qrData_sessionId : ObjectId;
  qrData_token : string;
  body_method : option Attendance.Method;
  body_faceConfidence : option JS.value;
  body_faceEmbedding : option (list float)
}.

(** The three readings of the clock: [new Date()] for the expiry check,
    [new Date()] for the start check, and [Date.now] for the default of
    [markedAt] when the document is constructed. *)
Record Clock := mkClock { at_expiry : Date; at_start : Date; at_creation : Date }.

Definition tick (now : Date) : Clock := mkClock now now now.

Inductive ScanResponse :=
| ValidationFailed                        (* 400, { errors } *)
| InvalidQR                               (* 400, 'Invalid QR code or session not found' *)
| QRExpired                               (* 400, 'QR code has expired' *)
| NotStarted                              (* 400, 'Session has not started yet' *)
| AlreadyMarked (existing : Attendance.doc)  (* 400, 'Attendance already marked for this session' *)
| FaceNotRegistered                       (* 400, 'Face not registered. ...' *)
| ConfidenceTooLow                        (* 400, 'Face recognition confidence too low. ...' *)
| Marked (attendance : Attendance.doc)    (* 201, 'Attendance marked successfully' *)
| ServerError.                            (* 500, 'Server error during attendance marking' *)

(** The express-validator chain: [method] optional and one of ['qr_code'],
    ['face_recognition']; [faceConfidence] optional and
    [isFloat({ min: 0, max: 1 })], which a number passes when it is in
    [0, 1] and which leaves a string that passes it a string. *)
Definition validationResult (env : Process) (body : ScanBody) : bool :=
  match body_method body with
  | None | Some Attendance.qr_code | Some Attendance.face_recognition => true
  | Some Attendance.manual => false
  end
  && match body_faceConfidence body with
     | None => true
     | Some (JS.Num c) => JSNumber.le 0 c && JSNumber.le c 1
     | Some (JS.Str s) => isFloat env s
     end.

(** [const { method = 'qr_code' } = req.body] *)
Definition method_of (body : ScanBody) : Attendance.Method :=
  match body_method body with
  | Some m => m
  | None => Attendance.qr_code
  end.

(** [process.env.FACE_RECOGNITION_THRESHOLD || 0.6]: the variable is a
    string, and the empty string is falsy. *)
Definition threshold (env : Process) : JS.value :=
  match FACE_RECOGNITION_THRESHOLD env with
  | Some t => if String.eqb t "" then JS.Num 0.6 else JS.Str t
  | None => JS.Num 0.6
  end.

(** [!req.user.faceEmbedding || req.user.faceEmbedding.length === 0] *)
Definition no_faceEmbedding (user : User) : bool :=
  match faceEmbedding user with
  | None => true
  | Some e => Nat.eqb (List.length e) 0
  end.

(** [!faceConfidence || faceConfidence < (process.env.FACE_RECOGNITION_THRESHOLD || 0.6)] *)
Definition confidence_too_low (env : Process)
    (faceConfidence : option JS.value) : bool :=
  match faceConfidence with
  | None => true
  | Some c => JS.falsy c || JS_lt env c (threshold env)
  end.

(** The start of the session as the routes compute it:
    [new Date(`${session.date.toISOString().split('T')[0]}T${session.startTime}:00`)],
    an invalid date when the stored [startTime] has one digit of hours. *)
Definition sessionStart (env : Process) (s : Session.doc) : option Date :=
  Date_of_local env (toISODate (Session.date s)) (Session.startTime s).

Inductive Decision :=
| Reject (response : ScanResponse)
| Proceed.

(** The checks of the handler, from the validation result down to the
    face checks: each [return res.status(400)...] is a [Reject]. *)
Definition admissionGate (env : Process) (db : Store) (user : User)
    (body : ScanBody) (clock : Clock) : Decision :=
  if negb (validationResult env body) then Reject ValidationFailed else
  match Session_findOne db (qrData_sessionId body) (qrData_token body) with
  | None => Reject InvalidQR
  | Some session =>
      if at_expiry clock >? Session.expiresAt session then Reject QRExpired else
      if Date_lt (Some (at_start clock)) (sessionStart env session)
      then Reject NotStarted else
      match Attendance_findOne db (user_id user) (qrData_sessionId body) with
      | Some existingAttendance => Reject (AlreadyMarked existingAttendance)
      | None =>
          match method_of body with
          | Attendance.face_recognition =>
              if no_faceEmbedding user then Reject FaceNotRegistered
              else if confidence_too_low env (body_faceConfidence body)
                   then Reject ConfidenceTooLow
                   else Proceed
          | _ => Proceed
          end
      end
  end.

(** [method === 'face_recognition' ? faceConfidence >= 0.8 : true]; the
    comparison is with a number, so a string is converted, and
    [undefined >= 0.8] is false. *)
Definition isVerified_of (env : Process) (method : Attendance.Method)
    (faceConfidence : option JS.value) : bool :=
  match method with
  | Attendance.face_recognition =>
      match faceConfidence with
      | Some c => JSNumber.ge (ToNumber env c) 0.8%float
      | None => false
      end
  | _ => true
  end.

(** [new Attendance({ student, session: sessionId, method, faceConfidence,
    ..., isVerified })] (lines 479-487), with the schema's defaults;
    [session] is given the id of the request, and [faceConfidence] is
    cast to the Number of its path. *)
Definition newAttendance (env : Process) (user : User) (body : ScanBody)
    (clock : Clock) (id : ObjectId) : Attendance.doc :=
  Attendance.mk id (user_id user) (Attendance.Ref (qrData_sessionId body))
                Attendance.present (at_creation clock) (method_of body)
                (option_map (ToNumber env) (body_faceConfidence body))
                (isVerified_of env (method_of body) (body_faceConfidence body))
                None.

(** [await attendance.save(); await Session.findByIdAndUpdate(sessionId,
    { $inc: { attendanceCount: 1 } })] (lines 489-494), the step the spec
    gives to its ledger: the final store, and the saved document or what
    was thrown. *)
Definition persist (env : Process) (outage : Outage) (db : Store)
    (attendance : Attendance.doc) : Store * Try Attendance.doc :=
  match Attendance_save env (save_rejected outage) db attendance with
  | Throw e => (db, Throw e)
  | Return (attendance, db1) =>
      match Session_findByIdAndUpdate_inc (update_rejected outage) db1
              (Attendance.session_id attendance) 1 with
      | Throw e => (db1, Throw e)
      | Return db2 => (db2, Return attendance)
      end
  end.

(** The handler: the gate, the new document, the two writes (lines 489
    to 494), then [populate] (line 497) and the 201 response; whatever
    is thrown on the way is caught and answered with 500. [id] is the
    [_id] the new document gets. *)
Definition scan_qr (env : Process) (outage : Outage) (db : Store) (user : User)
    (body : ScanBody) (clock : Clock) (id : ObjectId) : Store * ScanResponse :=
  match admissionGate env db user body clock with
  | Reject response => (db, response)
  | Proceed =>
      match persist env outage db (newAttendance env user body clock id) with
      | (db, Throw _) => (db, ServerError)
      | (db, Return attendance) =>
          match Attendance_populate db attendance with
          | Some attendance => (db, Marked attendance)
          | None => (db, ServerError)
          end
      end
  end.

(** ** The session routes (src/routes/export.js, lines 571-908) *)

(** [req.body] of [POST /api/sessions], as it is sent; [body_date] is
    the calendar date, taken to be sent as ["YYYY-MM-DD"], as the number
    of its day. *)
Record SessionBody := mkSessionBody {
  body_subject : string;
  body_description : option string;
  body_date : Z;
  body_startTime : TimeString;
  body_endTime : TimeString;
  body_location : option string;
  body_maxStudents : option Z
}.

Inductive SessionResponse :=
| SessionValidationFailed        (* 400, { errors } *)
| EndNotAfterStart               (* 400, 'End time must be after start time' *)
| PastDate                       (* 400, 'Cannot create session for past dates' *)
| Created (session : Session.doc) (* 201, 'Session created successfully' *)
| SessionNotFound                (* 404, 'Session not found' *)
| AccessDenied                   (* 403, 'Access denied' *)
| AlreadyStarted                 (* 400, 'Cannot delete session that has already started' *)
| Deleted                        (* 200, 'Session deleted successfully' *)
| Regenerated (qrToken : string) (* 200, 'QR code regenerated successfully' *)
| SessionServerError.            (* 500 *)

(** [body('subject').trim().isLength({ min: 1 })], the pattern of the
    two times, and [maxStudents] optional and an integer from 1. *)
Definition session_validationResult (env : Process) (body : SessionBody)
  : bool :=
  negb (String.eqb (trim env (body_subject body)) "")
  && matches_time (body_startTime body)
  && matches_time (body_endTime body)
  && match body_maxStudents body with
     | None => true
     | Some n => 1 <=? n
     end.

(** [session.save()] on a new session: the store refuses an [_id] or a
    [qrToken] that is already there ([qrToken: { unique: true }]). *)
Definition Session_save_new (db : Store) (this : Session.doc) : Try Store :=
  if existsb (fun s => String.eqb (Session._id s) (Session._id this)) (sessions db)
     || existsb (fun s => String.eqb (Session.qrToken s) (Session.qrToken this))
                (sessions db)
  then Throw DuplicateKey
  else Return (mkStore (sessions db ++ [this]) (attendances db)).

(** [session.save()] after [session.qrToken = ...]: the one modified
    path is written, unless another session holds that token. *)
Definition Session_save_qrToken (db : Store) (this : Session.doc) : Try Store :=
  if existsb (fun s => negb (String.eqb (Session._id s) (Session._id this))
                       && String.eqb (Session.qrToken s) (Session.qrToken this))
             (sessions db)
  then Throw DuplicateKey
  else Return (mkStore
                 (map (fun s => if String.eqb (Session._id s) (Session._id this)
                                then Session.set_qrToken s (Session.qrToken this)
                                else s)
                      (sessions db))
                 (attendances db)).

(** What is stored for a string that a sanitizer [trim()] has passed
    on, on a path with [trim: true]. *)
Definition trimmed (env : Process) (s : string) : string :=
  trim env (trim env s).

(** [POST /api/sessions]. [now] is the reading of [new Date()] for
    [today], [uuid] the result of [uuidv4()], [id] the [_id] of the new
    document. The QR image of the response is left out. The handler
    reads [subject], [description] and [location] after the sanitizers;
    [start >= end] is false when either is an invalid date; an invalid
    [expiryTime] is refused by the cast of the required path
    [expiresAt] when the session is saved. *)
Definition post_session (env : Process) (db : Store) (user : User)
    (body : SessionBody) (now : Date) (uuid : string) (id : ObjectId)
  : Store * SessionResponse :=
  if negb (session_validationResult env body)
  then (db, SessionValidationFailed) else
  let start := Date_of_local env (body_date body) (body_startTime body) in
  let end_ := Date_of_local env (body_date body) (body_endTime body) in
  if Date_ge start end_ then (db, EndNotAfterStart) else
  let sessionDate := Date_of_day (body_date body) in
  let today := setHours env now 0 0 in
  if sessionDate <? today then (db, PastDate) else
  let qrToken := uuid in
  match end_ with
  | None => (db, SessionServerError)
  | Some end_ =>
      let expiryTime := end_ + 30 * 60000 in
      let session :=
        Session.mk id (trimmed env (body_subject body))
                   (option_map (trimmed env) (body_description body))
                   (user_id user) sessionDate (body_startTime body)
                   (body_endTime body) qrToken true expiryTime
                   (option_map (trimmed env) (body_location body))
                   (match body_maxStudents body with Some n => n | None => 100 end)
                   0 in
      match Session_save_new db session with
      | Throw _ => (db, SessionServerError)
      | Return db => (db, Created session)
      end
  end.

(** [POST /api/sessions/:id/regenerate-qr] *)
Definition regenerate_qr (db : Store) (user : User) (id : ObjectId)
    (uuid : string) : Store * SessionResponse :=
  match Session_findById db id with
  | None => (db, SessionNotFound)
  | Some session =>
      if negb (String.eqb (Session.teacher session) (user_id user))
      then (db, AccessDenied)
      else
        let newQrToken := uuid in
        let session := Session.set_qrToken session newQrToken in
        match Session_save_qrToken db session with
        | Throw _ => (db, SessionServerError)
        | Return db => (db, Regenerated newQrToken)
        end
  end.

(** [DELETE /api/sessions/:id]: [Attendance.deleteMany({ session })],
    then [Session.findByIdAndDelete]. *)
Definition delete_session (env : Process) (db : Store) (user : User)
    (id : ObjectId) (now : Date) : Store * SessionResponse :=
  match Session_findById db id with
  | None => (db, SessionNotFound)
  | Some session =>
      if negb (String.eqb (Session.teacher session) (user_id user))
      then (db, AccessDenied)
      else if Date_ge (Some now) (sessionStart env session)
      then (db, AlreadyStarted)
      else
        (mkStore
           (filter (fun s => negb (String.eqb (Session._id s) id)) (sessions db))
           (filter (fun a => negb (String.eqb (Attendance.session_id a)
                                              (Session._id session)))
                   (attendances db)),
         Deleted)
  end.

(** ** [PUT] and [DELETE /api/attendance/:id] (src/unnamed/part_000, lines 643-716) *)

Inductive ReviewResponse :=
| RecordNotFound     (* 404, 'Attendance record not found' *)
| ReviewDenied       (* 403, 'Access denied' *)
| Reviewed           (* 200 *)
| ReviewServerError. (* 500 *)

Definition is_admin (user : User) : bool :=
  match role user with admin_role => true | _ => false end.

(** [attendance.session.teacher.toString() !== req.user._id.toString()
    && req.user.role !== 'admin'], on the populated record. *)
Definition may_review (user : User) (a : Attendance.doc) : bool :=
  match Attendance.session a with
  | Attendance.Populated s =>
      String.eqb (Session.teacher s) (user_id user) || is_admin user
  | Attendance.Ref _ => false
  end.

(** [PUT /api/attendance/:id]: [findByIdAndUpdate] writes [status] when
    one is given and [remarks] when it is not [undefined], after the
    sanitizer [trim()] and through the setter of a path with
    [trim: true]; no hook runs. *)
Definition put_attendance (env : Process) (db : Store) (user : User)
    (id : ObjectId) (status : option Attendance.Status)
    (remarks : option string) : Store * ReviewResponse :=
  match Attendance_findById db id with
  | None => (db, RecordNotFound)
  | Some attendance =>
      match Attendance_populate db attendance with
      | None => (db, ReviewServerError)
      | Some attendance =>
          if negb (may_review user attendance) then (db, ReviewDenied)
          else
            let update (a : Attendance.doc) :=
              let a := match status with
                       | Some s => Attendance.set_status a s
                       | None => a
                       end in
              match remarks with
              | Some r => Attendance.set_remarks a (Some (trimmed env r))
              | None => a
              end in
            (mkStore (sessions db)
                     (map (fun a => if String.eqb (Attendance._id a) id
                                    then update a else a)
                          (attendances db)),
             Reviewed)
      end
  end.

(** [DELETE /api/attendance/:id]: [findByIdAndDelete], then
    [$inc: { attendanceCount: -1 }] on the record's session. *)
Definition delete_attendance (outage : Outage) (db : Store) (user : User)
    (id : ObjectId) : Store * ReviewResponse :=
  match Attendance_findById db id with
  | None => (db, RecordNotFound)
  | Some attendance =>
      match Attendance_populate db attendance with
      | None => (db, ReviewServerError)
      | Some attendance =>
          if negb (may_review user attendance) then (db, ReviewDenied)
          else
            let db1 :=
              mkStore (sessions db)
                      (filter (fun a => negb (String.eqb (Attendance._id a) id))
                              (attendances db)) in
            match Session_findByIdAndUpdate_inc (update_rejected outage) db1
                    (Attendance.session_id attendance) (-1) with
            | Throw _ => (db1, ReviewServerError)
            | Return db2 => (db2, Reviewed)
            end
      end
  end.

(** ** The store under the routes *)

(** One request to a route that writes to the store, with what the
    handler reads from outside it; and, for the collection of records,
    a [save] of a document by any other writer, which meets the same
    hook and the same index. *)
Inductive Request :=
| SaveAttendance (rejected : bool) (attendance : Attendance.doc)
| ScanQR (outage : Outage) (user : User) (body : ScanBody) (clock : Clock)
         (id : ObjectId)
| PutAttendance (user : User) (id : ObjectId)
                (status : option Attendance.Status) (remarks : option string)
| DeleteAttendance (outage : Outage) (user : User) (id : ObjectId)
| PostSession (user : User) (body : SessionBody) (now : Date) (uuid : string)
              (id : ObjectId)
| RegenerateQR (user : User) (id : ObjectId) (uuid : string)
| DeleteSession (user : User) (id : ObjectId) (now : Date).

Definition handle (env : Process) (db : Store) (r : Request) : Store :=
  match r with
  | SaveAttendance rejected attendance =>
      match Attendance_save env rejected db attendance with
      | Return (_, db) => db
      | Throw _ => db
      end
  | ScanQR outage user body clock id => fst (scan_qr env outage db user body clock id)
  | PutAttendance user id status remarks =>
      fst (put_attendance env db user id status remarks)
  | DeleteAttendance outage user id => fst (delete_attendance outage db user id)
  | PostSession user body now uuid id => fst (post_session env db user body now uuid id)
  | RegenerateQR user id uuid => fst (regenerate_qr db user id uuid)
  | DeleteSession user id now => fst (delete_session env db user id now)
  end.

(** The number of records of a pair [(student, session)]. *)
Definition records_of (db : Store) (student session : ObjectId) : nat :=
  List.length (filter (has_key student session) (attendances db)).

(** The uniqueness constraint of the compound index. *)
Definition unique_index (db : Store) : Prop :=
  forall student session : ObjectId, (records_of db student session <= 1)%nat.

(** MongoDB's own index on [_id], for sessions. *)
Definition unique_session_ids (db : Store) : Prop :=
  NoDup (map Session._id (sessions db)).

(** What the spec calls [InvalidTicket]: the two answers of the ticket
    lookup and of the expiry check. *)
Definition InvalidTicket (d : Decision) : Prop :=
  d = Reject InvalidQR \/ d = Reject QRExpired.

(** A session of the store that a presentation names, with the token it
    carries, and that is admissible at [now]. *)
Definition admissible_ticket (db : Store) (body : ScanBody) (now : Date)
    (s : Session.doc) : Prop :=
  In s (sessions db)
  /\ Session._id s = qrData_sessionId body
  /\ Session.qrToken s = qrData_token body
  /\ Session.isValid now s = true.

(** The checks of the gate that come before the duplicate check: the
    request is well formed, the ticket is found, not expired, and the
    start check does not fire. *)
Definition ticket_checks_pass (env : Process) (db : Store) (body : ScanBody)
    (clock : Clock) : Prop :=
  validationResult env body = true
  /\ exists session,
       Session_findOne db (qrData_sessionId body) (qrData_token body) = Some session
       /\ at_expiry clock <= Session.expiresAt session
       /\ Date_lt (Some (at_start clock)) (sessionStart env session) = false.

(** The server's calendar date at [now], as the number of its day. *)
Definition local_day (env : Process) (now : Date) : Z :=
  (now + utcOffset env) / msPerDay.

(** A run of requests, in the order they arrive. *)
Definition run (env : Process) (db : Store) (requests : list Request) : Store :=
  fold_left (handle env) requests db.

(** ** A session and its requests, for the examples *)

Module Scenario.

(** The library functions on the strings of the examples: [trim] on
    ASCII text, and [Number] and [isFloat] on the numerals [".9"],
    ["1e-1"] and ["0.6"]. *)
Definition is_blank (c : ascii) : bool :=
  Ascii.eqb c " " || ((9 <=? N_of_ascii c) && (N_of_ascii c <=? 13))%N.

Fixpoint trimStart (s : string) : string :=
  match s with
  | String c s' => if is_blank c then trimStart s' else s
  | EmptyString => EmptyString
  end.

Fixpoint trimEnd (s : string) : string :=
  match s with
  | EmptyString => EmptyString
  | String c s' =>
      match trimEnd s' with
      | EmptyString => if is_blank c then EmptyString else String c EmptyString
      | t => String c t
      end
  end.

Definition trim_ascii (s : string) : string := trimEnd (trimStart s).

Definition Number_of (s : string) : float :=
  if String.eqb s ".9" then 0.9%float
  else if String.eqb s "1e-1" then 0.1%float
  else if String.eqb s "0.6" then 0.6%float
  else nan.

Definition isFloat_of (s : string) : bool :=
  String.eqb s ".9" || String.eqb s "1e-1" || String.eqb s "0.6".

(** A server on Indian time (UTC+5:30), one on New York time (UTC-5),
    and one on Indian time with the threshold set in the environment. *)
Definition IST : Process := mkProcess 19800000 None Number_of isFloat_of trim_ascii.
Definition New_York : Process := mkProcess (-18000000) None Number_of isFloat_of trim_ascii.
Definition configured : Process :=
  mkProcess 19800000 (Some "0.6") Number_of isFloat_of trim_ascii.

(** 2024-01-15 *)
Definition day : Z := 19737.

Definition local (h m : Z) : Date := local_time IST day h m.

(** The session of the spec's scenario: 09:00 to 10:00, expiring at 10:30. *)
Definition maths : Session.doc :=
  Session.mk "s1" "Maths" None "t1" (Date_of_day day) (mkTime 9 0 true)
             (mkTime 10 0 true) "token-1" true (local 10 30) None 100 0.

Definition revoked : Session.doc :=
  Session.mk "s1" "Maths" None "t1" (Date_of_day day) (mkTime 9 0 true)
             (mkTime 10 0 true) "token-1" false (local 10 30) None 100 0.

(** The same session with its start written ["9:00"]. *)
Definition maths_9 : Session.doc :=
  Session.mk "s1" "Maths" None "t1" (Date_of_day day) (mkTime 9 0 false)
             (mkTime 10 0 true) "token-1" true (local 10 30) None 100 0.

Definition db0 : Store := mkStore [maths] [].

Definition ones : list float := repeat 1%float 128.
Definition e1 : list float := 1%float :: repeat 0%float 127.
Definition e2 : list float := 0%float :: 1%float :: repeat 0%float 126.

Definition student : User := mkUser "u1" student_role None.
Definition enrolled : User := mkUser "u1" student_role (Some ones).
Definition teacher : User := mkUser "t1" teacher_role None.

Definition qr : ScanBody := mkScanBody "s1" "token-1" None None None.

Definition face (confidence : float) (descriptor : list float) : ScanBody :=
  mkScanBody "s1" "token-1" (Some Attendance.face_recognition)
             (Some (JS.Num confidence)) (Some descriptor).

(** The same with the confidence sent as a string. *)
Definition face_string (confidence : string) : ScanBody :=
  mkScanBody "s1" "token-1" (Some Attendance.face_recognition)
             (Some (JS.Str confidence)) None.

(** A record of the student for the session, as the collection holds it. *)
Definition record : Attendance.doc :=
  Attendance.mk "a1" "u1" (Attendance.Ref "s1") Attendance.present (local 9 5)
                Attendance.qr_code None true None.

Definition db1 : Store := mkStore [maths] [record].

(** A document for the same pair, with its session populated. *)
Definition candidate : Attendance.doc :=
  Attendance.mk "a1" "u1" (Attendance.Populated maths) Attendance.present
                (local 9 5) Attendance.qr_code None true None.

Definition posted : SessionBody :=
  mkSessionBody "Maths" None day (mkTime 9 0 true) (mkTime 10 0 true) None None.

(** A start written ["9:00"], with the end at 08:00. *)
Definition posted_9 : SessionBody :=
  mkSessionBody "Maths" None day (mkTime 9 0 false) (mkTime 8 0 true) None None.

End Scenario.

(** ** The face-recognition routes (src/routes/export.js, lines 354-543) *)

Inductive FaceResponse :=
| FaceValidationFailed       (* 400, { errors } *)
| NotExactly128              (* 400, '... must be exactly 128 dimensions' *)
| OnlyStudents               (* 403, 'Only students can ... face embeddings' *)
| FaceRegistered (hasFaceEmbedding : bool)  (* 200, 'Face registered successfully' *)
| NoFaceRegistered           (* 400, 'No face registered. Please register your face first.' *)
| FaceVerified (isMatch : bool) (confidence threshold : float)  (* 200 *)
| FaceStatus (hasFaceEmbedding : bool)      (* 200 *)
| FaceRemoved                (* 200, 'Face embedding removed successfully' *)
| FaceCompared (similarity : float) (isMatch : bool)  (* 200 *)
| FaceServerError.           (* 500 *)

Definition is_student (user : User) : bool :=
  match role user with student_role => true | _ => false end.

(** [body('faceEmbedding').isArray({ min: 128 })]; the entries are numbers. *)
Definition isArray_min128 (a : list float) : bool :=
  Nat.leb 128 (List.length a).

(** The two validators of an embedding: [isArray({ min: 128 })] and, on
    [faceEmbedding.*], [isNumeric()]. express-validator tests each entry
    as JavaScript prints it, and so refuses a number that is printed with
    an exponent, such as [1e-7]; the test on one entry is the parameter
    [isNumeric] of the routes below. *)
Definition embedding_valid (isNumeric : float -> bool) (a : list float) : bool :=
  isArray_min128 a && forallb isNumeric a.

(** [User.findByIdAndUpdate(id, { faceEmbedding }, { new: true })]: the
    updated document, or [None] for [null], and the collection. *)
Definition User_findByIdAndUpdate_faceEmbedding (users : list User)
    (id : ObjectId) (embedding : list float) : option User * list User :=
  match find (fun u => String.eqb (user_id u) id) users with
  | None => (None, users)
  | Some u =>
      (Some (mkUser (user_id u) (role u) (Some embedding)),
       map (fun u => if String.eqb (user_id u) id
                     then mkUser (user_id u) (role u) (Some embedding) else u)
           users)
  end.

(** [POST /api/face-recognition/register] (lines 364-411) *)
Definition face_register (isNumeric : float -> bool) (users : list User)
    (user : User) (faceEmbedding : list float) : list User * FaceResponse :=
  if negb (embedding_valid isNumeric faceEmbedding)
  then (users, FaceValidationFailed) else
  if negb (Nat.eqb (List.length faceEmbedding) 128) then (users, NotExactly128) else
  if negb (is_student user) then (users, OnlyStudents) else
  match User_findByIdAndUpdate_faceEmbedding users (user_id user) faceEmbedding with
  | (Some user, users) =>
      (users, FaceRegistered (negb (no_faceEmbedding user)))
  | (None, users) => (users, FaceServerError)
  end.

(** [POST /api/face-recognition/verify] (lines 415-453); [submitted] is
    the [faceEmbedding] of the request, [threshold] is optional, a float
    in [0, 1], and 0.6 when it is not sent. *)
Definition face_verify (isNumeric : float -> bool) (user : User)
    (submitted : list float) (threshold : option float) : FaceResponse :=
  if negb (embedding_valid isNumeric submitted
           && match threshold with
              | None => true
              | Some t => JSNumber.le 0 t && JSNumber.le t 1
              end)
  then FaceValidationFailed else
  let threshold := match threshold with Some t => t | None => 0.6%float end in
  if no_faceEmbedding user then NoFaceRegistered else
  match faceEmbedding user with
  | None => NoFaceRegistered
  | Some stored =>
      match calculateCosineSimilarity stored submitted with
      | Throw _ => FaceServerError
      | Return similarity =>
          FaceVerified (JSNumber.ge similarity threshold) similarity threshold
      end
  end.

(** [GET /api/face-recognition/status] (lines 458-472) *)
Definition face_status (user : User) : FaceResponse :=
  FaceStatus (negb (no_faceEmbedding user)).

(** [DELETE /api/face-recognition/remove] (lines 477-506) *)
Definition face_remove (users : list User) (user : User)
  : list User * FaceResponse :=
  if negb (is_student user) then (users, OnlyStudents) else
  match User_findByIdAndUpdate_faceEmbedding users (user_id user) [] with
  | (Some _, users) => (users, FaceRemoved)
  | (None, users) => (users, FaceServerError)
  end.

(** [POST /api/face-recognition/compare] (lines 511-542); the message of
    the answer is the similarity printed with four decimals. *)
Definition face_compare (isNumeric : float -> bool)
    (embedding1 embedding2 : list float) : FaceResponse :=
  if negb (embedding_valid isNumeric embedding1
           && embedding_valid isNumeric embedding2)
  then FaceValidationFailed else
  if negb (Nat.eqb (List.length embedding1) 128)
     || negb (Nat.eqb (List.length embedding2) 128)
  then NotExactly128 else
  match calculateCosineSimilarity embedding1 embedding2 with
  | Throw _ => FaceServerError
  | Return similarity =>
      FaceCompared similarity (JSNumber.ge similarity 0.6%float)
  end.

(** The user as the next request finds it: [req.user] is read from the
    collection by its id. *)
Definition User_findById (users : list User) (id : ObjectId) : option User :=
  find (fun u => String.eqb (user_id u) id) users.

(** Every stored embedding is empty or has 128 entries. *)
Definition embeddings_sized (users : list User) : Prop :=
  forall u e, In u users -> faceEmbedding u = Some e ->
              e = [] \/ List.length e = 128%nat.

(** A zero of either sign. *)
Definition is_zero (x : float) : Prop := x = 0%float \/ x = (-0)%float.

(** ** [PUT /api/sessions/:id] and [GET /api/sessions]
    (src/routes/export.js, lines 686-720 and 763-818) *)

Record ModifyBody := mkModifyBody {
  new_subject : option string;
  new_description : option string;
  new_location : option string;
  new_maxStudents : option Z
}.

Inductive ModifyResponse :=
| ModifyValidationFailed   (* 400, { errors } *)
| ModifyNotFound           (* 404, 'Session not found' *)
| ModifyDenied             (* 403, 'Access denied' *)
| ModifyStarted            (* 400, 'Cannot modify session that has already started' *)
| Modified (session : Session.doc).  (* 200, 'Session updated successfully' *)

(** [body('subject').optional().trim().isLength({ min: 1 })], and
    [maxStudents] optional and an integer from 1. *)
Definition modify_validationResult (env : Process) (body : ModifyBody) : bool :=
  match new_subject body with
  | None => true
  | Some s => negb (String.eqb (trim env s) "")
  end
  && match new_maxStudents body with
     | None => true
     | Some n => 1 <=? n
     end.

(** [updateData]: [if (subject) ...], [if (description !== undefined)
    ...], [if (location !== undefined) ...], [if (maxStudents) ...], on
    the values the sanitizers have passed on, written through the
    setters of the paths. *)
Definition updateData (env : Process) (body : ModifyBody) (s : Session.doc)
  : Session.doc :=
  Session.mk (Session._id s)
    (match new_subject body with
     | Some x => if String.eqb (trim env x) "" then Session.subject s
                 else trimmed env x
     | None => Session.subject s
     end)
    (match new_description body with
     | Some d => Some (trimmed env d)
     | None => Session.description s
     end)
    (Session.teacher s) (Session.date s) (Session.startTime s)
    (Session.endTime s) (Session.qrToken s) (Session.isActive s)
    (Session.expiresAt s)
    (match new_location body with
     | Some l => Some (trimmed env l)
     | None => Session.location s
     end)
    (match new_maxStudents body with
     | Some n => if n =? 0 then Session.maxStudents s else n
     | None => Session.maxStudents s
     end)
    (Session.attendanceCount s).

(** [PUT /api/sessions/:id] *)
Definition put_session (env : Process) (db : Store) (user : User)
    (id : ObjectId) (body : ModifyBody) (now : Date) : Store * ModifyResponse :=
  if negb (modify_validationResult env body)
  then (db, ModifyValidationFailed) else
  match Session_findById db id with
  | None => (db, ModifyNotFound)
  | Some session =>
      if negb (String.eqb (Session.teacher session) (user_id user))
      then (db, ModifyDenied)
      else if Date_ge (Some now) (sessionStart env session)
      then (db, ModifyStarted)
      else
        (mkStore (map (fun s => if String.eqb (Session._id s) id
                                then updateData env body s else s)
                      (sessions db))
                 (attendances db),
         Modified (updateData env body session))
  end.

(** The query of [GET /api/sessions]: the caller's sessions, and with
    [status] ['active'] those with [isActive] and [expiresAt > now], with
    ['expired'] those with [expiresAt <= now]; any other [status] asks
    for all of them. *)
Definition sessions_query (user : User) (status : string) (now : Date)
    (s : Session.doc) : bool :=
  String.eqb (Session.teacher s) (user_id user)
  && if String.eqb status "active"
     then Session.isActive s && (Session.expiresAt s >? now)
     else if String.eqb status "expired"
          then Session.expiresAt s <=? now
          else true.

(** [.skip((page - 1) * limit).limit(parseInt(limit))], for a page and a
    limit from 1. *)
Definition paginate {A : Type} (page limit : positive) (l : list A) : list A :=
  firstn (Pos.to_nat limit)
         (skipn ((Pos.to_nat page - 1) * Pos.to_nat limit) l).

(** [Math.ceil(total / limit)] *)
Definition pages (total : nat) (limit : positive) : nat :=
  (total + Pos.to_nat limit - 1) / Pos.to_nat limit.

Record Pagination := mkPagination {
  current : positive;
  pages_count : nat;
  total : nat
}.

(** [GET /api/sessions]: the sessions come sorted by [createdAt], the
    latest first; [createdAt] is set when the session is inserted, so
    that is the collection backwards. *)
Definition get_sessions (db : Store) (user : User) (page limit : positive)
    (status : string) (now : Date) : list Session.doc * Pagination :=
  let found := rev (filter (sessions_query user status now) (sessions db)) in
  (paginate page limit found,
   mkPagination page (pages (List.length found) limit) (List.length found)).

(** The pages from 1 to [n], one after the other. *)
Fixpoint pages_upto {A : Type} (n : nat) (limit : positive) (l : list A)
  : list A :=
  match n with
  | O => []
  | S k => pages_upto k limit l ++ paginate (Pos.of_nat (S k)) limit l
  end.

(** What [PUT /api/sessions/:id] leaves as it is in a session. *)
Definition same_ticket (s s' : Session.doc) : Prop :=
  Session._id s' = Session._id s
  /\ Session.teacher s' = Session.teacher s
  /\ Session.date s' = Session.date s
  /\ Session.startTime s' = Session.startTime s
  /\ Session.endTime s' = Session.endTime s
  /\ Session.qrToken s' = Session.qrToken s
  /\ Session.isActive s' = Session.isActive s
  /\ Session.expiresAt s' = Session.expiresAt s
  /\ Session.attendanceCount s' = Session.attendanceCount s.

(** ** Reading attendance (src/unnamed/part_000, lines 522-638) *)

(** [.sort({ markedAt: -1 })]: the latest first. MongoDB leaves the
    order of records marked at the same instant open; they are taken in
    the order of the collection, in every query alike. *)
Fixpoint insert_by_markedAt (a : Attendance.doc) (l : list Attendance.doc)
  : list Attendance.doc :=
  match l with
  | [] => [a]
  | b :: l' =>
      if Attendance.markedAt b <=? Attendance.markedAt a
      then a :: l
      else b :: insert_by_markedAt a l'
  end.

Definition sort_markedAt_desc (l : list Attendance.doc) : list Attendance.doc :=
  fold_right insert_by_markedAt [] l.

Definition Method_eqb (a b : Attendance.Method) : bool :=
  match a, b with
  | Attendance.qr_code, Attendance.qr_code
  | Attendance.face_recognition, Attendance.face_recognition
  | Attendance.manual, Attendance.manual => true
  | _, _ => false
  end.

(** [attendance.filter(a => a.status === s).length] *)
Definition count_status (s : Attendance.Status) (l : list Attendance.doc) : nat :=
  List.length (filter (fun a => Attendance.Status_eqb (Attendance.status a) s) l).

(** [attendance.filter(a => a.method === m).length] *)
Definition count_method (m : Attendance.Method) (l : list Attendance.doc) : nat :=
  List.length (filter (fun a => Method_eqb (Attendance.method a) m) l).

(** [stats] of [GET /api/attendance/session/:sessionId] *)
Record SessionStats := mkSessionStats {
  stats_total : nat;
  stats_present : nat;
  stats_late : nat;
  stats_absent : nat;
  stats_qrCode : nat;
  stats_faceRecognition : nat
}.

Inductive SessionAttendanceResponse :=
| AttendanceSessionNotFound   (* 404, 'Session not found' *)
| AttendanceDenied            (* 403, 'Access denied' *)
| SessionAttendance (session : Session.doc) (attendance : list Attendance.doc)
                    (stats : SessionStats).  (* 200 *)

(** [Attendance.find({ session: sessionId })] *)
Definition Attendance_find_session (db : Store) (sessionId : ObjectId)
  : list Attendance.doc :=
  filter (fun a => String.eqb (Attendance.session_id a) sessionId)
         (attendances db).

(** [GET /api/attendance/session/:sessionId] (lines 594-638) *)
Definition get_session_attendance (db : Store) (user : User)
    (sessionId : ObjectId) : SessionAttendanceResponse :=
  match Session_findById db sessionId with
  | None => AttendanceSessionNotFound
  | Some session =>
      if negb (String.eqb (Session.teacher session) (user_id user))
         && negb (is_admin user)
      then AttendanceDenied
      else
        let attendance :=
          sort_markedAt_desc (Attendance_find_session db sessionId) in
        SessionAttendance session attendance
          (mkSessionStats (List.length attendance)
                          (count_status Attendance.present attendance)
                          (count_status Attendance.late attendance)
                          0
                          (count_method Attendance.qr_code attendance)
                          (count_method Attendance.face_recognition attendance))
  end.

(** [req.query] of [GET /api/attendance/my-attendance]; the dates are
    what [new Date(startDate)] and [new Date(endDate)] give. *)
Record MyQuery := mkMyQuery {
  my_page : positive;
  my_limit : positive;
  my_status : option string;
  my_startDate : option Date;
  my_endDate : option Date
}.

(** [status && ['present', 'absent', 'late'].includes(status)] *)
Definition status_of_query (status : option string) : option Attendance.Status :=
  match status with
  | None => None
  | Some s =>
      if String.eqb s "present" then Some Attendance.present
      else if String.eqb s "absent" then Some Attendance.absent
      else if String.eqb s "late" then Some Attendance.late
      else None
  end.

(** The [query] of the route: the student, the status when it is a valid
    one, and [markedAt] between the two dates that are given. *)
Definition my_query (user : User) (q : MyQuery) (a : Attendance.doc) : bool :=
  String.eqb (Attendance.student a) (user_id user)
  && match status_of_query (my_status q) with
     | Some s => Attendance.Status_eqb (Attendance.status a) s
     | None => true
     end
  && match my_startDate q with
     | Some d => d <=? Attendance.markedAt a
     | None => true
     end
  && match my_endDate q with
     | Some d => Attendance.markedAt a <=? d
     | None => true
     end.

(** [{ $group: { _id: '$status', count: { $sum: 1 } } }]: one entry per
    status that occurs, with the number of its records. *)
Fixpoint bump (s : Attendance.Status) (groups : list (Attendance.Status * nat))
  : list (Attendance.Status * nat) :=
  match groups with
  | [] => [(s, 1%nat)]
  | (s', n) :: rest =>
      if Attendance.Status_eqb s' s then (s', S n) :: rest
      else (s', n) :: bump s rest
  end.

Definition group_by_status (l : list Attendance.doc)
  : list (Attendance.Status * nat) :=
  fold_left (fun groups a => bump (Attendance.status a) groups) l [].

(** [attendanceStats]: [{ present: 0, late: 0, absent: 0, total: 0 }],
    then for each group [attendanceStats[stat._id] = stat.count] and
    [attendanceStats.total += stat.count]. *)
Record AttendanceStats := mkAttendanceStats {
  my_present : nat;
  my_late : nat;
  my_absent : nat;
  my_total : nat
}.

Definition add_group (stats : AttendanceStats) (stat : Attendance.Status * nat)
  : AttendanceStats :=
  let (s, count) := stat in
  match s with
  | Attendance.present =>
      mkAttendanceStats count (my_late stats) (my_absent stats)
                        (my_total stats + count)
  | Attendance.late =>
      mkAttendanceStats (my_present stats) count (my_absent stats)
                        (my_total stats + count)
  | Attendance.absent =>
      mkAttendanceStats (my_present stats) (my_late stats) count
                        (my_total stats + count)
  end.

Definition attendanceStats (groups : list (Attendance.Status * nat))
  : AttendanceStats :=
  fold_left add_group groups (mkAttendanceStats 0 0 0 0).

(** [GET /api/attendance/my-attendance] (lines 525-589): the page of the
    records that match the query, the pagination and the statistics,
    which are taken over all the records of the student. *)
Definition my_attendance (db : Store) (user : User) (q : MyQuery)
  : list Attendance.doc * Pagination * AttendanceStats :=
  let found := sort_markedAt_desc (filter (my_query user q) (attendances db)) in
  (paginate (my_page q) (my_limit q) found,
   mkPagination (my_page q) (pages (List.length found) (my_limit q))
                (List.length found),
   attendanceStats
     (group_by_status
        (filter (fun a => String.eqb (Attendance.student a) (user_id user))
                (attendances db)))).

(** The count that a list of groups holds for a status. *)
Fixpoint group_count (s : Attendance.Status)
    (groups : list (Attendance.Status * nat)) : nat :=
  match groups with
  | [] => 0
  | (s', n) :: rest =>
      if Attendance.Status_eqb s' s then n else group_count s rest
  end.

(** What a review leaves as it is in a record. *)
Definition same_admission (a a' : Attendance.doc) : Prop :=
  Attendance._id a' = Attendance._id a
  /\ Attendance.student a' = Attendance.student a
  /\ Attendance.session a' = Attendance.session a
  /\ Attendance.markedAt a' = Attendance.markedAt a
  /\ Attendance.method a' = Attendance.method a
  /\ Attendance.faceConfidence a' = Attendance.faceConfidence a
  /\ Attendance.isVerified a' = Attendance.isVerified a.

(** The list is sorted by [markedAt], the latest first. *)
Inductive sorted_desc : list Attendance.doc -> Prop :=
| sorted_nil : sorted_desc []
| sorted_one a : sorted_desc [a]
| sorted_cons a b l :
    Attendance.markedAt b <= Attendance.markedAt a ->
    sorted_desc (b :: l) -> sorted_desc (a :: b :: l).

(** [attendanceStats[s]] *)
Definition stats_field (s : Attendance.Status) (stats : AttendanceStats) : nat :=
  match s with
  | Attendance.present => my_present stats
  | Attendance.late => my_late stats
  | Attendance.absent => my_absent stats
  end.

(** The sum of the counts of a list of groups. *)
Definition group_sum (groups : list (Attendance.Status * nat)) : nat :=
  fold_right (fun stat n => (snd stat + n)%nat) 0%nat groups.

(** ** The attendance of a student (src/routes/students.js, lines 63-110
    and 201-279)

    The handlers run behind [authorize('teacher', 'admin')]; [None] is
    their 404, 'Student not found'. *)

(** [Attendance.find({ student })] *)
Definition Attendance_find_student (db : Store) (student : ObjectId)
  : list Attendance.doc :=
  filter (fun a => String.eqb (Attendance.student a) student) (attendances db).

(** [GET /api/students/:id]: the statistics of the student and the five
    latest records. *)
Definition get_student (users : list User) (db : Store) (id : ObjectId)
  : option (AttendanceStats * list Attendance.doc) :=
  match User_findById users id with
  | None => None
  | Some student =>
      if negb (is_student student) then None
      else
        Some (attendanceStats
                (group_by_status (Attendance_find_student db (user_id student))),
              firstn 5 (sort_markedAt_desc
                          (Attendance_find_student db (user_id student))))
  end.

(** [GET /api/students/:id/attendance]: the query, the page, the
    pagination and the statistics are those of
    [GET /api/attendance/my-attendance], for the student that is found. *)
Definition get_student_attendance (users : list User) (db : Store)
    (id : ObjectId) (q : MyQuery)
  : option (list Attendance.doc * Pagination * AttendanceStats) :=
  match User_findById users id with
  | None => None
  | Some student =>
      if negb (is_student student) then None
      else Some (my_attendance db student q)
  end.

(** ** [GET /api/sessions/:id] (src/routes/export.js, lines 725-758) *)

Inductive SessionDetailResponse :=
| DetailNotFound      (* 404, 'Session not found' *)
| DetailDenied        (* 403, 'Access denied' *)
| DetailServerError   (* 500 *)
| SessionDetail (session : Session.doc) (attendance : list Attendance.doc)
                (attendanceStats : AttendanceStats).  (* 200 *)

(** The session comes with [populate('teacher', 'name email')], and the
    handler reads [session.teacher._id]: with no such user the path is
    [null] and the read throws. The handler runs behind
    [authorize('teacher', 'admin')]. *)
Definition get_session (users : list User) (db : Store) (user : User)
    (id : ObjectId) : SessionDetailResponse :=
  match Session_findById db id with
  | None => DetailNotFound
  | Some session =>
      match User_findById users (Session.teacher session) with
      | None => DetailServerError
      | Some teacher =>
          if negb (String.eqb (user_id teacher) (user_id user))
          then DetailDenied
          else
            let attendance :=
              sort_markedAt_desc
                (Attendance_find_session db (Session._id session)) in
            SessionDetail session attendance
              (mkAttendanceStats
                 (count_status Attendance.present attendance)
                 (count_status Attendance.late attendance)
                 0
                 (List.length attendance))
      end
  end.

(** * Properties *)

(** ** Numbers *)

Lemma SFmul_comm prec emax (x y : spec_float) :
  SFmul prec emax x y = SFmul prec emax y x.
Proof.
  destruct x as [sx|sx| |sx mx ex], y as [sy|sy| |sy my ey]; simpl;
    try reflexivity; try (rewrite xorb_comm; reflexivity).
  rewrite xorb_comm, Pos.mul_comm, Z.add_comm. reflexivity.
Qed.

(** Binary64 multiplication is commutative, bit for bit. *)
Lemma float_mul_comm (x y : float) : (x * y = y * x)%float.
Proof.
  apply Prim2SF_inj. rewrite !mul_spec. apply SFmul_comm.
Qed.

(** ** The similarity scorer *)

Lemma loop_body_swap (acc : Acc) (x y : float) :
  loop_body (swap_acc acc) y x = swap_acc (loop_body acc x y).
Proof.
  unfold loop_body, swap_acc; simpl. now rewrite (float_mul_comm y x).
Qed.

Lemma loop_swap (e1 : list float) :
  forall (e2 : list float) (acc : Acc),
    loop (swap_acc acc) e2 e1 = swap_acc (loop acc e1 e2).
Proof.
  induction e1 as [|x e1 IH]; intros [|y e2] acc; simpl; try reflexivity.
  rewrite loop_body_swap. apply IH.
Qed.

Lemma loop_sym (a b : list float) :
  loop (mkAcc 0 0 0) b a = swap_acc (loop (mkAcc 0 0 0) a b).
Proof. apply (loop_swap a b (mkAcc 0 0 0)). Qed.

Example cosine_same :
  calculateCosineSimilarity [3; 4]%float [3; 4]%float = Return 1%float.
Proof. reflexivity. Qed.

Example cosine_orthogonal :
  calculateCosineSimilarity [1; 0]%float [0; 1]%float = Return 0%float.
Proof. reflexivity. Qed.

Example cosine_zero_norm :
  calculateCosineSimilarity [0; 0]%float [5; 1]%float = Return 0%float.
Proof. reflexivity. Qed.

Example cosine_mismatch :
  calculateCosineSimilarity [1]%float [1; 2]%float
  = Throw (Error "Embeddings must have the same length").
Proof. reflexivity. Qed.

(** C8. The similarity scorer is symmetric: on any two arrays of numbers,
    [calculateCosineSimilarity a b] and [calculateCosineSimilarity b a]
    return the same number (or throw the same error, which happens only
    when the lengths differ). *)
Theorem calculateCosineSimilarity_symmetric (a b : list float) :
  calculateCosineSimilarity a b = calculateCosineSimilarity b a.
Proof.
  unfold calculateCosineSimilarity.
  rewrite (Nat.eqb_sym (List.length b) (List.length a)).
  destruct (Nat.eqb (List.length a) (List.length b)); simpl; [|reflexivity].
  rewrite (loop_sym a b).
  set (acc := loop _ a b). simpl.
  rewrite (orb_comm (JSNumber.strict_eq (PrimFloat.sqrt (norm2 acc)) 0%float)).
  rewrite (float_mul_comm (PrimFloat.sqrt (norm2 acc))).
  reflexivity.
Qed.

(** ** Lookups *)

Lemma Session_findOne_Some (db : Store) (id : ObjectId) (token : string)
    (s : Session.doc) :
  Session_findOne db id token = Some s ->
  In s (sessions db) /\ Session._id s = id /\ Session.qrToken s = token
  /\ Session.isActive s = true.
Proof.
  unfold Session_findOne. intros H. apply find_some in H as [Hin H].
  apply andb_true_iff in H as [H Hact]. apply andb_true_iff in H as [Hid Htok].
  apply String.eqb_eq in Hid, Htok. auto.
Qed.

Lemma Session_findOne_None (db : Store) (id : ObjectId) (token : string) :
  Session_findOne db id token = None ->
  forall s, In s (sessions db) -> Session._id s = id ->
            Session.qrToken s = token -> Session.isActive s = false.
Proof.
  unfold Session_findOne. intros H s Hin Hid Htok.
  pose proof (find_none _ _ H s Hin) as Hs. cbv beta in Hs.
  rewrite Hid, Htok, !String.eqb_refl in Hs. exact Hs.
Qed.

Lemma unique_session (db : Store) (s s' : Session.doc) :
  unique_session_ids db -> In s (sessions db) -> In s' (sessions db) ->
  Session._id s = Session._id s' -> s = s'.
Proof.
  unfold unique_session_ids. induction (sessions db) as [|x l IH]; simpl.
  - intros _ [].
  - intros Hnd Hs Hs' Hid. inversion Hnd as [|? ? Hx Hl]; subst.
    destruct Hs as [->|Hs], Hs' as [->|Hs']; auto.
    + exfalso. apply Hx. rewrite Hid. now apply in_map.
    + exfalso. apply Hx. rewrite <- Hid. now apply in_map.
Qed.

Lemma isValid_iff (s : Session.doc) (now : Date) :
  Session.isValid now s = true
  <-> Session.isActive s = true /\ now <= Session.expiresAt s.
Proof.
  unfold Session.isValid, Session.isExpired.
  rewrite andb_true_iff, negb_true_iff, Z.gtb_ltb, Z.ltb_ge. reflexivity.
Qed.

(** ** The ticket checks of the gate *)

Example scenario_0859 :
  admissionGate Scenario.IST Scenario.db0 Scenario.student Scenario.qr
                (tick (Scenario.local 8 59)) = Reject NotStarted.
Proof. reflexivity. Qed.

Example scenario_0905 :
  admissionGate Scenario.IST Scenario.db0 Scenario.student Scenario.qr
                (tick (Scenario.local 9 5)) = Proceed.
Proof. reflexivity. Qed.

Example scenario_1030 :
  admissionGate Scenario.IST Scenario.db0 Scenario.student Scenario.qr
                (tick (Scenario.local 10 30)) = Proceed.
Proof. reflexivity. Qed.

Example scenario_1031 :
  admissionGate Scenario.IST Scenario.db0 Scenario.student Scenario.qr
                (tick (Scenario.local 10 31)) = Reject QRExpired.
Proof. reflexivity. Qed.

(** The two answers of the ticket checks are given exactly when no
    session of the store matches the presentation and is admissible. *)
Lemma gate_InvalidTicket_iff (env : Process) (db : Store) (user : User)
    (body : ScanBody) (clock : Clock) :
  unique_session_ids db ->
  validationResult env body = true ->
  InvalidTicket (admissionGate env db user body clock)
  <-> ~ exists s, admissible_ticket db body (at_expiry clock) s.
Proof.
  intros Huniq Hvalid.
  unfold admissionGate, InvalidTicket, admissible_ticket. rewrite Hvalid.
  cbn [negb].
  destruct (Session_findOne db (qrData_sessionId body) (qrData_token body))
    as [session|] eqn:Hfind.
  - apply Session_findOne_Some in Hfind as (Hin & Hid & Htok & Hact).
    destruct (at_expiry clock >? Session.expiresAt session) eqn:Hexp.
    + split; [intros _|auto].
      intros (s & Hs & Hsid & _ & Hv).
      assert (s = session) as -> by
          (apply (unique_session db); auto; congruence).
      apply isValid_iff in Hv. rewrite Z.gtb_ltb, Z.ltb_lt in Hexp. lia.
    + split.
      * intros H. exfalso.
        destruct (Date_lt (Some (at_start clock)) (sessionStart env session));
          [destruct H; discriminate|].
        destruct (Attendance_findOne db (user_id user) (qrData_sessionId body));
          [destruct H; discriminate|].
        destruct (method_of body); try (destruct H; discriminate).
        destruct (no_faceEmbedding user); [destruct H; discriminate|].
        destruct (confidence_too_low env (body_faceConfidence body));
          destruct H; discriminate.
      * intros H. exfalso. apply H. exists session.
        repeat split; auto. apply isValid_iff. split; [assumption|].
        rewrite Z.gtb_ltb, Z.ltb_ge in Hexp. exact Hexp.
  - split; [intros _|auto].
    intros (s & Hs & Hsid & Htok & Hv). apply isValid_iff in Hv as [Hact _].
    rewrite (Session_findOne_None db _ _ Hfind s Hs Hsid Htok) in Hact.
    discriminate.
Qed.

(** C4. A ticket is admissible exactly when it is active and
    [now <= expiresAt]: true before [expiresAt], still true at
    [now = expiresAt], false after it. On a store whose sessions have
    distinct ids, a well-formed presentation is rejected as
    [InvalidTicket] exactly when no session of the store has the
    presented id and token and is admissible at the time of the expiry
    check: a presentation against a ticket that is not found, and one
    against a ticket that is inactive, holds another token or is past
    [expiresAt], is rejected as [InvalidTicket]. *)
Theorem isValid_admissible :
  (forall (s : Session.doc) (now : Date),
      Session.isValid now s = true
      <-> Session.isActive s = true /\ now <= Session.expiresAt s)
  /\ (forall (s : Session.doc) (now : Date),
         Session.isActive s = true ->
         (now < Session.expiresAt s -> Session.isValid now s = true)
         /\ (now = Session.expiresAt s -> Session.isValid now s = true)
         /\ (Session.expiresAt s < now -> Session.isValid now s = false))
  /\ (forall (env : Process) (db : Store) (user : User) (body : ScanBody)
             (clock : Clock),
         unique_session_ids db ->
         validationResult env body = true ->
         (InvalidTicket (admissionGate env db user body clock)
          <-> ~ exists s, admissible_ticket db body (at_expiry clock) s)
         /\ ((forall s, In s (sessions db) ->
                        Session._id s <> qrData_sessionId body) ->
             InvalidTicket (admissionGate env db user body clock))
         /\ (forall s, In s (sessions db) ->
                       Session._id s = qrData_sessionId body ->
                       Session.isActive s = false
                       \/ Session.qrToken s <> qrData_token body
                       \/ Session.expiresAt s < at_expiry clock ->
                       InvalidTicket (admissionGate env db user body clock))).
Proof.
  split; [exact isValid_iff|]. split.
  - intros s now Hact. repeat split; intros H.
    + apply isValid_iff. split; [assumption|lia].
    + apply isValid_iff. split; [assumption|lia].
    + destruct (Session.isValid now s) eqn:E; [|reflexivity].
      apply isValid_iff in E. lia.
  - intros env db user body clock Huniq Hvalid.
    pose proof (gate_InvalidTicket_iff env db user body clock Huniq Hvalid)
      as Hiff.
    split; [exact Hiff|]. split.
    + intros Hnone. apply Hiff. intros (s & Hs & Hid & _).
      now apply (Hnone s).
    + intros s Hs Hid Hbad. apply Hiff.
      intros (s' & Hs' & Hid' & Htok' & Hv').
      assert (s' = s) as -> by (apply (unique_session db); auto; congruence).
      apply isValid_iff in Hv' as [Hact' Hexp'].
      destruct Hbad as [Hbad|[Hbad|Hbad]]; [congruence|contradiction|lia].
Qed.

(** The scenario at 10:31, past [expiresAt]: rejected as [InvalidTicket]. *)
Lemma isValid_admissible_witness :
  unique_session_ids Scenario.db0
  /\ validationResult Scenario.IST Scenario.qr = true
  /\ InvalidTicket (admissionGate Scenario.IST Scenario.db0 Scenario.student
                                  Scenario.qr (tick (Scenario.local 10 31))).
Proof.
  assert (Hu : unique_session_ids Scenario.db0).
  { unfold unique_session_ids. simpl. constructor; [intros []|constructor]. }
  split; [exact Hu|]. split; [reflexivity|].
  apply (proj2 (proj2 (proj2 (proj2 isValid_admissible) Scenario.IST
                               Scenario.db0 Scenario.student Scenario.qr
                               (tick (Scenario.local 10 31)) Hu eq_refl))
               Scenario.maths (or_introl eq_refl) eq_refl).
  right. right. reflexivity.
Defined.

(** ** The hook of [save] on a new record *)

Lemma pre_save_Ref (env : Process) (this : Attendance.doc) (id : ObjectId) :
  Attendance.session this = Attendance.Ref id ->
  Attendance.pre_save env this = Throw TypeError.
Proof.
  intros H. unfold Attendance.pre_save, Attendance.isLate. now rewrite H.
Qed.

Lemma Attendance_save_Ref (env : Process) (rejected : bool) (db : Store)
    (this : Attendance.doc) (id : ObjectId) :
  Attendance.session this = Attendance.Ref id ->
  Attendance_save env rejected db this = Throw TypeError.
Proof.
  intros H. unfold Attendance_save. now rewrite (pre_save_Ref env this id H).
Qed.

(** ** The face checks of the gate *)

Lemma gate_after_ticket_checks (env : Process) (db : Store) (user : User)
    (body : ScanBody) (clock : Clock) :
  ticket_checks_pass env db body clock ->
  admissionGate env db user body clock
  = match Attendance_findOne db (user_id user) (qrData_sessionId body) with
    | Some existingAttendance => Reject (AlreadyMarked existingAttendance)
    | None =>
        match method_of body with
        | Attendance.face_recognition =>
            if no_faceEmbedding user then Reject FaceNotRegistered
            else if confidence_too_low env (body_faceConfidence body)
                 then Reject ConfidenceTooLow
                 else Proceed
        | _ => Proceed
        end
    end.
Proof.
  intros (Hvalid & session & Hfind & Hexp & Hstart).
  unfold admissionGate. rewrite Hvalid, Hfind. cbn [negb].
  replace (at_expiry clock >? Session.expiresAt session) with false
    by (symmetry; rewrite Z.gtb_ltb; apply Z.ltb_ge; exact Hexp).
  rewrite Hstart. reflexivity.
Qed.

Lemma gate_Proceed_face (env : Process) (db : Store) (user : User)
    (body : ScanBody) (clock : Clock) :
  admissionGate env db user body clock = Proceed ->
  method_of body = Attendance.face_recognition ->
  confidence_too_low env (body_faceConfidence body) = false.
Proof.
  unfold admissionGate. intros H Hm. rewrite Hm in H.
  destruct (negb (validationResult env body)); [discriminate|].
  destruct (Session_findOne _ _ _); [|discriminate].
  destruct (_ >? _); [discriminate|]. destruct (Date_lt _ _); [discriminate|].
  destruct (Attendance_findOne _ _ _); [discriminate|].
  destruct (no_faceEmbedding user); [discriminate|].
  destruct (confidence_too_low env (body_faceConfidence body));
    [discriminate|reflexivity].
Qed.

Lemma scenario_local (h m : Z) :
  Scenario.local h m = 1705257000000 + (h * 60 + m) * 60000.
Proof.
  unfold Scenario.local, local_time, Scenario.IST, Scenario.day, msPerDay,
    msPerMinute.
  cbn [utcOffset]. lia.
Qed.

Lemma scenario_ticket_checks (body : ScanBody) (h m : Z) :
  validationResult Scenario.IST body = true ->
  qrData_sessionId body = "s1" -> qrData_token body = "token-1" ->
  (9 * 60 <= h * 60 + m <= 10 * 60 + 30) ->
  ticket_checks_pass Scenario.IST Scenario.db0 body (tick (Scenario.local h m)).
Proof.
  intros Hv Hid Htok Hhm. split; [exact Hv|]. exists Scenario.maths.
  rewrite Hid, Htok. split; [reflexivity|].
  change (at_expiry (tick (Scenario.local h m))) with (Scenario.local h m).
  change (at_start (tick (Scenario.local h m))) with (Scenario.local h m).
  change (Session.expiresAt Scenario.maths) with (Scenario.local 10 30).
  replace (sessionStart Scenario.IST Scenario.maths)
    with (Some (Scenario.local 9 0)) by (vm_compute; reflexivity).
  cbn [Date_lt]. rewrite Z.ltb_ge, !scenario_local. lia.
Qed.

Example scenario_face_055 :
  admissionGate Scenario.IST Scenario.db0 Scenario.enrolled
                (Scenario.face 0.55 Scenario.ones) (tick (Scenario.local 9 5))
  = Reject ConfidenceTooLow.
Proof. reflexivity. Qed.

Example scenario_face_065 :
  admissionGate Scenario.IST Scenario.db0 Scenario.enrolled
                (Scenario.face 0.65 Scenario.ones) (tick (Scenario.local 9 5))
  = Proceed
  /\ Attendance.isVerified
       (newAttendance Scenario.IST Scenario.enrolled (Scenario.face 0.65 Scenario.ones)
                      (tick (Scenario.local 9 5)) "a1") = false.
Proof. split; reflexivity. Qed.

Example scenario_face_085 :
  admissionGate Scenario.IST Scenario.db0 Scenario.enrolled
                (Scenario.face 0.85 Scenario.ones) (tick (Scenario.local 9 5))
  = Proceed
  /\ Attendance.isVerified
       (newAttendance Scenario.IST Scenario.enrolled (Scenario.face 0.85 Scenario.ones)
                      (tick (Scenario.local 9 5)) "a1") = true.
Proof. split; reflexivity. Qed.

Example scenario_face_unregistered :
  admissionGate Scenario.IST Scenario.db0 Scenario.student
                (Scenario.face 0.85 Scenario.ones) (tick (Scenario.local 9 5))
  = Reject FaceNotRegistered.
Proof. reflexivity. Qed.

(** C6: the code departs from the claim. The handler computes the flag
    as the claim has it: for every presentation the gate lets through,
    [isVerified] of the new record is [true] when the method is not face
    recognition, and with face recognition it is [true] exactly when the
    score of the request is [>= 0.8], so that a score that passes the
    admission threshold and is not [>= 0.8] passes the gate with the
    flag [false]. But that record is never accepted: its save is refused
    by the [pre('save')] hook and the answer is 500, with nothing
    stored. *)
Theorem scan_qr_face_stores_no_record :
  forall (env : Process) (outage : Outage) (db : Store) (user : User)
         (body : ScanBody) (clock : Clock) (id : ObjectId),
    admissionGate env db user body clock = Proceed ->
    match method_of body with
    | Attendance.face_recognition =>
        exists score,
          body_faceConfidence body = Some score
          /\ confidence_too_low env (Some score) = false
          /\ (Attendance.isVerified (newAttendance env user body clock id) = true
              <-> JSNumber.ge (ToNumber env score) 0.8 = true)
    | _ => Attendance.isVerified (newAttendance env user body clock id) = true
    end
    /\ scan_qr env outage db user body clock id = (db, ServerError)
    /\ forall a, snd (scan_qr env outage db user body clock id) <> Marked a.
Proof.
  intros env outage db user body clock id H.
  assert (Hscan : scan_qr env outage db user body clock id = (db, ServerError)).
  { unfold scan_qr, persist. rewrite H.
    rewrite (Attendance_save_Ref env _ db _ (qrData_sessionId body));
      reflexivity. }
  split; [|split; [exact Hscan|rewrite Hscan; discriminate]].
  destruct (method_of body) eqn:Hm.
  - unfold newAttendance; cbn. now rewrite Hm.
  - pose proof (gate_Proceed_face env db user body clock H Hm) as Hc.
    destruct (body_faceConfidence body) as [score|] eqn:Hs; [|discriminate].
    exists score. split; [reflexivity|]. split; [exact Hc|].
    unfold newAttendance; cbn. rewrite Hm, Hs. reflexivity.
  - unfold newAttendance; cbn. now rewrite Hm.
Qed.

(** A score of 0.65 against the default threshold of 0.6: the gate lets
    the presentation through, the flag of the record is [false], and the
    answer is 500. *)
Lemma scan_qr_face_stores_no_record_witness :
  admissionGate Scenario.IST Scenario.db0 Scenario.enrolled
                (Scenario.face 0.65 Scenario.ones) (tick (Scenario.local 9 5))
  = Proceed
  /\ Attendance.isVerified
       (newAttendance Scenario.IST Scenario.enrolled
                      (Scenario.face 0.65 Scenario.ones)
                      (tick (Scenario.local 9 5)) "a1") = false
  /\ scan_qr Scenario.IST none Scenario.db0 Scenario.enrolled
             (Scenario.face 0.65 Scenario.ones) (tick (Scenario.local 9 5)) "a1"
     = (Scenario.db0, ServerError).
Proof.
  assert (H : admissionGate Scenario.IST Scenario.db0 Scenario.enrolled
                (Scenario.face 0.65 Scenario.ones) (tick (Scenario.local 9 5))
              = Proceed) by reflexivity.
  split; [exact H|]. split; [reflexivity|].
  exact (proj1 (proj2 (scan_qr_face_stores_no_record Scenario.IST none
                         Scenario.db0 Scenario.enrolled
                         (Scenario.face 0.65 Scenario.ones)
                         (tick (Scenario.local 9 5)) "a1" H))).
Defined.




(** C2, as the claim states it, fails: the stored profile and the
    descriptor that comes with the request are the same vector, so the
    scorer gives 0.99999999999999978, and the gate rejects for low confidence because the
    request says 0.1; the stored profile and the descriptor are
    orthogonal, so the scorer gives 0, and the gate lets the
    presentation through because the request says 0.9. *)
Lemma gate_decides_on_request_score :
  (calculateCosineSimilarity Scenario.ones Scenario.ones
   = Return 0.99999999999999978%float
   /\ JS_lt Scenario.IST (JS.Num 0.99999999999999978) (threshold Scenario.IST)
      = false
   /\ admissionGate Scenario.IST Scenario.db0
                    (mkUser "u1" student_role (Some Scenario.ones))
                    (Scenario.face 0.1 Scenario.ones) (tick (Scenario.local 9 5))
      = Reject ConfidenceTooLow)
  /\ (calculateCosineSimilarity Scenario.e1 Scenario.e2 = Return 0%float
      /\ JS_lt Scenario.IST (JS.Num 0) (threshold Scenario.IST) = true
      /\ admissionGate Scenario.IST Scenario.db0
                       (mkUser "u1" student_role (Some Scenario.e1))
                       (Scenario.face 0.9 Scenario.e2) (tick (Scenario.local 9 5))
         = Proceed).
Proof. repeat split; vm_compute; reflexivity. Qed.

(** The comparison when both sides are strings: with the threshold set
    to ["0.6"] in the environment, a confidence sent as ["1e-1"] is not
    below it and passes, and one sent as [".9"] is below it and is
    refused; sent as numbers, 0.1 is refused and 0.9 passes. *)
Example scenario_face_strings :
  admissionGate Scenario.configured Scenario.db0 Scenario.enrolled
                (Scenario.face_string "1e-1") (tick (Scenario.local 9 5))
  = Proceed
  /\ admissionGate Scenario.configured Scenario.db0 Scenario.enrolled
                   (Scenario.face_string ".9") (tick (Scenario.local 9 5))
     = Reject ConfidenceTooLow
  /\ admissionGate Scenario.configured Scenario.db0 Scenario.enrolled
                   (Scenario.face 0.1 Scenario.ones) (tick (Scenario.local 9 5))
     = Reject ConfidenceTooLow
  /\ admissionGate Scenario.configured Scenario.db0 Scenario.enrolled
                   (Scenario.face 0.9 Scenario.ones) (tick (Scenario.local 9 5))
     = Proceed.
Proof. repeat split; vm_compute; reflexivity. Qed.

(** The threshold is the number 0.6, or the string of the environment. *)
Lemma threshold_cases (env : Process) :
  (threshold env = JS.Num 0.6
   /\ (FACE_RECOGNITION_THRESHOLD env = None
       \/ FACE_RECOGNITION_THRESHOLD env = Some ""))
  \/ exists t, t <> "" /\ FACE_RECOGNITION_THRESHOLD env = Some t
               /\ threshold env = JS.Str t.
Proof.
  unfold threshold. destruct (FACE_RECOGNITION_THRESHOLD env) as [t|]; [|auto].
  destruct (String.eqb_spec t "") as [->|Hne]; [auto|].
  right. exists t. auto.
Qed.

(** C2, amended. For a face presentation that passes the ticket, start,
    duplicate and registration checks, the gate takes the request's
    [faceConfidence] as the score and does not apply the scorer. It
    rejects for low confidence exactly when [faceConfidence] is missing
    or falsy (zero, not a number, the empty string), or is below the
    threshold by JavaScript's [<]: as numbers when [faceConfidence] is a
    number or the threshold is the default 0.6, the string of
    [FACE_RECOGNITION_THRESHOLD] being converted; as strings, position
    by position, when [faceConfidence] is sent as a string and the
    variable is set. Otherwise the presentation is let through. The
    decision is the same for every stored embedding that is not empty
    and every descriptor sent along. *)
Theorem gate_takes_faceConfidence :
  forall (env : Process) (db : Store) (user : User) (body : ScanBody)
         (clock : Clock),
    ticket_checks_pass env db body clock ->
    Attendance_findOne db (user_id user) (qrData_sessionId body) = None ->
    method_of body = Attendance.face_recognition ->
    no_faceEmbedding user = false ->
    (admissionGate env db user body clock = Reject ConfidenceTooLow
     <-> match body_faceConfidence body with
         | None => True
         | Some (JS.Num score) =>
             JSNumber.falsy score = true
             \/ JSNumber.lt score (ToNumber env (threshold env)) = true
         | Some (JS.Str s) =>
             s = ""
             \/ match threshold env with
                | JS.Str t => String.ltb s t = true
                | JS.Num t => JSNumber.lt (StringToNumber env s) t = true
                end
         end)
    /\ ((threshold env = JS.Num 0.6
         /\ (FACE_RECOGNITION_THRESHOLD env = None
             \/ FACE_RECOGNITION_THRESHOLD env = Some ""))
        \/ exists t, t <> "" /\ FACE_RECOGNITION_THRESHOLD env = Some t
                     /\ threshold env = JS.Str t)
    /\ (admissionGate env db user body clock = Proceed
        <-> admissionGate env db user body clock <> Reject ConfidenceTooLow)
    /\ (forall (embedding' : list float) (descriptor' : option (list float)),
           embedding' <> [] ->
           admissionGate env db
             (mkUser (user_id user) (role user) (Some embedding'))
             (mkScanBody (qrData_sessionId body) (qrData_token body)
                         (body_method body) (body_faceConfidence body)
                         descriptor')
             clock
           = admissionGate env db user body clock).
Proof.
  intros env db user body clock Hchecks Hnone Hm Hemb.
  rewrite (gate_after_ticket_checks env db user body clock Hchecks).
  rewrite Hnone, Hm, Hemb.
  split; [|split; [apply threshold_cases|split]].
  - unfold confidence_too_low.
    destruct (body_faceConfidence body) as [[score|s]|]; [| |split; auto].
    + cbn [JS.falsy]. destruct (JSNumber.falsy score); cbn [orb].
      * split; auto.
      * assert (E : JS_lt env (JS.Num score) (threshold env)
                    = JSNumber.lt score (ToNumber env (threshold env)))
          by (destruct (threshold env); reflexivity).
        rewrite E. destruct (JSNumber.lt score (ToNumber env (threshold env))).
        -- split; auto.
        -- split; [discriminate|]. intros [H|H]; discriminate.
    + cbn [JS.falsy]. destruct (String.eqb_spec s "") as [->|Hne]; cbn [orb].
      * split; auto.
      * destruct (threshold env) as [t|t]; cbn [JS_lt ToNumber].
        -- destruct (JSNumber.lt (StringToNumber env s) t).
           ++ split; auto.
           ++ split; [discriminate|]. intros [H|H]; [contradiction|discriminate].
        -- destruct (String.ltb s t).
           ++ split; auto.
           ++ split; [discriminate|]. intros [H|H]; [contradiction|discriminate].
  - destruct (confidence_too_low env (body_faceConfidence body)).
    + split; [discriminate|]. intros H. now elim H.
    + split; [discriminate|reflexivity].
  - intros embedding' descriptor' Hne.
    rewrite gate_after_ticket_checks.
    + cbn [user_id qrData_sessionId body_faceConfidence]. rewrite Hnone.
      change (method_of (mkScanBody _ _ (body_method body) _ _))
        with (method_of body).
      rewrite Hm.
      replace (no_faceEmbedding (mkUser _ _ (Some embedding'))) with false
        by (destruct embedding'; [now elim Hne|reflexivity]).
      reflexivity.
    + destruct Hchecks as (Hv & Hs). split; [exact Hv|exact Hs].
Qed.

(** The scenario at 09:05 with a stored embedding and a confidence of
    0.55, below the default threshold. *)
Lemma gate_takes_faceConfidence_witness :
  admissionGate Scenario.IST Scenario.db0 Scenario.enrolled
                (Scenario.face 0.55 Scenario.ones) (tick (Scenario.local 9 5))
  = Reject ConfidenceTooLow.
Proof.
  apply (proj1 (gate_takes_faceConfidence Scenario.IST Scenario.db0
                  Scenario.enrolled (Scenario.face 0.55 Scenario.ones)
                  (tick (Scenario.local 9 5))
                  (scenario_ticket_checks (Scenario.face 0.55 Scenario.ones)
                     9 5 eq_refl eq_refl eq_refl ltac:(lia))
                  eq_refl eq_refl eq_refl)).
  right. reflexivity.
Defined.

(** ** Saving a record: the [pre('save')] hook *)

(** On a server whose local time is UTC or ahead of it, the local day of
    the stored date is the session's day, and [setHours] gives the start
    the routes compute. *)
Lemma setHours_east (env : Process) (day : Z) (t : TimeString) :
  0 <= utcOffset env < msPerDay ->
  setHours env (Date_of_day day) (hours t) (minutes t)
  = local_time env day (hours t) (minutes t).
Proof.
  intros H. unfold setHours, local_time, Date_of_day.
  replace ((day * msPerDay + utcOffset env) / msPerDay) with day; [reflexivity|].
  rewrite Z.add_comm, Z.div_add by (unfold msPerDay; lia).
  rewrite Z.div_small by exact H. reflexivity.
Qed.

(** On a server behind UTC, it is the day before. *)
Lemma setHours_west (env : Process) (day : Z) (t : TimeString) :
  - msPerDay <= utcOffset env < 0 ->
  setHours env (Date_of_day day) (hours t) (minutes t)
  = local_time env day (hours t) (minutes t) - msPerDay.
Proof.
  intros H. unfold setHours, local_time, Date_of_day.
  replace ((day * msPerDay + utcOffset env) / msPerDay) with (day - 1); [lia|].
  replace (day * msPerDay + utcOffset env)
    with ((utcOffset env + msPerDay) + (day - 1) * msPerDay) by lia.
  rewrite Z.div_add by (unfold msPerDay; lia).
  rewrite Z.div_small by lia. reflexivity.
Qed.

(** What the hook is written to do, on a document whose session is
    populated: ['late'] exactly when [markedAt] is more than 15 minutes
    after the start of the session, ['present'] otherwise. *)
Lemma pre_save_Populated (env : Process) (this : Attendance.doc)
    (s : Session.doc) (day : Z) :
  Attendance.session this = Attendance.Populated s ->
  Session.date s = Date_of_day day ->
  0 <= utcOffset env < msPerDay ->
  Attendance.status this = Attendance.present ->
  let start := local_time env day (hours (Session.startTime s))
                          (minutes (Session.startTime s)) in
  exists saved,
    Attendance.pre_save env this = Return saved
    /\ (Attendance.status saved = Attendance.late
        <-> Attendance.markedAt this > start + 15 * msPerMinute)
    /\ (Attendance.status saved = Attendance.present
        <-> Attendance.markedAt this <= start + 15 * msPerMinute).
Proof.
  intros Hs Hd Hoff Hst start. unfold Attendance.pre_save, Attendance.isLate.
  rewrite Hs, Hd, (setHours_east env day (Session.startTime s) Hoff), Hst.
  fold start.
  change (15 * msPerMinute) with (15 * 60000). simpl Attendance.Status_eqb.
  rewrite andb_true_r.
  destruct (Attendance.markedAt this >? _) eqn:E; eexists; (split; [reflexivity|]).
  - rewrite Z.gtb_ltb, Z.ltb_lt in E. simpl. split; split; intros H;
      try lia; try reflexivity; discriminate H.
  - rewrite Z.gtb_ltb, Z.ltb_ge in E. rewrite Hst. split; split; intros H;
      try lia; try reflexivity; discriminate H.
Qed.

(** The boundary, on the populated candidate of the scenario: marked at
    09:15:00.000 it stays ['present'], one millisecond later it is
    ['late']. *)
Example pre_save_boundary :
  Attendance.pre_save Scenario.IST
    (Attendance.mk "a1" "u1" (Attendance.Populated Scenario.maths)
       Attendance.present (Scenario.local 9 15) Attendance.qr_code None true None)
  = Return (Attendance.mk "a1" "u1" (Attendance.Populated Scenario.maths)
       Attendance.present (Scenario.local 9 15) Attendance.qr_code None true None)
  /\ Attendance.pre_save Scenario.IST
       (Attendance.mk "a1" "u1" (Attendance.Populated Scenario.maths)
          Attendance.present (Scenario.local 9 15 + 1) Attendance.qr_code None
          true None)
     = Return (Attendance.mk "a1" "u1" (Attendance.Populated Scenario.maths)
          Attendance.late (Scenario.local 9 15 + 1) Attendance.qr_code None
          true None).
Proof. split; vm_compute; reflexivity. Qed.

(** On the New York server the hook takes the session to start a day
    early: a populated record marked at the very start is ['late']. *)
Example pre_save_west_of_UTC :
  Attendance.pre_save Scenario.New_York
    (Attendance.mk "a1" "u1" (Attendance.Populated Scenario.maths)
       Attendance.present (local_time Scenario.New_York Scenario.day 9 0)
       Attendance.qr_code None true None)
  = Return (Attendance.mk "a1" "u1" (Attendance.Populated Scenario.maths)
       Attendance.late (local_time Scenario.New_York Scenario.day 9 0)
       Attendance.qr_code None true None)
  /\ sessionStart Scenario.New_York Scenario.maths
     = Some (local_time Scenario.New_York Scenario.day 9 0).
Proof. split; vm_compute; reflexivity. Qed.

(** C3: the code departs from the claim. The handler gives the new
    record the id of the session, and saves it before [populate]: the
    [pre('save')] hook reads [isLate] on a [session] path that holds an
    id, the getter throws, the save is refused and the handler answers
    500. So whenever the gate lets a presentation through, no record is
    stored: no ['present'], no ['late']. *)
Theorem scan_qr_stores_no_status :
  forall (env : Process) (outage : Outage) (db : Store) (user : User)
         (body : ScanBody) (clock : Clock) (id : ObjectId),
    admissionGate env db user body clock = Proceed ->
    scan_qr env outage db user body clock id = (db, ServerError).
Proof.
  intros env outage db user body clock id H. unfold scan_qr, persist. rewrite H.
  rewrite (Attendance_save_Ref env _ db _ (qrData_sessionId body)); reflexivity.
Qed.

(** The scenario at 09:05, with the method ['qr_code']. *)
Lemma scan_qr_stores_no_status_witness :
  scan_qr Scenario.IST none Scenario.db0 Scenario.student Scenario.qr
          (tick (Scenario.local 9 5)) "a1"
  = (Scenario.db0, ServerError).
Proof.
  apply (scan_qr_stores_no_status Scenario.IST none Scenario.db0
           Scenario.student Scenario.qr (tick (Scenario.local 9 5)) "a1").
  reflexivity.
Defined.

(** ** The two writes of an admission *)

(** The same on removal: [DELETE /api/attendance/:id] deletes the
    record and then decrements the count with a second write; when that
    one is rejected the record is gone and the count is what it was. *)
Example delete_attendance_without_count :
  delete_attendance (mkOutage false true) Scenario.db1 Scenario.teacher "a1"
  = (Scenario.db0, ReviewServerError).
Proof. reflexivity. Qed.


(** ** The unique index on [(student, session)] *)

Lemma has_key_eq (u s : ObjectId) (a : Attendance.doc) :
  has_key u s a = true <-> Attendance.student a = u /\ Attendance.session_id a = s.
Proof.
  unfold has_key. rewrite andb_true_iff, !String.eqb_eq. reflexivity.
Qed.

Lemma unique_index_attendances (db db' : Store) :
  attendances db' = attendances db -> unique_index db -> unique_index db'.
Proof.
  intros H Hu u s. unfold records_of. rewrite H. apply Hu.
Qed.

Lemma existsb_false_filter {A : Type} (f : A -> bool) (l : list A) :
  existsb f l = false -> filter f l = [].
Proof.
  induction l as [|x l IH]; simpl; [reflexivity|].
  intros H. apply orb_false_iff in H as [Hx Hl]. rewrite Hx. auto.
Qed.

Lemma filter_filter_length {A : Type} (f g : A -> bool) (l : list A) :
  (List.length (filter f (filter g l)) <= List.length (filter f l))%nat.
Proof.
  induction l as [|x l IH]; simpl; [lia|].
  destruct (g x); simpl; destruct (f x); simpl; lia.
Qed.

Lemma filter_map_key {A : Type} (f : A -> bool) (h : A -> A) (l : list A) :
  (forall a, f (h a) = f a) -> List.length (filter f (map h l)) = List.length (filter f l).
Proof.
  intros H. induction l as [|x l IH]; simpl; [reflexivity|].
  rewrite H. destruct (f x); simpl; lia.
Qed.

Lemma at_most_one {A : Type} (l : list A) (a b : A) :
  (List.length l <= 1)%nat -> In a l -> In b l -> a = b.
Proof.
  destruct l as [|x [|y l]]; simpl; intros H Ha Hb.
  - destruct Ha.
  - destruct Ha as [<-|[]], Hb as [<-|[]]. reflexivity.
  - lia.
Qed.

(** With the index in place, the lookup of a pair finds the record of
    the pair. *)
Lemma unique_findOne (db : Store) (u s : ObjectId) (existing : Attendance.doc) :
  unique_index db ->
  In existing (attendances db) ->
  has_key u s existing = true ->
  Attendance_findOne db u s = Some existing.
Proof.
  intros Hu Hin Hk. unfold Attendance_findOne.
  destruct (find (has_key u s) (attendances db)) as [found|] eqn:Hf.
  - apply find_some in Hf as [Hin' Hk']. f_equal.
    apply (at_most_one (filter (has_key u s) (attendances db))).
    + apply Hu.
    + apply filter_In; auto.
    + apply filter_In; auto.
  - pose proof (find_none _ _ Hf existing Hin) as H. congruence.
Qed.

Lemma has_key_depopulate (u s : ObjectId) (a : Attendance.doc) :
  has_key u s (depopulate a) = has_key u s a.
Proof. reflexivity. Qed.

(** The insert of [save] keeps the index, whatever the document. *)
Lemma Attendance_save_unique (env : Process) (rejected : bool) (db db' : Store)
    (this saved : Attendance.doc) :
  unique_index db ->
  Attendance_save env rejected db this = Return (saved, db') ->
  unique_index db'.
Proof.
  intros Hu H. unfold Attendance_save in H.
  destruct (Attendance.pre_save env this) as [a|]; [|discriminate].
  destruct rejected; [discriminate|].
  destruct (existsb _ _ || existsb _ _) eqn:E; [discriminate|].
  apply orb_false_iff in E as [_ E]. injection H as <- <-.
  intros u s. unfold records_of. simpl. rewrite filter_app, length_app. simpl.
  rewrite has_key_depopulate.
  destruct (has_key u s a) eqn:Hk.
  - apply has_key_eq in Hk as [<- <-].
    rewrite (existsb_false_filter _ _ E). simpl. lia.
  - simpl. specialize (Hu u s). unfold records_of in Hu. lia.
Qed.

Lemma persist_unique (env : Process) (outage : Outage) (db : Store)
    (attendance : Attendance.doc) :
  unique_index db -> unique_index (fst (persist env outage db attendance)).
Proof.
  intros Hu. unfold persist.
  destruct (Attendance_save env (save_rejected outage) db attendance)
    as [[saved db1]|e] eqn:Hsave; [|exact Hu].
  pose proof (Attendance_save_unique _ _ _ _ _ _ Hu Hsave) as Hu1.
  unfold Session_findByIdAndUpdate_inc.
  destruct (update_rejected outage); simpl; [exact Hu1|].
  revert Hu1. apply unique_index_attendances. reflexivity.
Qed.

Lemma scan_qr_unique (env : Process) (outage : Outage) (db : Store)
    (user : User) (body : ScanBody) (clock : Clock) (id : ObjectId) :
  unique_index db -> unique_index (fst (scan_qr env outage db user body clock id)).
Proof.
  intros Hu. unfold scan_qr.
  destruct (admissionGate env db user body clock); [exact Hu|].
  pose proof (persist_unique env outage db (newAttendance env user body clock id) Hu)
    as Ha.
  destruct (persist env outage db (newAttendance env user body clock id))
    as [db' [a|e]]; simpl in *; [|exact Ha].
  destruct (Attendance_populate db' a); exact Ha.
Qed.

Lemma handle_unique (env : Process) (db : Store) (request : Request) :
  unique_index db -> unique_index (handle env db request).
Proof.
  intros Hu. destruct request; cbn [handle].
  - destruct (Attendance_save env rejected db attendance)
      as [[saved db']|e] eqn:Hsave; [|exact Hu].
    exact (Attendance_save_unique _ _ _ _ _ _ Hu Hsave).
  - now apply scan_qr_unique.
  - unfold put_attendance.
    destruct (Attendance_findById db id); [|exact Hu].
    destruct (Attendance_populate db d); [|exact Hu].
    destruct (negb (may_review user d0)); [exact Hu|].
    intros u s. unfold records_of. simpl.
    rewrite filter_map_key; [apply Hu|].
    intros a. destruct (String.eqb (Attendance._id a) id); [|reflexivity].
    destruct status, remarks; reflexivity.
  - unfold delete_attendance.
    destruct (Attendance_findById db id); [|exact Hu].
    destruct (Attendance_populate db d); [|exact Hu].
    destruct (negb (may_review user d0)); [exact Hu|].
    assert (H : forall db', attendances db'
                 = filter (fun a => negb (String.eqb (Attendance._id a) id))
                          (attendances db) -> unique_index db').
    { intros db' E u s. unfold records_of. rewrite E.
      etransitivity; [apply filter_filter_length|apply Hu]. }
    unfold Session_findByIdAndUpdate_inc.
    destruct (update_rejected outage); apply H; reflexivity.
  - unfold post_session.
    destruct (negb (session_validationResult env body)); [exact Hu|].
    destruct (Date_ge _ _); [exact Hu|]. destruct (_ <? _); [exact Hu|].
    destruct (Date_of_local env (body_date body) (body_endTime body));
      [|exact Hu].
    unfold Session_save_new. destruct (_ || _); exact Hu.
  - unfold regenerate_qr.
    destruct (Session_findById db id); [|exact Hu].
    destruct (negb _); [exact Hu|].
    unfold Session_save_qrToken. destruct (existsb _ _); exact Hu.
  - unfold delete_session.
    destruct (Session_findById db id); [|exact Hu].
    destruct (negb _); [exact Hu|]. destruct (Date_ge _ _); [exact Hu|].
    intros u s. unfold records_of. simpl.
    etransitivity; [apply filter_filter_length|apply Hu].
Qed.

Lemma run_unique (env : Process) (requests : list Request) :
  forall db, unique_index db -> unique_index (run env db requests).
Proof.
  unfold run. induction requests as [|r rs IH]; simpl; intros db Hu;
    [exact Hu|].
  apply IH. now apply handle_unique.
Qed.

(** A presentation for a pair that has a record writes nothing, and is
    answered by the first check that fires. *)
Lemma scan_qr_existing (env : Process) (outage : Outage) (db : Store)
    (user : User) (body : ScanBody) (clock : Clock) (id : ObjectId)
    (existing : Attendance.doc) :
  Attendance_findOne db (user_id user) (qrData_sessionId body) = Some existing ->
  exists response,
    scan_qr env outage db user body clock id = (db, response)
    /\ (ticket_checks_pass env db body clock
        /\ response = AlreadyMarked existing
        \/ ~ ticket_checks_pass env db body clock
           /\ (response = ValidationFailed \/ response = InvalidQR
               \/ response = QRExpired \/ response = NotStarted)).
Proof.
  intros Hf. unfold scan_qr, admissionGate, ticket_checks_pass. rewrite Hf.
  destruct (validationResult env body) eqn:Hv; cbn [negb].
  2:{ eexists. split; [reflexivity|]. right. split; [|auto].
      intros [H _]. discriminate H. }
  destruct (Session_findOne _ _ _) as [session|] eqn:Hs.
  2:{ eexists. split; [reflexivity|]. right. split; [|auto].
      intros (_ & s & H & _). discriminate H. }
  destruct (at_expiry clock >? Session.expiresAt session) eqn:He.
  { eexists. split; [reflexivity|]. right. split; [|auto].
    intros (_ & s & H & Hexp & _). injection H as <-.
    rewrite Z.gtb_ltb, Z.ltb_lt in He. lia. }
  destruct (Date_lt (Some (at_start clock)) (sessionStart env session)) eqn:Hst.
  { eexists. split; [reflexivity|]. right. split; [|auto 6].
    intros (_ & s & H & _ & Hstart). injection H as <-. congruence. }
  eexists. split; [reflexivity|]. left. split; [|reflexivity].
  split; [reflexivity|]. exists session. split; [reflexivity|].
  rewrite Z.gtb_ltb, Z.ltb_ge in He. auto.
Qed.

Lemma unique_index_db1 : unique_index Scenario.db1.
Proof.
  intros u s. unfold records_of. simpl.
  destruct (has_key u s Scenario.record); simpl; lia.
Qed.

(** The student of the scenario, with the record of 09:05, presents the
    code again at 09:10. *)
Example scenario_duplicate :
  scan_qr Scenario.IST none Scenario.db1 Scenario.student Scenario.qr
          (tick (Scenario.local 9 10)) "a2"
  = (Scenario.db1, AlreadyMarked Scenario.record).
Proof. reflexivity. Qed.

(** The same at 10:31: the expiry check comes first. *)
Example scenario_duplicate_1031 :
  scan_qr Scenario.IST none Scenario.db1 Scenario.student Scenario.qr
          (tick (Scenario.local 10 31)) "a2"
  = (Scenario.db1, QRExpired).
Proof. reflexivity. Qed.

(** Two saves for the same pair, in a row: the first is inserted, the
    second is refused by the index. *)
Example scenario_second_save :
  run Scenario.IST Scenario.db0
      [SaveAttendance false Scenario.candidate;
       SaveAttendance false
         (Attendance.mk "a2" "u1" (Attendance.Populated Scenario.maths)
            Attendance.present (Scenario.local 9 6) Attendance.qr_code None
            true None)]
  = Scenario.db1
  /\ Attendance_save Scenario.IST false Scenario.db1
       (Attendance.mk "a2" "u1" (Attendance.Populated Scenario.maths)
          Attendance.present (Scenario.local 9 6) Attendance.qr_code None
          true None)
     = Throw DuplicateKey.
Proof. split; vm_compute; reflexivity. Qed.

(** The hook changes the status of a document and nothing else. *)
Lemma pre_save_key (env : Process) (this saved : Attendance.doc) :
  Attendance.pre_save env this = Return saved ->
  Attendance.student saved = Attendance.student this
  /\ Attendance.session_id saved = Attendance.session_id this.
Proof.
  unfold Attendance.pre_save.
  destruct (Attendance.isLate env this) as [l|]; [|discriminate].
  destruct (l && _); intros H; injection H as <-; split; reflexivity.
Qed.

(** An insert goes through for a pair without a record only, and leaves
    the pair with one record. *)
Lemma Attendance_save_once (env : Process) (rejected : bool) (db db' : Store)
    (this saved : Attendance.doc) :
  Attendance_save env rejected db this = Return (saved, db') ->
  records_of db (Attendance.student this) (Attendance.session_id this) = 0%nat
  /\ records_of db' (Attendance.student this) (Attendance.session_id this)
     = 1%nat.
Proof.
  intros H. unfold Attendance_save in H.
  destruct (Attendance.pre_save env this) as [a|] eqn:Hpre; [|discriminate].
  destruct (pre_save_key env this a Hpre) as [Hst Hse].
  destruct rejected; [discriminate|].
  destruct (existsb _ _ || existsb _ _) eqn:E; [discriminate|].
  apply orb_false_iff in E as [_ E]. injection H as <- <-.
  rewrite Hst, Hse in E. unfold records_of. cbn [attendances].
  rewrite filter_app, length_app, (existsb_false_filter _ _ E).
  split; [reflexivity|]. cbn [filter]. rewrite has_key_depopulate.
  replace (has_key (Attendance.student this) (Attendance.session_id this) a)
    with true; [reflexivity|].
  symmetry. apply has_key_eq. auto.
Qed.

(** C1. At most one record exists per pair [(student, session)], in
    every state of the store. The empty store is such a state. The
    insert of [save] goes through for a pair that has no record, and is
    refused for a pair that has one, whatever the document and whoever
    saves it; so every run of saves and of requests to the routes, in
    any order, keeps the store with at most one record per pair. A
    presentation for a pair that has its record writes nothing and is
    never answered with 201: it is rejected with 'Attendance already
    marked for this session' and the record of the pair exactly when it
    passes the checks of the ticket that come before (found, not
    expired, started), and with the answer of the first of those checks
    that fires otherwise. *)
Theorem unique_index_kept :
  unique_index empty
  /\ (forall (env : Process) (rejected : bool) (db db' : Store)
             (this saved : Attendance.doc),
         unique_index db ->
         Attendance_save env rejected db this = Return (saved, db') ->
         unique_index db'
         /\ records_of db (Attendance.student this) (Attendance.session_id this)
            = 0%nat
         /\ records_of db' (Attendance.student this) (Attendance.session_id this)
            = 1%nat)
  /\ (forall (env : Process) (rejected : bool) (db : Store)
             (this : Attendance.doc),
         (1 <= records_of db (Attendance.student this)
                          (Attendance.session_id this))%nat ->
         exists e, Attendance_save env rejected db this = Throw e)
  /\ (forall (env : Process) (db : Store) (requests : list Request),
         unique_index db -> unique_index (run env db requests))
  /\ (forall (env : Process) (outage : Outage) (db : Store) (user : User)
             (body : ScanBody) (clock : Clock) (id : ObjectId)
             (existing : Attendance.doc),
         unique_index db ->
         In existing (attendances db) ->
         has_key (user_id user) (qrData_sessionId body) existing = true ->
         fst (scan_qr env outage db user body clock id) = db
         /\ (forall a, snd (scan_qr env outage db user body clock id) <> Marked a)
         /\ (ticket_checks_pass env db body clock
             <-> snd (scan_qr env outage db user body clock id)
                 = AlreadyMarked existing)
         /\ (~ ticket_checks_pass env db body clock ->
             snd (scan_qr env outage db user body clock id) = ValidationFailed
             \/ snd (scan_qr env outage db user body clock id) = InvalidQR
             \/ snd (scan_qr env outage db user body clock id) = QRExpired
             \/ snd (scan_qr env outage db user body clock id) = NotStarted)).
Proof.
  split; [intros u s; unfold records_of; simpl; lia|].
  split.
  { intros env rejected db db' this saved Hu H. split.
    - exact (Attendance_save_unique _ _ _ _ _ _ Hu H).
    - exact (Attendance_save_once _ _ _ _ _ _ H). }
  split.
  { intros env rejected db this Hone.
    destruct (Attendance_save env rejected db this) as [[saved db']|e] eqn:H;
      [|eauto].
    apply Attendance_save_once in H as [H _]. lia. }
  split; [intros env db requests; apply run_unique|].
  intros env outage db user body clock id existing Hu Hin Hk.
  pose proof (unique_findOne db _ _ existing Hu Hin Hk) as Hf.
  destruct (scan_qr_existing env outage db user body clock id existing Hf)
    as (response & Hs & Hr).
  rewrite Hs. cbn [fst snd].
  split; [reflexivity|]. split; [|split].
  - intros a. destruct Hr as [[_ ->]|[_ [->|[->|[->| ->]]]]]; discriminate.
  - destruct Hr as [[Hc ->]|[Hc Hr]].
    + split; auto.
    + split; [contradiction|].
      intros ->. destruct Hr as [H|[H|[H|H]]]; discriminate H.
  - intros Hc. destruct Hr as [[Hc' _]|[_ Hr]]; [contradiction|exact Hr].
Qed.

(** The second presentation of the scenario, at 09:10. *)
Lemma unique_index_kept_witness :
  snd (scan_qr Scenario.IST none Scenario.db1 Scenario.student Scenario.qr
               (tick (Scenario.local 9 10)) "a2")
  = AlreadyMarked Scenario.record.
Proof.
  destruct (proj2 (proj2 (proj2 (proj2 unique_index_kept)))
              Scenario.IST none Scenario.db1 Scenario.student Scenario.qr
              (tick (Scenario.local 9 10)) "a2" Scenario.record
              unique_index_db1 (or_introl eq_refl) eq_refl)
    as (_ & _ & [H _] & _).
  apply H.
  split; [reflexivity|]. exists Scenario.maths. split; [reflexivity|].
  split; [|reflexivity]. apply Z.leb_le. reflexivity.
Defined.

(** ** Creating a session *)

Example scenario_post :
  post_session Scenario.IST empty Scenario.teacher Scenario.posted
               (Scenario.local 8 0) "token-1" "s1"
  = (Scenario.db0, Created Scenario.maths).
Proof. vm_compute. reflexivity. Qed.

(** The day's local midnight is not after the midnight of a later day,
    and is after that of an earlier one. *)
Lemma today_le (env : Process) (now : Date) (day : Z) :
  0 <= utcOffset env ->
  local_day env now <= day ->
  setHours env now 0 0 <= Date_of_day day.
Proof.
  unfold setHours, local_day, Date_of_day, msPerDay, msPerMinute. intros H Hd.
  nia.
Qed.

Lemma today_gt (env : Process) (now : Date) (day : Z) :
  utcOffset env < msPerDay ->
  day < local_day env now ->
  Date_of_day day < setHours env now 0 0.
Proof.
  unfold setHours, local_day, Date_of_day, msPerDay, msPerMinute. intros H Hd.
  nia.
Qed.

Lemma today_gt_utc (env : Process) (now : Date) (day : Z) :
  - msPerDay < utcOffset env < msPerDay ->
  day < toISODate now ->
  Date_of_day day < setHours env now 0 0.
Proof.
  unfold setHours, toISODate, Date_of_day, msPerDay, msPerMinute. intros H Hd.
  set (off := utcOffset env) in *.
  assert (H1 : now / 86400000 - 1 <= (now + off) / 86400000).
  { apply Z.div_le_lower_bound; [lia|].
    pose proof (Z.mul_div_le now 86400000 ltac:(lia)). lia. }
  assert (H2 : 0 <= off -> now / 86400000 <= (now + off) / 86400000)
    by (intros; apply Z.div_le_mono; lia).
  destruct (Z_le_gt_dec 0 off) as [Hpos|Hneg].
  - specialize (H2 Hpos). lia.
  - lia.
Qed.

Lemma existsb_false_In {A : Type} (f : A -> bool) (l : list A) :
  existsb f l = false <-> forall x, In x l -> f x = false.
Proof.
  split.
  - intros H x Hx. destruct (f x) eqn:E; [|reflexivity].
    rewrite <- H. symmetry. apply existsb_exists. eauto.
  - intros H. destruct (existsb f l) eqn:E; [|reflexivity].
    apply existsb_exists in E as (x & Hx & E). rewrite (H x Hx) in E.
    discriminate.
Qed.

Lemma Date_of_local_padded (env : Process) (day : Z) (t : TimeString) :
  matches_time t = true -> padded t = true ->
  Date_of_local env day t = Some (local_time env day (hours t) (minutes t)).
Proof. intros Hm Hp. unfold Date_of_local. now rewrite Hm, Hp. Qed.

Lemma Date_of_local_unpadded (env : Process) (day : Z) (t : TimeString) :
  padded t = false -> Date_of_local env day t = None.
Proof. intros Hp. unfold Date_of_local. now rewrite Hp. Qed.

(** A start written ["9:00"] with the end at 08:00, posted at 07:00 of
    the day: the session is created, and it expires at 08:30. *)
Example scenario_post_9 :
  post_session Scenario.IST empty Scenario.teacher Scenario.posted_9
               (Scenario.local 7 0) "token-1" "s1"
  = (mkStore
       [Session.mk "s1" "Maths" None "t1" (Date_of_day Scenario.day)
                   (mkTime 9 0 false) (mkTime 8 0 true) "token-1" true
                   (Scenario.local 8 30) None 100 0] [],
     Created
       (Session.mk "s1" "Maths" None "t1" (Date_of_day Scenario.day)
                   (mkTime 9 0 false) (mkTime 8 0 true) "token-1" true
                   (Scenario.local 8 30) None 100 0)).
Proof. vm_compute. reflexivity. Qed.

(** C5: the code departs from the claim. The handler does what the
    claim says when both times are written with two digits of hours: it
    answers 'End time must be after start time' when the end is not
    after the start, and 'Cannot create session for past dates' when
    the end is after the start and the date is before the server's
    calendar date; and a session it creates holds the generated token,
    which no stored session held, [expiresAt] at the end plus 30
    minutes, [isActive] and a count of 0. But the pattern of the
    validator lets a time through with one digit of hours, which
    [new Date] does not read. With such a start the schedule check
    compares with an invalid date and never fires: the session is
    created whatever the order of the two times. With such an end no
    session is created and the answer is not the one for the schedule. *)
Theorem post_session_unread_start :
  forall (env : Process) (db : Store) (user : User) (body : SessionBody)
         (now : Date) (uuid : string) (id : ObjectId),
    session_validationResult env body = true ->
    let start := local_time env (body_date body) (hours (body_startTime body))
                            (minutes (body_startTime body)) in
    let end_ := local_time env (body_date body) (hours (body_endTime body))
                           (minutes (body_endTime body)) in
    (padded (body_startTime body) = true ->
     padded (body_endTime body) = true ->
     (end_ <= start ->
      post_session env db user body now uuid id = (db, EndNotAfterStart))
     /\ (start < end_ ->
         utcOffset env < msPerDay ->
         body_date body < local_day env now ->
         post_session env db user body now uuid id = (db, PastDate)))
    /\ (padded (body_startTime body) = false ->
        padded (body_endTime body) = true ->
        0 <= utcOffset env ->
        local_day env now <= body_date body ->
        (forall s, In s (sessions db) ->
                   Session._id s <> id /\ Session.qrToken s <> uuid) ->
        exists (db' : Store) (session : Session.doc),
          post_session env db user body now uuid id = (db', Created session)
          /\ Session.startTime session = body_startTime body
          /\ Session.endTime session = body_endTime body
          /\ Session.expiresAt session = end_ + 30 * msPerMinute)
    /\ (padded (body_endTime body) = false ->
        post_session env db user body now uuid id = (db, PastDate)
        \/ post_session env db user body now uuid id = (db, SessionServerError))
    /\ (forall (db' : Store) (session : Session.doc),
           post_session env db user body now uuid id = (db', Created session) ->
           padded (body_endTime body) = true
           /\ Session.qrToken session = uuid
           /\ (forall s, In s (sessions db) -> Session.qrToken s <> uuid)
           /\ Session.expiresAt session = end_ + 30 * msPerMinute
           /\ Session.isActive session = true
           /\ Session.attendanceCount session = 0
           /\ sessions db' = (sessions db ++ [session])%list
           /\ attendances db' = attendances db).
Proof.
  intros env db user body now uuid id Hvalid start end_.
  pose proof Hvalid as Hv. unfold session_validationResult in Hv.
  apply andb_true_iff in Hv as [Hv _]. apply andb_true_iff in Hv as [Hv Hme].
  apply andb_true_iff in Hv as [_ Hms].
  unfold post_session. rewrite Hvalid. cbn [negb].
  split; [|split; [|split]].
  - intros Hps Hpe.
    rewrite (Date_of_local_padded env _ _ Hms Hps),
            (Date_of_local_padded env _ _ Hme Hpe).
    fold start end_. cbn [Date_ge]. split.
    + intros H. now replace (start >=? end_) with true
        by (symmetry; rewrite Z.geb_leb; apply Z.leb_le; exact H).
    + intros H Hoff Hd.
      replace (start >=? end_) with false
        by (symmetry; rewrite Z.geb_leb; apply Z.leb_gt; exact H).
      now replace (Date_of_day (body_date body) <? setHours env now 0 0)
        with true by (symmetry; apply Z.ltb_lt; apply today_gt; assumption).
  - intros Hps Hpe Hoff Hd Hfresh.
    rewrite (Date_of_local_unpadded env _ _ Hps),
            (Date_of_local_padded env _ _ Hme Hpe).
    fold end_. cbn [Date_ge].
    replace (Date_of_day (body_date body) <? setHours env now 0 0) with false
      by (symmetry; apply Z.ltb_ge; apply today_le; assumption).
    unfold Session_save_new. cbn [Session._id Session.qrToken].
    replace (existsb (fun s => String.eqb (Session._id s) id) (sessions db))
      with false
      by (symmetry; apply existsb_false_In; intros s Hs;
          apply String.eqb_neq; apply (Hfresh s Hs)).
    replace (existsb (fun s => String.eqb (Session.qrToken s) uuid) (sessions db))
      with false
      by (symmetry; apply existsb_false_In; intros s Hs;
          apply String.eqb_neq; apply (Hfresh s Hs)).
    cbn [orb]. eexists. eexists. split; [reflexivity|].
    repeat split.
  - intros Hpe. rewrite (Date_of_local_unpadded env _ _ Hpe).
    replace (Date_ge (Date_of_local env (body_date body) (body_startTime body))
                     None) with false
      by (destruct (Date_of_local env (body_date body) (body_startTime body));
          reflexivity).
    destruct (_ <? _); auto.
  - intros db' session H.
    destruct (Date_ge _ _); [discriminate|].
    destruct (_ <? _); [discriminate|].
    destruct (padded (body_endTime body)) eqn:Hpe;
      [|rewrite (Date_of_local_unpadded env _ _ Hpe) in H; discriminate].
    rewrite (Date_of_local_padded env _ _ Hme Hpe) in H. fold end_ in H.
    unfold Session_save_new in H.
    destruct (existsb _ _ || existsb _ _) eqn:E; [discriminate|].
    apply orb_false_iff in E as [_ E]. cbn [Session.qrToken] in E.
    injection H as <- <-. cbn.
    repeat split.
    intros s Hs Heq.
    pose proof (proj1 (existsb_false_In _ _) E s Hs) as Hx. cbv beta in Hx.
    rewrite Heq, String.eqb_refl in Hx. discriminate.
Qed.

(** The start ["9:00"] with the end at 08:00, posted at 07:00 of the
    day to the empty store. *)
Lemma post_session_unread_start_witness :
  exists (db' : Store) (session : Session.doc),
    post_session Scenario.IST empty Scenario.teacher Scenario.posted_9
                 (Scenario.local 7 0) "token-1" "s1"
    = (db', Created session)
    /\ Session.startTime session = mkTime 9 0 false
    /\ Session.endTime session = mkTime 8 0 true
    /\ Session.expiresAt session = Scenario.local 8 30.
Proof.
  destruct (proj1 (proj2
              (post_session_unread_start Scenario.IST empty Scenario.teacher
                 Scenario.posted_9 (Scenario.local 7 0) "token-1" "s1" eq_refl))
              eq_refl eq_refl)
    as (db' & session & H & Hs & He & Hx).
  - discriminate.
  - vm_compute. discriminate.
  - intros s [].
  - exists db', session. split; [exact H|]. split; [exact Hs|].
    split; [exact He|]. rewrite Hx. vm_compute. reflexivity.
Defined.

(** ** Regenerating the token *)

Lemma find_map_key {A : Type} (p : A -> bool) (h : A -> A) (l : list A) :
  (forall a, p (h a) = p a) ->
  find p (map h l) = option_map h (find p l).
Proof.
  intros H. induction l as [|x l IH]; simpl; [reflexivity|].
  rewrite H. destruct (p x); [reflexivity|exact IH].
Qed.

Lemma Session_findById_Some (db : Store) (id : ObjectId) (s : Session.doc) :
  Session_findById db id = Some s -> In s (sessions db) /\ Session._id s = id.
Proof.
  unfold Session_findById. intros H. apply find_some in H as [Hin H].
  apply String.eqb_eq in H. auto.
Qed.

(** The write of [save] after [session.qrToken = token], read back. *)
Lemma Session_findById_after_save (db : Store) (id id' : ObjectId)
    (token : string) :
  find (fun s => String.eqb (Session._id s) id')
       (map (fun s => if String.eqb (Session._id s) id
                      then Session.set_qrToken s token else s)
            (sessions db))
  = option_map (fun s => if String.eqb (Session._id s) id
                         then Session.set_qrToken s token else s)
               (Session_findById db id').
Proof.
  unfold Session_findById. apply find_map_key.
  intros a. destruct (String.eqb (Session._id a) id); reflexivity.
Qed.

(** C10. Regenerating the token asks for nothing but a session with the
    given id whose teacher is the caller, and a generated token that no
    other session holds: it then succeeds, whether the session is
    active or not and whatever its [expiresAt] and the time of the
    call, which the handler does not read. The session then holds the new
    token; its [expiresAt], [isActive], [date], [startTime], [endTime]
    and [attendanceCount] are what they were, and so are all the other
    sessions and all the records. Without such a session the answer is
    404, and 403 when the caller is not its teacher. *)
Theorem regenerate_qr_frame :
  forall (db : Store) (user : User) (id : ObjectId) (uuid : string),
    (Session_findById db id = None ->
     regenerate_qr db user id uuid = (db, SessionNotFound))
    /\ (forall session : Session.doc,
           Session_findById db id = Some session ->
           Session.teacher session <> user_id user ->
           regenerate_qr db user id uuid = (db, AccessDenied))
    /\ (forall session : Session.doc,
           Session_findById db id = Some session ->
           Session.teacher session = user_id user ->
           (forall s, In s (sessions db) -> Session._id s <> id ->
                      Session.qrToken s <> uuid) ->
           exists (db' : Store) (session' : Session.doc),
             regenerate_qr db user id uuid = (db', Regenerated uuid)
             /\ Session_findById db' id = Some session'
             /\ Session.qrToken session' = uuid
             /\ Session.expiresAt session' = Session.expiresAt session
             /\ Session.isActive session' = Session.isActive session
             /\ Session.date session' = Session.date session
             /\ Session.startTime session' = Session.startTime session
             /\ Session.endTime session' = Session.endTime session
             /\ Session.attendanceCount session' = Session.attendanceCount session
             /\ (forall id', id' <> id ->
                             Session_findById db' id' = Session_findById db id')
             /\ attendances db' = attendances db).
Proof.
  intros db user id uuid. unfold regenerate_qr.
  split; [intros ->; reflexivity|]. split.
  - intros session -> Hne.
    apply String.eqb_neq in Hne. now rewrite Hne.
  - intros session Hfind Hown Hfresh. rewrite Hfind.
    destruct (Session_findById_Some db id session Hfind) as [Hin Hid].
    rewrite Hown, String.eqb_refl. simpl negb. cbv iota.
    unfold Session_save_qrToken. simpl Session._id. simpl Session.qrToken.
    replace (existsb _ (sessions db)) with false.
    + eexists. exists (Session.set_qrToken session uuid).
      split; [reflexivity|].
      split.
      { unfold Session_findById at 1. simpl sessions. rewrite Hid.
        rewrite Session_findById_after_save, Hfind. simpl.
        now rewrite Hid, String.eqb_refl. }
      repeat (split; [reflexivity|]).
      split; [|reflexivity].
      intros id' Hne. unfold Session_findById at 1. simpl sessions. rewrite Hid.
      rewrite Session_findById_after_save.
      destruct (Session_findById db id') as [s|] eqn:Hs; [|reflexivity].
      apply Session_findById_Some in Hs as [_ Hs]. simpl.
      rewrite Hs. apply String.eqb_neq in Hne. now rewrite Hne.
    + symmetry. apply existsb_false_In. intros s Hs. rewrite Hid.
      destruct (String.eqb (Session._id s) id) eqn:E; [reflexivity|].
      apply String.eqb_neq in E. simpl. apply String.eqb_neq.
      now apply Hfresh.
Qed.

(** The session of the scenario, revoked, with the call made long after
    its [expiresAt]. *)
Lemma regenerate_qr_frame_witness :
  exists (db' : Store) (session' : Session.doc),
    regenerate_qr (mkStore [Scenario.revoked] []) Scenario.teacher "s1" "token-2"
    = (db', Regenerated "token-2")
    /\ Session_findById db' "s1" = Some session'
    /\ Session.qrToken session' = "token-2"
    /\ Session.expiresAt session' = Scenario.local 10 30
    /\ Session.isActive session' = false.
Proof.
  destruct (proj2 (proj2 (regenerate_qr_frame (mkStore [Scenario.revoked] [])
                            Scenario.teacher "s1" "token-2"))
                  Scenario.revoked eq_refl eq_refl)
    as (db' & session' & H1 & H2 & H3 & H4 & H5 & _).
  - intros s [<-|[]] H. now elim H.
  - exists db', session'. repeat split; assumption.
Defined.

(** * Further properties of the routes *)

(** ** The scorer on a zero vector *)

Lemma loop_norm1_zero (a : list float) :
  Forall is_zero a ->
  forall (b : list float) (acc : Acc),
    norm1 acc = 0%float -> norm1 (loop acc a b) = 0%float.
Proof.
  induction 1 as [|x a Hx _ IH]; intros [|y b] acc Hacc; simpl; auto.
  apply IH. simpl. rewrite Hacc. destruct Hx as [-> | ->]; reflexivity.
Qed.

Lemma cosine_swap (a b : list float) :
  calculateCosineSimilarity a b = calculateCosineSimilarity b a.
Proof.
  unfold calculateCosineSimilarity.
  rewrite (Nat.eqb_sym (List.length b) (List.length a)).
  destruct (Nat.eqb (List.length a) (List.length b)); simpl; [|reflexivity].
  rewrite (loop_sym a b). set (acc := loop _ a b). simpl.
  rewrite (orb_comm (JSNumber.strict_eq (PrimFloat.sqrt (norm2 acc)) 0%float)).
  now rewrite (float_mul_comm (PrimFloat.sqrt (norm2 acc))).
Qed.

Lemma cosine_zero_left (a b : list float) :
  List.length a = List.length b -> Forall is_zero a ->
  calculateCosineSimilarity a b = Return 0%float.
Proof.
  intros Hlen Hz. unfold calculateCosineSimilarity.
  rewrite Hlen, Nat.eqb_refl. simpl.
  now rewrite (loop_norm1_zero a Hz b (mkAcc 0 0 0) eq_refl).
Qed.

(** X1. When every entry of one of two arrays of the same length is a
    zero, [calculateCosineSimilarity] returns exactly 0, whatever the
    other array holds: the quotient is not computed. *)
Theorem cosine_zero_vector (a b : list float) :
  List.length a = List.length b ->
  Forall is_zero a \/ Forall is_zero b ->
  calculateCosineSimilarity a b = Return 0%float.
Proof.
  intros Hlen [Hz|Hz].
  - now apply cosine_zero_left.
  - rewrite cosine_swap. now apply cosine_zero_left.
Qed.

(** A vector of zeros of both signs against one with an infinity. *)
Lemma cosine_zero_vector_witness :
  calculateCosineSimilarity [0; -0; 0]%float [1; infinity; 3]%float
  = Return 0%float.
Proof.
  apply (cosine_zero_vector [0; -0; 0]%float [1; infinity; 3]%float eq_refl).
  left. apply Forall_cons; [left; reflexivity|].
  apply Forall_cons; [right; reflexivity|].
  apply Forall_cons; [left; reflexivity|]. apply Forall_nil.
Defined.

(** ** The face-recognition routes *)

Lemma cosine_same_length (a b : list float) :
  List.length a = List.length b ->
  exists similarity, calculateCosineSimilarity a b = Return similarity.
Proof.
  intros H. unfold calculateCosineSimilarity. rewrite H, Nat.eqb_refl. simpl.
  match goal with
  | |- context [if ?c then Return ?x else Return ?y] =>
      destruct c; eexists; reflexivity
  end.
Qed.

Lemma embedding_valid_128 (isNumeric : float -> bool) (a : list float) :
  List.length a = 128%nat ->
  embedding_valid isNumeric a = forallb isNumeric a.
Proof.
  intros H. unfold embedding_valid, isArray_min128. now rewrite H.
Qed.

(** X2. [POST /api/face-recognition/compare] never answers 500: it
    compares exactly when both arrays have 128 entries that all pass the
    validator, and answers 400 otherwise; the answer is the same with
    the two arrays exchanged. *)
Theorem face_compare_total (isNumeric : float -> bool)
    (embedding1 embedding2 : list float) :
  face_compare isNumeric embedding1 embedding2 <> FaceServerError
  /\ ((exists similarity isMatch,
          face_compare isNumeric embedding1 embedding2
          = FaceCompared similarity isMatch)
      <-> (List.length embedding1 = 128%nat
           /\ forallb isNumeric embedding1 = true)
          /\ (List.length embedding2 = 128%nat
              /\ forallb isNumeric embedding2 = true))
  /\ (face_compare isNumeric embedding1 embedding2 = FaceValidationFailed
      \/ face_compare isNumeric embedding1 embedding2 = NotExactly128
      \/ exists similarity,
           face_compare isNumeric embedding1 embedding2
           = FaceCompared similarity (JSNumber.ge similarity 0.6%float)
           /\ calculateCosineSimilarity embedding1 embedding2 = Return similarity)
  /\ face_compare isNumeric embedding1 embedding2
     = face_compare isNumeric embedding2 embedding1.
Proof.
  unfold face_compare.
  rewrite (cosine_swap embedding2 embedding1).
  rewrite (andb_comm (embedding_valid isNumeric embedding2)).
  rewrite (orb_comm (negb (Nat.eqb (List.length embedding2) 128))).
  destruct (Nat.eqb_spec (List.length embedding1) 128) as [H1|H1];
    destruct (Nat.eqb_spec (List.length embedding2) 128) as [H2|H2].
  - rewrite (embedding_valid_128 _ _ H1), (embedding_valid_128 _ _ H2).
    destruct (cosine_same_length embedding1 embedding2) as [similarity Hs];
      [congruence|].
    rewrite Hs.
    destruct (forallb isNumeric embedding1), (forallb isNumeric embedding2);
      simpl; (split; [discriminate|]);
      (split; [|split; [eauto|reflexivity]]);
      (split; [intros (s & m & H); try discriminate; auto
              |intros [[_ Ha] [_ Hb]]; try discriminate; eauto]).
  - destruct (embedding_valid isNumeric embedding1
              && embedding_valid isNumeric embedding2); simpl;
      rewrite ?orb_true_r;
      (split; [discriminate|]); (split; [|split; [auto|reflexivity]]);
      (split; [intros (s & m & H); discriminate
              |intros [_ [H _]]; contradiction]).
  - destruct (embedding_valid isNumeric embedding1
              && embedding_valid isNumeric embedding2); simpl;
      (split; [discriminate|]); (split; [|split; [auto|reflexivity]]);
      (split; [intros (s & m & H); discriminate
              |intros [[H _] _]; contradiction]).
  - destruct (embedding_valid isNumeric embedding1
              && embedding_valid isNumeric embedding2); simpl;
      (split; [discriminate|]); (split; [|split; [auto|reflexivity]]);
      (split; [intros (s & m & H); discriminate
              |intros [[H _] _]; contradiction]).
Qed.

Lemma User_update_sized (users : list User) (id : ObjectId) (e : list float) :
  e = [] \/ List.length e = 128%nat ->
  embeddings_sized users ->
  embeddings_sized (snd (User_findByIdAndUpdate_faceEmbedding users id e)).
Proof.
  intros He Hs. unfold User_findByIdAndUpdate_faceEmbedding.
  destruct (find _ users) as [found|]; [|exact Hs]. simpl.
  intros u e' Hin Hu. apply in_map_iff in Hin as (u0 & Hu0 & Hin).
  destruct (String.eqb (user_id u0) id).
  - subst u. simpl in Hu. injection Hu as <-. exact He.
  - subst u0. now apply (Hs u).
Qed.

Lemma User_findById_updated (users : list User) (id : ObjectId)
    (e : list float) (u : User) :
  User_findById users id = Some u ->
  User_findByIdAndUpdate_faceEmbedding users id e
  = (Some (mkUser id (role u) (Some e)),
     snd (User_findByIdAndUpdate_faceEmbedding users id e))
  /\ User_findById (snd (User_findByIdAndUpdate_faceEmbedding users id e)) id
     = Some (mkUser id (role u) (Some e)).
Proof.
  unfold User_findById, User_findByIdAndUpdate_faceEmbedding. intros H.
  rewrite H. simpl.
  pose proof (find_some _ _ H) as [_ Hid]. apply String.eqb_eq in Hid.
  rewrite Hid. split; [reflexivity|].
  rewrite find_map_key.
  - rewrite H. simpl. now rewrite Hid, String.eqb_refl.
  - intros a. destruct (String.eqb (user_id a) id) eqn:E; simpl; auto.
Qed.

(** A registration that succeeds. *)
Lemma face_register_success (isNumeric : float -> bool)
    (users users' : list User) (user : User) (submitted : list float)
    (has : bool) :
  face_register isNumeric users user submitted = (users', FaceRegistered has) ->
  List.length submitted = 128%nat
  /\ forallb isNumeric submitted = true
  /\ role user = student_role
  /\ has = true
  /\ exists u, User_findById users' (user_id user) = Some u
               /\ faceEmbedding u = Some submitted.
Proof.
  unfold face_register.
  destruct (embedding_valid isNumeric submitted) eqn:Hv; [|discriminate].
  cbn [negb].
  destruct (Nat.eqb (List.length submitted) 128) eqn:H128; [|discriminate].
  apply Nat.eqb_eq in H128. simpl.
  destruct (is_student user) eqn:Hst; [|discriminate]. simpl.
  unfold User_findByIdAndUpdate_faceEmbedding.
  destruct (find (fun u => String.eqb (user_id u) (user_id user)) users)
    as [u0|] eqn:Hf; [|discriminate].
  intros H. injection H as <- <-.
  split; [exact H128|].
  split; [now rewrite (embedding_valid_128 _ _ H128) in Hv|].
  split; [unfold is_student in Hst; destruct (role user);
          try discriminate; reflexivity|].
  split; [unfold no_faceEmbedding; simpl; now rewrite H128|].
  destruct (User_findById_updated users (user_id user) submitted u0 Hf)
    as [_ H].
  unfold User_findByIdAndUpdate_faceEmbedding in H. rewrite Hf in H.
  simpl in H. eexists. split; [exact H|reflexivity].
Qed.

(** X3. Registration stores 128 entries or nothing: when every stored
    embedding is empty or has 128 entries, it is still so after any
    [register] and any [remove]. A registration that succeeds is one of
    exactly 128 entries that pass the validator, by a student, and the
    user's document then holds it. *)
Theorem face_register_sized :
  forall (isNumeric : float -> bool) (users : list User) (user : User)
         (submitted : list float),
    (embeddings_sized users ->
     embeddings_sized (fst (face_register isNumeric users user submitted))
     /\ embeddings_sized (fst (face_remove users user)))
    /\ (forall users' has,
           face_register isNumeric users user submitted
           = (users', FaceRegistered has) ->
           List.length submitted = 128%nat
           /\ forallb isNumeric submitted = true
           /\ role user = student_role
           /\ has = true
           /\ exists u, User_findById users' (user_id user) = Some u
                        /\ faceEmbedding u = Some submitted).
Proof.
  intros isNumeric users user submitted. split.
  - intros Hs. split.
    + unfold face_register.
      destruct (negb (embedding_valid isNumeric submitted)); [exact Hs|].
      destruct (Nat.eqb (List.length submitted) 128) eqn:H128; [|exact Hs].
      apply Nat.eqb_eq in H128. simpl.
      destruct (negb (is_student user)); [exact Hs|].
      pose proof (User_update_sized users (user_id user) submitted
                    (or_intror H128) Hs) as H.
      destruct (User_findByIdAndUpdate_faceEmbedding users (user_id user)
                  submitted) as [[u|] users']; exact H.
    + unfold face_remove. destruct (negb (is_student user)); [exact Hs|].
      pose proof (User_update_sized users (user_id user) []
                    (or_introl eq_refl) Hs) as H.
      destruct (User_findByIdAndUpdate_faceEmbedding users (user_id user) [])
        as [[u|] users']; exact H.
  - intros users' has. apply face_register_success.
Qed.

(** A student of the collection registers 128 ones. *)
Lemma face_register_sized_witness :
  exists u,
    User_findById (fst (face_register (fun _ => true) [Scenario.student]
                                      Scenario.student Scenario.ones)) "u1"
    = Some u
    /\ faceEmbedding u = Some Scenario.ones.
Proof.
  destruct (proj2 (face_register_sized (fun _ => true) [Scenario.student]
                     Scenario.student Scenario.ones)
                  (fst (face_register (fun _ => true) [Scenario.student]
                                      Scenario.student Scenario.ones))
                  true eq_refl)
    as (_ & _ & _ & _ & H).
  exact H.
Defined.

(** X4. [POST /api/face-recognition/verify] against a stored embedding
    of 128 entries: a descriptor that passes the validation with 128
    entries is compared, and the answer is a match exactly when the
    similarity is [>=] the threshold of the request (0.6 without one); a
    longer descriptor passes the validation too and is answered with
    500. *)
Theorem face_verify_length :
  forall (isNumeric : float -> bool) (user : User)
         (stored submitted : list float) (threshold : option float),
    faceEmbedding user = Some stored ->
    List.length stored = 128%nat ->
    match threshold with
    | None => True
    | Some t => JSNumber.le 0 t = true /\ JSNumber.le t 1 = true
    end ->
    ((List.length submitted < 128)%nat \/ forallb isNumeric submitted = false)
      /\ face_verify isNumeric user submitted threshold = FaceValidationFailed
    \/ ((List.length submitted > 128)%nat /\ forallb isNumeric submitted = true)
       /\ face_verify isNumeric user submitted threshold = FaceServerError
    \/ (List.length submitted = 128%nat /\ forallb isNumeric submitted = true)
       /\ exists similarity,
            calculateCosineSimilarity stored submitted = Return similarity
            /\ face_verify isNumeric user submitted threshold
               = FaceVerified
                   (JSNumber.ge similarity
                      (match threshold with Some t => t | None => 0.6%float end))
                   similarity
                   (match threshold with Some t => t | None => 0.6%float end).
Proof.
  intros isNumeric user stored submitted threshold Hst Hlen Ht.
  unfold face_verify, embedding_valid, isArray_min128, no_faceEmbedding.
  rewrite Hst, Hlen.
  assert (Hthr : match threshold with
                 | None => true
                 | Some t => JSNumber.le 0 t && JSNumber.le t 1
                 end = true).
  { destruct threshold as [t|]; [|reflexivity]. destruct Ht as [-> ->].
    reflexivity. }
  rewrite Hthr, andb_true_r.
  destruct (forallb isNumeric submitted) eqn:Hnum;
    [|left; rewrite andb_false_r; split; [now right|reflexivity]].
  rewrite andb_true_r.
  destruct (Nat.leb 128 (List.length submitted)) eqn:Hge.
  - apply Nat.leb_le in Hge. simpl.
    destruct (Nat.eq_dec (List.length submitted) 128) as [E|E].
    + right. right. split; [split; [exact E|reflexivity]|].
      destruct (cosine_same_length stored submitted) as [similarity Hs];
        [congruence|].
      exists similarity. split; [exact Hs|]. now rewrite Hs.
    + right. left. split; [split; [lia|reflexivity]|].
      unfold calculateCosineSimilarity. rewrite Hlen.
      apply not_eq_sym, Nat.eqb_neq in E. now rewrite E.
  - apply Nat.leb_gt in Hge. left. split; [now left|reflexivity].
Qed.

(** 129 ones against a stored embedding of 128. *)
Lemma face_verify_length_witness :
  face_verify (fun _ => true) Scenario.enrolled (1%float :: Scenario.ones) None
  = FaceServerError.
Proof.
  destruct (face_verify_length (fun _ => true) Scenario.enrolled Scenario.ones
              (1%float :: Scenario.ones) None eq_refl eq_refl I)
    as [[[H|H] _]|[[_ H]|[[H _] _]]].
  - vm_compute in H. lia.
  - discriminate H.
  - exact H.
  - discriminate H.
Defined.

(** X5. The face routes and the gate: once [remove] has succeeded, a
    face presentation of that user that passes the ticket and duplicate
    checks is rejected with 'Face not registered', whatever confidence
    it carries; once [register] has succeeded, it is decided on the
    confidence alone. *)
Theorem face_routes_and_gate :
  forall (env : Process) (db : Store) (users : list User) (user : User)
         (body : ScanBody) (clock : Clock),
    ticket_checks_pass env db body clock ->
    Attendance_findOne db (user_id user) (qrData_sessionId body) = None ->
    method_of body = Attendance.face_recognition ->
    (forall users' u,
        face_remove users user = (users', FaceRemoved) ->
        User_findById users' (user_id user) = Some u ->
        admissionGate env db u body clock = Reject FaceNotRegistered)
    /\ (forall isNumeric submitted users' has u,
           face_register isNumeric users user submitted
           = (users', FaceRegistered has) ->
           User_findById users' (user_id user) = Some u ->
           admissionGate env db u body clock
           = if confidence_too_low env (body_faceConfidence body)
             then Reject ConfidenceTooLow else Proceed).
Proof.
  intros env db users user body clock Hchecks Hnone Hm.
  assert (Hgate : forall u e,
             user_id u = user_id user -> faceEmbedding u = Some e ->
             admissionGate env db u body clock
             = if Nat.eqb (List.length e) 0 then Reject FaceNotRegistered
               else if confidence_too_low env (body_faceConfidence body)
                    then Reject ConfidenceTooLow else Proceed).
  { intros u e Hid He.
    rewrite (gate_after_ticket_checks env db u body clock Hchecks).
    rewrite Hid, Hnone, Hm. unfold no_faceEmbedding. now rewrite He. }
  split.
  - intros users' u. unfold face_remove.
    destruct (negb (is_student user)); [discriminate|].
    destruct (find (fun u => String.eqb (user_id u) (user_id user)) users)
      as [u0|] eqn:Hf.
    + destruct (User_findById_updated users (user_id user) [] u0 Hf)
        as [Heq Hu].
      rewrite Heq. intros H Hu'. injection H as <-. rewrite Hu in Hu'.
      injection Hu' as <-.
      now rewrite (Hgate (mkUser (user_id user) (role u0) (Some [])) []
                         eq_refl eq_refl).
    + unfold User_findByIdAndUpdate_faceEmbedding. rewrite Hf. discriminate.
  - intros isNumeric submitted users' has u Hreg Hu.
    destruct (face_register_success isNumeric users users' user submitted has
                                    Hreg)
      as (H128 & _ & _ & _ & u1 & Hu1 & He).
    rewrite Hu in Hu1. injection Hu1 as <-.
    assert (Hid : user_id u = user_id user).
    { unfold User_findById in Hu. apply find_some in Hu as [_ Hu].
      now apply String.eqb_eq in Hu. }
    rewrite (Hgate u submitted Hid He), H128. reflexivity.
Qed.

(** The student of the scenario, in the collection, removes the
    embedding and presents the code with a confidence of 0.9. *)
Lemma face_routes_and_gate_witness :
  admissionGate Scenario.IST Scenario.db0 (mkUser "u1" student_role (Some []))
                (Scenario.face 0.9 Scenario.ones) (tick (Scenario.local 9 5))
  = Reject FaceNotRegistered.
Proof.
  apply (proj1 (face_routes_and_gate Scenario.IST Scenario.db0
                  [Scenario.enrolled] Scenario.enrolled
                  (Scenario.face 0.9 Scenario.ones) (tick (Scenario.local 9 5))
                  (scenario_ticket_checks (Scenario.face 0.9 Scenario.ones)
                     9 5 eq_refl eq_refl eq_refl ltac:(lia))
                  eq_refl eq_refl)
               [mkUser "u1" student_role (Some [])]);
    reflexivity.
Defined.

(** ** Modifying, deleting and listing sessions *)

Lemma updateData_same_ticket (env : Process) (body : ModifyBody)
    (s : Session.doc) :
  same_ticket s (updateData env body s).
Proof. repeat split. Qed.

(** X6. [PUT /api/sessions/:id] writes nothing but the subject, the
    description, the location and [maxStudents] of the one session: the
    records, the list of sessions, and the id, teacher, schedule, token,
    [isActive], [expiresAt] and [attendanceCount] of every session are
    what they were. A subject that is empty once trimmed is refused with
    400, and the subject that is written is the trimmed one. On the
    caller's own session and a well-formed body, when the start of the
    session can be read the request is refused from that start on and
    not before; when it cannot (a stored start time with one digit of
    hours) the request is never refused for the start. *)
Theorem put_session_frame :
  forall (env : Process) (db : Store) (user : User) (id : ObjectId)
         (body : ModifyBody) (now : Date),
    attendances (fst (put_session env db user id body now)) = attendances db
    /\ (exists f : Session.doc -> Session.doc,
           sessions (fst (put_session env db user id body now))
           = map f (sessions db)
           /\ forall s, same_ticket s (f s)
                        /\ (Session._id s <> id -> f s = s))
    /\ (forall subject,
           new_subject body = Some subject -> trim env subject = "" ->
           put_session env db user id body now = (db, ModifyValidationFailed))
    /\ (forall subject session',
           new_subject body = Some subject ->
           snd (put_session env db user id body now) = Modified session' ->
           Session.subject session' = trim env (trim env subject))
    /\ (forall session,
           Session_findById db id = Some session ->
           Session.teacher session = user_id user ->
           modify_validationResult env body = true ->
           match sessionStart env session with
           | Some start =>
               (start <= now ->
                put_session env db user id body now = (db, ModifyStarted))
               /\ (now < start ->
                   snd (put_session env db user id body now)
                   = Modified (updateData env body session))
           | None =>
               snd (put_session env db user id body now)
               = Modified (updateData env body session)
           end).
Proof.
  intros env db user id body now. unfold put_session.
  split; [|split; [|split; [|split]]].
  - destruct (negb (modify_validationResult env body)); [reflexivity|].
    destruct (Session_findById db id); [|reflexivity].
    destruct (negb _); [reflexivity|]. destruct (Date_ge _ _); reflexivity.
  - assert (Hid : exists f : Session.doc -> Session.doc,
               sessions db = map f (sessions db)
               /\ forall s, same_ticket s (f s)
                            /\ (Session._id s <> id -> f s = s)).
    { exists (fun s => s). split; [now rewrite map_id|].
      intros s. split; [repeat split|reflexivity]. }
    destruct (negb (modify_validationResult env body)); [exact Hid|].
    destruct (Session_findById db id); [|exact Hid].
    destruct (negb _); [exact Hid|]. destruct (Date_ge _ _); [exact Hid|].
    exists (fun s => if String.eqb (Session._id s) id
                     then updateData env body s else s).
    split; [reflexivity|]. intros s. cbv beta.
    destruct (String.eqb (Session._id s) id) eqn:E.
    + split; [apply updateData_same_ticket|].
      apply String.eqb_eq in E. intros H. contradiction.
    + split; [repeat split|reflexivity].
  - intros subject Hs Ht. unfold modify_validationResult.
    now rewrite Hs, Ht.
  - intros subject session' Hs.
    destruct (modify_validationResult env body) eqn:Hv; [|discriminate].
    cbn [negb]. destruct (Session_findById db id); [|discriminate].
    destruct (negb _); [discriminate|].
    destruct (Date_ge _ _); [discriminate|].
    cbn [snd]. intros H. injection H as <-.
    unfold modify_validationResult in Hv. rewrite Hs in Hv.
    apply andb_true_iff in Hv as [Hv _]. apply negb_true_iff in Hv.
    unfold updateData. cbn [Session.subject]. now rewrite Hs, Hv.
  - intros session Hf Hown Hv. rewrite Hv, Hf, Hown, String.eqb_refl.
    cbn [negb]. destruct (sessionStart env session) as [start|];
      cbn [Date_ge]; [|reflexivity].
    split; intros H.
    + now replace (now >=? start) with true
        by (symmetry; rewrite Z.geb_leb; apply Z.leb_le; exact H).
    + now replace (now >=? start) with false
        by (symmetry; rewrite Z.geb_leb; apply Z.leb_gt; exact H).
Qed.

(** The teacher of the scenario renames the session at 08:00, with
    blanks around the new name. *)
Lemma put_session_frame_witness :
  snd (put_session Scenario.IST Scenario.db0 Scenario.teacher "s1"
                   (mkModifyBody (Some "  Algebra ") None None None)
                   (Scenario.local 8 0))
  = Modified
      (Session.mk "s1" "Algebra" None "t1" (Date_of_day Scenario.day)
                  (mkTime 9 0 true) (mkTime 10 0 true) "token-1" true
                  (Scenario.local 10 30) None 100 0).
Proof.
  pose proof (proj2 (proj2 (proj2 (proj2
                (put_session_frame Scenario.IST Scenario.db0 Scenario.teacher
                   "s1" (mkModifyBody (Some "  Algebra ") None None None)
                   (Scenario.local 8 0)))))
                Scenario.maths eq_refl eq_refl eq_refl) as H.
  change (sessionStart Scenario.IST Scenario.maths)
    with (Some (Scenario.local 9 0)) in H.
  cbv iota in H. destruct H as [_ H]. rewrite H.
  - vm_compute. reflexivity.
  - rewrite !scenario_local. lia.
Defined.

(** X7. [DELETE /api/sessions/:id], when it succeeds, was asked by the
    teacher of the session, before its start if that start can be read;
    afterwards no session has that id, no record refers to it, and the
    other sessions and the records of the other sessions are all there.
    For the teacher of the session the request is refused from the
    start on and goes through before it; when the stored start time has
    one digit of hours the start cannot be read, and the request goes
    through at any time. *)
Theorem delete_session_cascade :
  forall (env : Process) (db : Store) (user : User) (id : ObjectId)
         (now : Date),
    (forall db',
        delete_session env db user id now = (db', Deleted) ->
        (exists session,
            Session_findById db id = Some session
            /\ Session.teacher session = user_id user
            /\ forall start, sessionStart env session = Some start ->
                             now < start)
        /\ Session_findById db' id = None
        /\ (forall s, In s (sessions db')
                      <-> In s (sessions db) /\ Session._id s <> id)
        /\ (forall a, In a (attendances db')
                      <-> In a (attendances db) /\ Attendance.session_id a <> id))
    /\ (forall session,
           Session_findById db id = Some session ->
           Session.teacher session = user_id user ->
           match sessionStart env session with
           | Some start =>
               (start <= now ->
                delete_session env db user id now = (db, AlreadyStarted))
               /\ (now < start ->
                   snd (delete_session env db user id now) = Deleted)
           | None => snd (delete_session env db user id now) = Deleted
           end).
Proof.
  intros env db user id now. unfold delete_session. split.
  - intros db'.
    destruct (Session_findById db id) as [session|] eqn:Hf; [|discriminate].
    destruct (String.eqb (Session.teacher session) (user_id user)) eqn:Hown;
      [|discriminate]. cbn [negb].
    destruct (Date_ge (Some now) (sessionStart env session)) eqn:Hst;
      [discriminate|].
    intros H. injection H as <-.
    pose proof (Session_findById_Some db id session Hf) as [Hin Hid].
    assert (Hs : forall s,
               In s (filter (fun s => negb (String.eqb (Session._id s) id))
                            (sessions db))
               <-> In s (sessions db) /\ Session._id s <> id).
    { intros s. rewrite filter_In, negb_true_iff, String.eqb_neq. reflexivity. }
    split; [|split; [|split]].
    + exists session. apply String.eqb_eq in Hown.
      split; [reflexivity|]. split; [exact Hown|].
      intros start E. rewrite E in Hst. cbn [Date_ge] in Hst.
      rewrite Z.geb_leb, Z.leb_gt in Hst. exact Hst.
    + unfold Session_findById. simpl.
      destruct (find _ _) as [s|] eqn:E; [|reflexivity].
      apply find_some in E as [E1 E2]. apply Hs in E1 as [_ E1].
      apply String.eqb_eq in E2. contradiction.
    + exact Hs.
    + intros a. simpl. rewrite filter_In, negb_true_iff, String.eqb_neq, Hid.
      reflexivity.
  - intros session Hf Hown. rewrite Hf, Hown, String.eqb_refl. cbn [negb].
    destruct (sessionStart env session) as [start|]; cbn [Date_ge];
      [|reflexivity].
    split; intros H.
    + now replace (now >=? start) with true
        by (symmetry; rewrite Z.geb_leb; apply Z.leb_le; exact H).
    + now replace (now >=? start) with false
        by (symmetry; rewrite Z.geb_leb; apply Z.leb_gt; exact H).
Qed.

(** The teacher of the scenario deletes the session at 08:00, with the
    record of the student in the store. *)
Lemma delete_session_cascade_witness :
  delete_session Scenario.IST Scenario.db1 Scenario.teacher "s1"
                 (Scenario.local 8 0)
  = (mkStore [] [], Deleted)
  /\ Session_findById (mkStore [] []) "s1" = None.
Proof.
  assert (H : delete_session Scenario.IST Scenario.db1 Scenario.teacher "s1"
                             (Scenario.local 8 0)
              = (mkStore [] [], Deleted)) by (vm_compute; reflexivity).
  split; [exact H|].
  exact (proj1 (proj2 (proj1 (delete_session_cascade _ _ _ _ _) _ H))).
Defined.

Lemma gate_Proceed_started (env : Process) (db : Store) (user : User)
    (body : ScanBody) (clock : Clock) :
  admissionGate env db user body clock = Proceed ->
  exists session,
    Session_findOne db (qrData_sessionId body) (qrData_token body) = Some session
    /\ at_expiry clock <= Session.expiresAt session
    /\ Date_lt (Some (at_start clock)) (sessionStart env session) = false.
Proof.
  unfold admissionGate.
  destruct (negb (validationResult env body)); [discriminate|].
  destruct (Session_findOne _ _ _) as [session|]; [|discriminate].
  destruct (_ >? _) eqn:E1; [discriminate|].
  destruct (Date_lt _ _) eqn:E2; [discriminate|].
  intros _. exists session. rewrite Z.gtb_ltb, Z.ltb_ge in E1. auto.
Qed.

(** With the start of the scenario's session stored as ["9:00"], a
    presentation passes the gate at 08:00, an hour before the start,
    and the teacher deletes the session at 09:06, after it. *)
Example scenario_unread_start :
  admissionGate Scenario.IST (mkStore [Scenario.maths_9] []) Scenario.student
                Scenario.qr (tick (Scenario.local 8 0))
  = Proceed
  /\ delete_session Scenario.IST (mkStore [Scenario.maths_9] [])
                    Scenario.teacher "s1" (Scenario.local 9 6)
     = (mkStore [] [], Deleted).
Proof. split; vm_compute; reflexivity. Qed.

(** X8. The window for changes closes where the window for admissions
    opens, for a session whose start can be read (its stored start time
    has two digits of hours): on a store whose sessions have distinct
    ids, once a presentation for such a session has passed the gate,
    that session can be neither modified nor deleted at any later
    time. *)
Theorem no_change_after_admission_opens :
  forall (env : Process) (db : Store) (student user : User) (body : ScanBody)
         (clock : Clock) (change : ModifyBody) (now : Date),
    unique_session_ids db ->
    (forall session,
        Session_findById db (qrData_sessionId body) = Some session ->
        sessionStart env session <> None) ->
    admissionGate env db student body clock = Proceed ->
    at_start clock <= now ->
    fst (delete_session env db user (qrData_sessionId body) now) = db
    /\ snd (delete_session env db user (qrData_sessionId body) now) <> Deleted
    /\ fst (put_session env db user (qrData_sessionId body) change now) = db
    /\ forall s, snd (put_session env db user (qrData_sessionId body) change now)
                 <> Modified s.
Proof.
  intros env db student user body clock change now Hu Hread Hgate Hnow.
  destruct (gate_Proceed_started env db student body clock Hgate)
    as (session & Hf & _ & Hstart).
  apply Session_findOne_Some in Hf as (Hin & Hid & _ & _).
  assert (Hfind : Session_findById db (qrData_sessionId body) = Some session).
  { destruct (Session_findById db (qrData_sessionId body)) as [s|] eqn:E.
    - apply Session_findById_Some in E as [E1 E2]. f_equal.
      apply (unique_session db); auto. congruence.
    - unfold Session_findById in E.
      pose proof (find_none _ _ E session Hin) as H. cbv beta in H.
      rewrite Hid, String.eqb_refl in H. discriminate. }
  assert (Hge : Date_ge (Some now) (sessionStart env session) = true).
  { specialize (Hread session Hfind).
    destruct (sessionStart env session) as [start|]; [|now elim Hread].
    cbn [Date_lt Date_ge] in *. rewrite Z.ltb_ge in Hstart.
    rewrite Z.geb_leb. apply Z.leb_le. lia. }
  unfold delete_session, put_session. rewrite Hfind, Hge.
  destruct (negb (String.eqb (Session.teacher session) (user_id user)));
    destruct (negb (modify_validationResult env change)); simpl;
    repeat split; try discriminate.
Qed.

(** The scenario: a presentation passes at 09:05, the teacher tries to
    delete the session at 09:06. *)
Lemma no_change_after_admission_opens_witness :
  snd (delete_session Scenario.IST Scenario.db0 Scenario.teacher "s1"
                      (Scenario.local 9 6)) <> Deleted.
Proof.
  refine (proj1 (proj2 (no_change_after_admission_opens Scenario.IST
            Scenario.db0 Scenario.student Scenario.teacher Scenario.qr
            (tick (Scenario.local 9 5))
            (mkModifyBody None None None None) (Scenario.local 9 6)
            _ _ eq_refl _))).
  - unfold unique_session_ids. simpl. constructor; [intros []|constructor].
  - intros session H. injection H as <-. discriminate.
  - vm_compute. discriminate.
Defined.



(** ** Pages *)

Lemma firstn_add_skipn {A : Type} (a b : nat) :
  forall l : list A, firstn (a + b) l = (firstn a l ++ firstn b (skipn a l))%list.
Proof.
  induction a as [|a IH]; intros l; simpl; [reflexivity|].
  destruct l as [|x l]; simpl.
  - now rewrite firstn_nil.
  - now rewrite IH.
Qed.

Lemma pages_upto_firstn {A : Type} (limit : positive) (l : list A) (n : nat) :
  pages_upto n limit l = firstn (n * Pos.to_nat limit) l.
Proof.
  induction n as [|n IH]; [reflexivity|].
  cbn [pages_upto]. rewrite IH. unfold paginate.
  rewrite Nat2Pos.id by discriminate.
  replace (S n - 1)%nat with n by lia.
  replace (S n * Pos.to_nat limit)%nat with (n * Pos.to_nat limit + Pos.to_nat limit)%nat
    by lia.
  now rewrite firstn_add_skipn.
Qed.

Lemma pages_enough (total : nat) (limit : positive) :
  (total <= pages total limit * Pos.to_nat limit)%nat.
Proof.
  unfold pages. pose proof (Pos2Nat.is_pos limit) as Hpos.
  set (L := Pos.to_nat limit) in *.
  pose proof (Nat.div_mod_eq (total + L - 1) L) as H.
  pose proof (Nat.mod_upper_bound (total + L - 1) L ltac:(lia)) as Hr.
  nia.
Qed.

Lemma pages_tight (total : nat) (limit : positive) :
  (0 < total)%nat ->
  ((pages total limit - 1) * Pos.to_nat limit < total)%nat.
Proof.
  unfold pages. pose proof (Pos2Nat.is_pos limit) as Hpos.
  set (L := Pos.to_nat limit) in *. intros Ht.
  pose proof (Nat.div_mod_eq (total + L - 1) L) as H.
  pose proof (Nat.mod_upper_bound (total + L - 1) L ltac:(lia)) as Hr.
  nia.
Qed.

(** X10. The pages of a listing: with a limit from 1, the pages from 1 to
    [Math.ceil(total / limit)], one after the other, are the whole
    listing in its order; each page has at most [limit] entries, each of
    those pages has at least one, and every later page is empty. *)
Theorem pages_cover_the_listing :
  forall (A : Type) (l : list A) (limit : positive),
    pages_upto (pages (List.length l) limit) limit l = l
    /\ (forall page, (List.length (paginate page limit l) <= Pos.to_nat limit)%nat)
    /\ (forall page, (Pos.to_nat page <= pages (List.length l) limit)%nat ->
                     paginate page limit l <> [])
    /\ (forall page, (pages (List.length l) limit < Pos.to_nat page)%nat ->
                     paginate page limit l = []).
Proof.
  intros A l limit. pose proof (Pos2Nat.is_pos limit) as Hpos.
  split; [|split; [|split]].
  - rewrite pages_upto_firstn. apply firstn_all2. apply pages_enough.
  - intros page. unfold paginate. rewrite length_firstn. lia.
  - intros page Hp. pose proof (Pos2Nat.is_pos page) as Hpage.
    assert (Ht : (0 < List.length l)%nat).
    { destruct l; simpl; [|lia]. unfold pages in Hp. simpl in Hp.
      rewrite Nat.div_small in Hp by lia. lia. }
    pose proof (pages_tight (List.length l) limit Ht) as Htight.
    unfold paginate. intros H. apply (f_equal (@List.length A)) in H.
    rewrite length_firstn, length_skipn in H. simpl in H.
    assert ((Pos.to_nat page - 1) * Pos.to_nat limit
            <= (pages (List.length l) limit - 1) * Pos.to_nat limit)%nat
      by (apply Nat.mul_le_mono_r; lia).
    lia.
  - intros page Hp. unfold paginate.
    rewrite skipn_all2; [apply firstn_nil|].
    pose proof (pages_enough (List.length l) limit).
    assert (pages (List.length l) limit * Pos.to_nat limit
            <= (Pos.to_nat page - 1) * Pos.to_nat limit)%nat
      by (apply Nat.mul_le_mono_r; lia).
    lia.
Qed.

(** ** The pages of the teacher's sessions *)

Lemma in_firstn {A : Type} (n : nat) (l : list A) (x : A) :
  In x (firstn n l) -> In x l.
Proof.
  intros H. rewrite <- (firstn_skipn n l). apply in_or_app. now left.
Qed.

Lemma in_skipn {A : Type} (n : nat) (l : list A) (x : A) :
  In x (skipn n l) -> In x l.
Proof.
  intros H. rewrite <- (firstn_skipn n l). apply in_or_app. now right.
Qed.

Lemma in_paginate {A : Type} (page limit : positive) (l : list A) (x : A) :
  In x (paginate page limit l) -> In x l.
Proof.
  unfold paginate. intros H. apply in_firstn in H. now apply in_skipn in H.
Qed.

Lemma pages_upto_all {A : Type} (limit : positive) (l : list A) :
  pages_upto (pages (List.length l) limit) limit l = l.
Proof.
  rewrite pages_upto_firstn. apply firstn_all2. apply pages_enough.
Qed.

Lemma in_pages_upto {A : Type} (limit : positive) (l : list A) (x : A) (n : nat) :
  In x (pages_upto n limit l) ->
  exists page, (Pos.to_nat page <= n)%nat /\ In x (paginate page limit l).
Proof.
  induction n as [|n IH]; cbn [pages_upto]; [intros []|].
  intros H. apply in_app_or in H as [H|H].
  - destruct (IH H) as (page & Hp & Hin). exists page. split; [lia|exact Hin].
  - exists (Pos.of_nat (S n)). rewrite Nat2Pos.id by discriminate.
    split; [lia|exact H].
Qed.

(** X11. [GET /api/sessions] lists the caller's own sessions and no
    others: a session on any page is a stored session of the caller that
    meets the status filter, and every such session is on one of the
    pages from 1 to the [pages] the answer reports. *)
Theorem get_sessions_lists_own_sessions :
  forall (db : Store) (user : User) (limit : positive) (status : string)
         (now : Date) (s : Session.doc),
    (forall page,
        In s (fst (get_sessions db user page limit status now)) ->
        In s (sessions db)
        /\ Session.teacher s = user_id user
        /\ sessions_query user status now s = true)
    /\ (In s (sessions db) ->
        sessions_query user status now s = true ->
        exists page,
          (Pos.to_nat page
           <= pages_count (snd (get_sessions db user 1 limit status now)))%nat
          /\ In s (fst (get_sessions db user page limit status now))).
Proof.
  intros db user limit status now s. unfold get_sessions.
  cbn [fst snd pages_count].
  set (found := rev (filter (sessions_query user status now) (sessions db))).
  assert (Hfound : forall x, In x found
                             <-> In x (sessions db)
                                 /\ sessions_query user status now x = true).
  { intros x. unfold found. rewrite <- in_rev. apply filter_In. }
  split.
  - intros page H. apply in_paginate in H. apply Hfound in H as [Hin Hq].
    repeat split; auto.
    unfold sessions_query in Hq. apply andb_true_iff in Hq as [Hq _].
    now apply String.eqb_eq in Hq.
  - intros Hin Hq. assert (H : In s found) by (apply Hfound; auto).
    rewrite <- (pages_upto_all limit found) in H.
    apply in_pages_upto in H. exact H.
Qed.

(** ** The attendance of a session *)

Lemma Status_eqb_eq (a b : Attendance.Status) :
  Attendance.Status_eqb a b = true <-> a = b.
Proof.
  destruct a, b; simpl; split; intros H; try reflexivity; discriminate.
Qed.

Lemma insert_by_markedAt_perm (a : Attendance.doc) (l : list Attendance.doc) :
  Permutation (insert_by_markedAt a l) (a :: l).
Proof.
  induction l as [|b l IH]; simpl; [reflexivity|].
  destruct (Attendance.markedAt b <=? Attendance.markedAt a); [reflexivity|].
  transitivity (b :: a :: l); [apply perm_skip, IH | apply perm_swap].
Qed.

Lemma sort_markedAt_desc_perm (l : list Attendance.doc) :
  Permutation (sort_markedAt_desc l) l.
Proof.
  induction l as [|a l IH]; [constructor|].
  unfold sort_markedAt_desc in *. cbn [fold_right].
  etransitivity; [apply insert_by_markedAt_perm | apply perm_skip, IH].
Qed.

Lemma insert_by_markedAt_sorted (a : Attendance.doc) (l : list Attendance.doc) :
  sorted_desc l -> sorted_desc (insert_by_markedAt a l).
Proof.
  induction 1 as [|b|b c l Hbc Hs IH].
  - constructor.
  - simpl. destruct (Z.leb_spec (Attendance.markedAt b) (Attendance.markedAt a)).
    + constructor; [lia|constructor].
    + constructor; [lia|constructor].
  - cbn [insert_by_markedAt] in *.
    destruct (Z.leb_spec (Attendance.markedAt b) (Attendance.markedAt a)).
    + constructor; [lia|]. constructor; assumption.
    + destruct (Z.leb_spec (Attendance.markedAt c) (Attendance.markedAt a)).
      * constructor; [lia|exact IH].
      * constructor; [exact Hbc|exact IH].
Qed.

Lemma sort_markedAt_desc_sorted (l : list Attendance.doc) :
  sorted_desc (sort_markedAt_desc l).
Proof.
  induction l as [|a l IH]; [constructor|].
  unfold sort_markedAt_desc in *. cbn [fold_right].
  now apply insert_by_markedAt_sorted.
Qed.

Lemma filter_length_perm {A : Type} (f : A -> bool) (l l' : list A) :
  Permutation l l' -> List.length (filter f l) = List.length (filter f l').
Proof.
  induction 1 as [|x l l' _ IH|x y l|l l' l'' _ IH1 _ IH2]; simpl.
  - reflexivity.
  - destruct (f x); simpl; lia.
  - destruct (f x), (f y); reflexivity.
  - lia.
Qed.

Lemma count_status_total (l : list Attendance.doc) :
  List.length l
  = (count_status Attendance.present l + count_status Attendance.late l
     + count_status Attendance.absent l)%nat.
Proof.
  unfold count_status. induction l as [|a l IH]; simpl; [reflexivity|].
  destruct (Attendance.status a); simpl; lia.
Qed.

Lemma count_method_total (l : list Attendance.doc) :
  List.length l
  = (count_method Attendance.qr_code l
     + count_method Attendance.face_recognition l
     + count_method Attendance.manual l)%nat.
Proof.
  unfold count_method. induction l as [|a l IH]; simpl; [reflexivity|].
  destruct (Attendance.method a); simpl; lia.
Qed.

(** X12. [GET /api/attendance/session/:sessionId] answers the teacher of
    the session or an admin with all the records of the session, the
    latest first. [total] is their number; [present] and [late] leave
    out the records a review has set to [absent], which the [absent] of
    the answer, always 0, does not count; [qrCode] and [faceRecognition]
    leave out the manual ones. *)
Theorem session_attendance_stats :
  forall (db : Store) (user : User) (sessionId : ObjectId)
         (session : Session.doc) (attendance : list Attendance.doc)
         (stats : SessionStats),
    get_session_attendance db user sessionId
    = SessionAttendance session attendance stats ->
    Session_findById db sessionId = Some session
    /\ (Session.teacher session = user_id user \/ role user = admin_role)
    /\ Permutation attendance (Attendance_find_session db sessionId)
    /\ sorted_desc attendance
    /\ stats_total stats = List.length (Attendance_find_session db sessionId)
    /\ stats_absent stats = 0%nat
    /\ stats_total stats
       = (stats_present stats + stats_late stats
          + count_status Attendance.absent
                         (Attendance_find_session db sessionId))%nat
    /\ stats_total stats
       = (stats_qrCode stats + stats_faceRecognition stats
          + count_method Attendance.manual
                         (Attendance_find_session db sessionId))%nat.
Proof.
  intros db user sessionId session attendance stats H.
  unfold get_session_attendance in H.
  destruct (Session_findById db sessionId) as [s|] eqn:Hf; [|discriminate].
  destruct (negb (String.eqb (Session.teacher s) (user_id user))
            && negb (is_admin user)) eqn:Hauth; [discriminate|].
  injection H as <- <- <-.
  cbn [stats_total stats_present stats_late stats_absent stats_qrCode
       stats_faceRecognition].
  set (found := Attendance_find_session db sessionId).
  pose proof (sort_markedAt_desc_perm found) as Hp.
  split; [reflexivity|]. split.
  { apply andb_false_iff in Hauth as [H|H]; apply negb_false_iff in H.
    - left. now apply String.eqb_eq.
    - right. unfold is_admin in H. now destruct (role user). }
  split; [exact Hp|]. split; [apply sort_markedAt_desc_sorted|].
  split; [now apply Permutation_length|]. split; [reflexivity|].
  unfold count_status, count_method.
  rewrite !(filter_length_perm _ _ _ Hp), (Permutation_length Hp).
  split; [apply count_status_total | apply count_method_total].
Qed.

(** The teacher of the scenario reads the attendance of the session that
    holds the record of the student. *)
Lemma session_attendance_stats_witness :
  get_session_attendance Scenario.db1 Scenario.teacher "s1"
  = SessionAttendance Scenario.maths [Scenario.record]
                      (mkSessionStats 1 1 0 0 1 0)
  /\ Permutation [Scenario.record]
                 (Attendance_find_session Scenario.db1 "s1").
Proof.
  split; [vm_compute; reflexivity|].
  apply (session_attendance_stats Scenario.db1 Scenario.teacher "s1"
           Scenario.maths [Scenario.record] (mkSessionStats 1 1 0 0 1 0)).
  vm_compute. reflexivity.
Defined.

(** ** The statistics of a student *)

Lemma group_count_bump (s s' : Attendance.Status)
    (groups : list (Attendance.Status * nat)) :
  group_count s (bump s' groups)
  = (group_count s groups + if Attendance.Status_eqb s' s then 1 else 0)%nat.
Proof.
  induction groups as [|[s0 n] groups IH]; simpl.
  - destruct (Attendance.Status_eqb s' s); reflexivity.
  - destruct (Attendance.Status_eqb s0 s') eqn:E0; simpl.
    + apply Status_eqb_eq in E0 as ->.
      destruct (Attendance.Status_eqb s' s); lia.
    + destruct (Attendance.Status_eqb s0 s) eqn:E1; [|exact IH].
      apply Status_eqb_eq in E1 as ->.
      destruct s, s'; simpl in *; try discriminate; lia.
Qed.

Lemma group_by_status_count (s : Attendance.Status) (l : list Attendance.doc) :
  forall groups,
    group_count s (fold_left (fun groups a => bump (Attendance.status a) groups)
                             l groups)
    = (group_count s groups + count_status s l)%nat.
Proof.
  unfold count_status. induction l as [|a l IH]; intros groups; simpl; [lia|].
  rewrite IH, group_count_bump.
  destruct (Attendance.Status_eqb (Attendance.status a) s); simpl; lia.
Qed.

Lemma bump_keys (s k : Attendance.Status)
    (groups : list (Attendance.Status * nat)) :
  In k (map fst (bump s groups)) -> k = s \/ In k (map fst groups).
Proof.
  induction groups as [|[s0 n] groups IH]; simpl.
  - intros [H|[]]. now left.
  - destruct (Attendance.Status_eqb s0 s); simpl.
    + intros [H|H]; auto.
    + intros [H|H]; auto. destruct (IH H); auto.
Qed.

Lemma bump_NoDup (s : Attendance.Status)
    (groups : list (Attendance.Status * nat)) :
  NoDup (map fst groups) -> NoDup (map fst (bump s groups)).
Proof.
  induction groups as [|[s0 n] groups IH]; simpl; intros H.
  - constructor; [intros []|constructor].
  - destruct (Attendance.Status_eqb s0 s) eqn:E; simpl; [exact H|].
    inversion H as [|? ? Hnotin Hnd]; subst.
    constructor; [|now apply IH].
    intros Hin. apply bump_keys in Hin as [->|Hin]; [|contradiction].
    rewrite (proj2 (Status_eqb_eq s s) eq_refl) in E. discriminate.
Qed.

Lemma group_by_status_NoDup (l : list Attendance.doc) :
  forall groups,
    NoDup (map fst groups) ->
    NoDup (map fst (fold_left (fun groups a => bump (Attendance.status a) groups)
                              l groups)).
Proof.
  induction l as [|a l IH]; intros groups H; simpl; [exact H|].
  apply IH. now apply bump_NoDup.
Qed.

Lemma group_sum_bump (s : Attendance.Status)
    (groups : list (Attendance.Status * nat)) :
  group_sum (bump s groups) = S (group_sum groups).
Proof.
  induction groups as [|[s0 n] groups IH]; [reflexivity|].
  cbn [bump]. destruct (Attendance.Status_eqb s0 s).
  - unfold group_sum. cbn [fold_right snd]. lia.
  - change (group_sum ((s0, n) :: bump s groups))
      with (n + group_sum (bump s groups))%nat.
    rewrite IH. unfold group_sum. cbn [fold_right snd]. lia.
Qed.

Lemma group_by_status_sum (l : list Attendance.doc) :
  forall groups,
    group_sum (fold_left (fun groups a => bump (Attendance.status a) groups)
                         l groups)
    = (group_sum groups + List.length l)%nat.
Proof.
  induction l as [|a l IH]; intros groups; simpl; [lia|].
  rewrite IH, group_sum_bump. lia.
Qed.

Lemma add_group_field (s s0 : Attendance.Status) (n : nat)
    (stats : AttendanceStats) :
  stats_field s (add_group stats (s0, n))
  = if Attendance.Status_eqb s0 s then n else stats_field s stats.
Proof.
  destruct s, s0; reflexivity.
Qed.

Lemma add_group_total (stat : Attendance.Status * nat) (stats : AttendanceStats) :
  my_total (add_group stats stat) = (my_total stats + snd stat)%nat.
Proof.
  destruct stat as [[] n]; reflexivity.
Qed.

Lemma fold_add_group_total (groups : list (Attendance.Status * nat)) :
  forall stats,
    my_total (fold_left add_group groups stats)
    = (my_total stats + group_sum groups)%nat.
Proof.
  induction groups as [|stat groups IH]; intros stats; simpl; [lia|].
  rewrite IH, add_group_total. unfold group_sum. lia.
Qed.

Lemma fold_add_group_field (s : Attendance.Status)
    (groups : list (Attendance.Status * nat)) :
  forall stats,
    NoDup (map fst groups) ->
    stats_field s (fold_left add_group groups stats)
    = if existsb (fun stat => Attendance.Status_eqb (fst stat) s) groups
      then group_count s groups
      else stats_field s stats.
Proof.
  induction groups as [|[s0 n] groups IH]; intros stats Hnd; [reflexivity|].
  inversion Hnd as [|? ? Hnotin Hnd']; subst.
  cbn [fold_left existsb group_count fst]. rewrite (IH _ Hnd').
  rewrite add_group_field.
  destruct (Attendance.Status_eqb s0 s) eqn:E; simpl; [|reflexivity].
  apply Status_eqb_eq in E as ->.
  destruct (existsb _ groups) eqn:Ex; [|reflexivity].
  apply existsb_exists in Ex as (stat & Hin & Hs).
  apply Status_eqb_eq in Hs. exfalso. apply Hnotin.
  simpl. rewrite <- Hs. now apply in_map.
Qed.

Lemma group_count_none (s : Attendance.Status)
    (groups : list (Attendance.Status * nat)) :
  existsb (fun stat => Attendance.Status_eqb (fst stat) s) groups = false ->
  group_count s groups = 0%nat.
Proof.
  induction groups as [|[s0 n] groups IH]; simpl; [reflexivity|].
  intros H. apply orb_false_iff in H as [-> H]. auto.
Qed.

(** The statistics of a list of records: the number of records of each
    status, and the number of records. *)
Lemma attendanceStats_group_by_status (l : list Attendance.doc) :
  attendanceStats (group_by_status l)
  = mkAttendanceStats (count_status Attendance.present l)
                      (count_status Attendance.late l)
                      (count_status Attendance.absent l)
                      (List.length l).
Proof.
  assert (Hfield : forall s,
             stats_field s (attendanceStats (group_by_status l))
             = count_status s l).
  { intros s. unfold attendanceStats, group_by_status.
    rewrite fold_add_group_field
      by (apply group_by_status_NoDup; constructor).
    destruct (existsb _ _) eqn:Ex.
    - now rewrite group_by_status_count.
    - apply group_count_none in Ex. rewrite group_by_status_count in Ex.
      cbn [group_count] in Ex.
      destruct s; cbn [stats_field my_present my_late my_absent]; lia. }
  assert (Htotal : my_total (attendanceStats (group_by_status l))
                   = List.length l).
  { unfold attendanceStats, group_by_status.
    now rewrite fold_add_group_total, group_by_status_sum. }
  pose proof (Hfield Attendance.present) as Hp.
  pose proof (Hfield Attendance.late) as Hl.
  pose proof (Hfield Attendance.absent) as Ha.
  destruct (attendanceStats (group_by_status l)). simpl in *. congruence.
Qed.

Lemma filter_length_le {A : Type} (f g : A -> bool) (l : list A) :
  (forall a, f a = true -> g a = true) ->
  (List.length (filter f l) <= List.length (filter g l))%nat.
Proof.
  intros H. induction l as [|x l IH]; simpl; [lia|].
  destruct (f x) eqn:E.
  - rewrite (H x E). simpl. lia.
  - destruct (g x); simpl; lia.
Qed.

Lemma filter_filter_andb {A : Type} (f g : A -> bool) (l : list A) :
  filter f (filter g l) = filter (fun a => g a && f a) l.
Proof.
  induction l as [|x l IH]; simpl; [reflexivity|].
  destruct (g x); simpl; [destruct (f x)|]; now rewrite IH.
Qed.

(** X13. The statistics of [GET /api/attendance/my-attendance] count all
    the records of the caller, whatever the filters and the page of the
    request: [present], [late] and [absent] are the numbers of the
    caller's records of each status and [total] is their sum. The
    [total] of the pagination counts the records that match the filters,
    so it is at most the [total] of the statistics, and with a status
    filter alone it is the statistic of that status. *)
Theorem my_attendance_stats :
  forall (db : Store) (user : User) (q : MyQuery),
    let own := filter (fun a => String.eqb (Attendance.student a) (user_id user))
                      (attendances db) in
    let stats := snd (my_attendance db user q) in
    let pagination := snd (fst (my_attendance db user q)) in
    stats = mkAttendanceStats (count_status Attendance.present own)
                              (count_status Attendance.late own)
                              (count_status Attendance.absent own)
                              (List.length own)
    /\ my_total stats = (my_present stats + my_late stats + my_absent stats)%nat
    /\ (total pagination <= my_total stats)%nat
    /\ (forall s, status_of_query (my_status q) = Some s ->
                  my_startDate q = None -> my_endDate q = None ->
                  total pagination = stats_field s stats)
    /\ (forall a, In a (fst (fst (my_attendance db user q))) ->
                  In a own /\ my_query user q a = true).
Proof.
  intros db user q own stats pagination.
  assert (Hstats : stats = mkAttendanceStats (count_status Attendance.present own)
                             (count_status Attendance.late own)
                             (count_status Attendance.absent own)
                             (List.length own)).
  { unfold stats, my_attendance. cbn [snd].
    apply attendanceStats_group_by_status. }
  assert (Htotal : total pagination
                   = List.length (filter (my_query user q) (attendances db))).
  { unfold pagination, my_attendance. cbn [fst snd total].
    apply Permutation_length, sort_markedAt_desc_perm. }
  split; [exact Hstats|]. rewrite Hstats. cbn [my_total my_present my_late my_absent].
  split; [apply count_status_total|]. split; [|split].
  - rewrite Htotal. apply filter_length_le. intros a Ha.
    unfold my_query in Ha. now repeat (apply andb_true_iff in Ha as [Ha _]).
  - intros s Hs Hstart Hend. rewrite Htotal.
    assert (Hfield : forall st, stats_field s (mkAttendanceStats
                       (count_status Attendance.present st)
                       (count_status Attendance.late st)
                       (count_status Attendance.absent st) (List.length st))
                     = count_status s st) by (intros st; now destruct s).
    rewrite Hfield. unfold count_status, own. rewrite filter_filter_andb.
    f_equal. apply filter_ext. intros a. unfold my_query.
    rewrite Hs, Hstart, Hend. now rewrite !andb_true_r.
  - intros a Ha. unfold my_attendance in Ha. cbn [fst] in Ha.
    apply in_paginate in Ha.
    apply (Permutation_in _ (sort_markedAt_desc_perm _)) in Ha.
    apply filter_In in Ha as [Hin Hq]. split; [|exact Hq].
    apply filter_In. split; [exact Hin|].
    unfold my_query in Hq. now repeat (apply andb_true_iff in Hq as [Hq _]).
Qed.

(** X14. For a stored student, [GET /api/students/:id],
    [GET /api/students/:id/attendance] with any query and the student's
    own [GET /api/attendance/my-attendance] with any query report the
    same statistics, and the [recentAttendance] of the first is page 1
    of the second with a limit of 5 and no filter, whose [total] is the
    [total] of the statistics. *)
Theorem student_routes_agree :
  forall (users : list User) (db : Store) (id : ObjectId) (student : User)
         (q q' : MyQuery),
    User_findById users id = Some student ->
    is_student student = true ->
    exists stats recent page pagination,
      get_student users db id = Some (stats, recent)
      /\ get_student_attendance users db id q = Some (page, pagination, stats)
      /\ snd (my_attendance db student q') = stats
      /\ get_student_attendance users db id (mkMyQuery 1 5 None None None)
         = Some (recent,
                 mkPagination 1 (pages (my_total stats) 5) (my_total stats),
                 stats).
Proof.
  intros users db id student q q' Hfind Hrole.
  unfold get_student, get_student_attendance. rewrite Hfind, Hrole.
  cbn [negb]. unfold Attendance_find_student.
  set (own := filter (fun a => String.eqb (Attendance.student a) (user_id student))
                     (attendances db)).
  exists (attendanceStats (group_by_status own)),
         (firstn 5 (sort_markedAt_desc own)),
         (fst (fst (my_attendance db student q))),
         (snd (fst (my_attendance db student q))).
  split; [reflexivity|]. split; [reflexivity|]. split; [reflexivity|].
  unfold my_attendance. cbn [my_page my_limit].
  assert (Hown : filter (my_query student (mkMyQuery 1 5 None None None))
                        (attendances db) = own).
  { apply filter_ext. intros a. unfold my_query. simpl.
    now rewrite !andb_true_r. }
  rewrite Hown. fold own.
  assert (Hlen : List.length (sort_markedAt_desc own)
                 = my_total (attendanceStats (group_by_status own))).
  { rewrite attendanceStats_group_by_status. cbn [my_total].
    apply Permutation_length, sort_markedAt_desc_perm. }
  rewrite Hlen. reflexivity.
Qed.

(** The student of the scenario, with the record of the session. *)
Lemma student_routes_agree_witness :
  exists stats recent page pagination,
    get_student [Scenario.student] Scenario.db1 "u1" = Some (stats, recent)
    /\ get_student_attendance [Scenario.student] Scenario.db1 "u1"
         (mkMyQuery 1 10 (Some "late") None None)
       = Some (page, pagination, stats)
    /\ snd (my_attendance Scenario.db1 Scenario.student
              (mkMyQuery 2 10 None None None)) = stats
    /\ get_student_attendance [Scenario.student] Scenario.db1 "u1"
         (mkMyQuery 1 5 None None None)
       = Some (recent,
               mkPagination 1 (pages (my_total stats) 5) (my_total stats),
               stats).
Proof.
  apply (student_routes_agree [Scenario.student] Scenario.db1 "u1"
           Scenario.student (mkMyQuery 1 10 (Some "late") None None)
           (mkMyQuery 2 10 None None None));
    reflexivity.
Defined.

(** ** Reviewing attendance *)

(** X15. [PUT /api/attendance/:id] writes nothing but the [status] and
    the [remarks] of the records with that id: the sessions, and in every
    record the student, the session, [markedAt], the method, the
    confidence and [isVerified] stay as they are, and a value that the
    request leaves out stays too. When it succeeds the record exists and
    the caller is the teacher of its session or an admin, and the record
    holds the status of the request, whatever its [markedAt], and the
    remarks of the request with the blanks at both ends trimmed off. *)
Theorem put_attendance_frame :
  forall (env : Process) (db db' : Store) (user : User) (id : ObjectId)
         (status : option Attendance.Status) (remarks : option string)
         (response : ReviewResponse),
    put_attendance env db user id status remarks = (db', response) ->
    sessions db' = sessions db
    /\ Forall2 (fun a a' =>
                  same_admission a a'
                  /\ (Attendance._id a <> id -> a' = a)
                  /\ (status = None -> Attendance.status a' = Attendance.status a)
                  /\ (remarks = None
                      -> Attendance.remarks a' = Attendance.remarks a))
               (attendances db) (attendances db')
    /\ (response <> Reviewed -> db' = db)
    /\ (response = Reviewed ->
        (exists a session,
            Attendance_findById db id = Some a
            /\ Session_findById db (Attendance.session_id a) = Some session
            /\ (Session.teacher session = user_id user
                \/ role user = admin_role))
        /\ forall a', In a' (attendances db') -> Attendance._id a' = id ->
                      (forall s, status = Some s -> Attendance.status a' = s)
                      /\ (forall r, remarks = Some r
                                    -> Attendance.remarks a'
                                       = Some (trim env (trim env r)))).
Proof.
  intros env db db' user id status remarks response H.
  assert (Hsame : forall l : list Attendance.doc,
             Forall2 (fun a a' =>
                        same_admission a a'
                        /\ (Attendance._id a <> id -> a' = a)
                        /\ (status = None
                            -> Attendance.status a' = Attendance.status a)
                        /\ (remarks = None
                            -> Attendance.remarks a' = Attendance.remarks a))
                     l l).
  { induction l as [|a l IH]; constructor; [|exact IH].
    unfold same_admission. repeat split; reflexivity. }
  unfold put_attendance in H.
  destruct (Attendance_findById db id) as [a|] eqn:Hf;
    [|injection H as <- <-; repeat split; try discriminate; auto].
  unfold Attendance_populate in H.
  destruct (Session_findById db (Attendance.session_id a)) as [session|] eqn:Hs;
    [|injection H as <- <-; repeat split; try discriminate; auto].
  destruct (negb (may_review user _)) eqn:Hmay;
    [injection H as <- <-; repeat split; try discriminate; auto|].
  injection H as <- <-. cbn [sessions attendances].
  split; [reflexivity|]. split; [|split; [intros H; now elim H|]].
  - clear. induction (attendances db) as [|a l IH]; cbn [map]; constructor;
      [|exact IH].
    destruct (String.eqb (Attendance._id a) id) eqn:E.
    + unfold same_admission. apply String.eqb_eq in E.
      destruct a, status, remarks; cbn; repeat split; try reflexivity;
        try discriminate; intros H; now elim H.
    + unfold same_admission. repeat split; reflexivity.
  - intros _. split.
    + exists a, session. repeat split; auto.
      apply negb_false_iff in Hmay. unfold may_review in Hmay.
      cbn in Hmay. apply orb_true_iff in Hmay as [H|H].
      * left. now apply String.eqb_eq.
      * right. unfold is_admin in H. now destruct (role user).
    + intros a' Hin Hid. apply in_map_iff in Hin as (b & <- & _).
      destruct (String.eqb (Attendance._id b) id) eqn:E.
      * destruct b, status, remarks; cbn; split; intros ? [=]; subst;
          reflexivity.
      * apply String.eqb_neq in E. contradiction.
Qed.

(** The teacher of the scenario sets the record of the student, marked
    at 09:05, to [absent], with a remark that has blanks around it. *)
Lemma put_attendance_frame_witness :
  sessions (fst (put_attendance Scenario.IST Scenario.db1 Scenario.teacher
                   "a1" (Some Attendance.absent) (Some "  bus late ")))
  = sessions Scenario.db1
  /\ map (fun a => (Attendance.status a, Attendance.remarks a))
         (attendances (fst (put_attendance Scenario.IST Scenario.db1
                              Scenario.teacher "a1" (Some Attendance.absent)
                              (Some "  bus late "))))
     = [(Attendance.absent, Some "bus late")].
Proof.
  split; [|vm_compute; reflexivity].
  apply (put_attendance_frame Scenario.IST Scenario.db1
           (fst (put_attendance Scenario.IST Scenario.db1 Scenario.teacher
                   "a1" (Some Attendance.absent) (Some "  bus late ")))
           Scenario.teacher "a1" (Some Attendance.absent)
           (Some "  bus late ") Reviewed).
  vm_compute. reflexivity.
Defined.

(** X16. [DELETE /api/attendance/:id], when it succeeds, was asked by
    the teacher of the record's session or an admin; the record is gone
    and the others are all there, the count of the session is one less
    than it was (there is no floor at 0), and with the unique index in
    place the student has no record left for the session, so a new
    presentation by that student is never answered 'already marked'. *)
Theorem delete_attendance_reopens :
  forall (outage : Outage) (db db' : Store) (user : User) (id : ObjectId),
    unique_index db ->
    delete_attendance outage db user id = (db', Reviewed) ->
    exists a session,
      Attendance_findById db id = Some a
      /\ Session_findById db (Attendance.session_id a) = Some session
      /\ (Session.teacher session = user_id user \/ role user = admin_role)
      /\ Attendance_findById db' id = None
      /\ (forall b, In b (attendances db')
                    <-> In b (attendances db) /\ Attendance._id b <> id)
      /\ Session_findById db' (Attendance.session_id a)
         = Some (Session.inc_attendanceCount (-1) session)
      /\ Session.attendanceCount (Session.inc_attendanceCount (-1) session)
         = Session.attendanceCount session - 1
      /\ Attendance_findOne db' (Attendance.student a) (Attendance.session_id a)
         = None
      /\ (forall env student body clock existing,
             user_id student = Attendance.student a ->
             qrData_sessionId body = Attendance.session_id a ->
             admissionGate env db' student body clock
             <> Reject (AlreadyMarked existing)).
Proof.
  intros outage db db' user id Hu H. unfold delete_attendance in H.
  destruct (Attendance_findById db id) as [a|] eqn:Hf; [|discriminate].
  unfold Attendance_populate in H.
  destruct (Session_findById db (Attendance.session_id a)) as [session|] eqn:Hs;
    [|discriminate].
  destruct (negb (may_review user _)) eqn:Hmay; [discriminate|].
  unfold Session_findByIdAndUpdate_inc in H.
  destruct (update_rejected outage); [discriminate|].
  injection H as <-.
  replace (Attendance.session_id
             (Attendance.set_session a (Attendance.Populated session)))
    with (Attendance.session_id a)
    by (pose proof (Session_findById_Some _ _ _ Hs) as [_ E];
        destruct a; cbn in *; congruence).
  cbn [sessions attendances].
  assert (Hb : forall b, In b (filter (fun a => negb (String.eqb (Attendance._id a) id))
                                  (attendances db))
                         <-> In b (attendances db) /\ Attendance._id b <> id).
  { intros b. rewrite filter_In, negb_true_iff, String.eqb_neq. reflexivity. }
  assert (Hone : Attendance_findOne
                   (mkStore
                      (map (fun s => if String.eqb (Session._id s)
                                                   (Attendance.session_id a)
                                     then Session.inc_attendanceCount (-1) s else s)
                           (sessions db))
                      (filter (fun a => negb (String.eqb (Attendance._id a) id))
                              (attendances db)))
                   (Attendance.student a) (Attendance.session_id a) = None).
  { unfold Attendance_findOne. cbn [attendances].
    destruct (find _ _) as [b|] eqn:E; [|reflexivity].
    apply find_some in E as [Hin Hk]. apply Hb in Hin as [Hin Hid].
    unfold Attendance_findById in Hf. apply find_some in Hf as [Hina Hida].
    apply String.eqb_eq in Hida.
    assert (b = a).
    { apply (at_most_one (filter (has_key (Attendance.student a)
                                          (Attendance.session_id a))
                                 (attendances db))).
      - apply Hu.
      - apply filter_In. auto.
      - apply filter_In. split; [exact Hina|]. apply has_key_eq. auto. }
    subst b. contradiction. }
  exists a, session. split; [reflexivity|]. split; [exact Hs|].
  split.
  { apply negb_false_iff in Hmay. unfold may_review in Hmay. cbn in Hmay.
    apply orb_true_iff in Hmay as [H|H].
    - left. now apply String.eqb_eq.
    - right. unfold is_admin in H. now destruct (role user). }
  split.
  { unfold Attendance_findById. cbn [attendances].
    destruct (find _ _) as [b|] eqn:E; [|reflexivity].
    apply find_some in E as [Hin Hid]. apply Hb in Hin as [_ Hin].
    apply String.eqb_eq in Hid. contradiction. }
  split; [exact Hb|]. split.
  { unfold Session_findById. cbn [sessions].
    rewrite find_map_key.
    - fold (Session_findById db (Attendance.session_id a)). rewrite Hs.
      cbn [option_map]. apply Session_findById_Some in Hs as [_ Hs].
      apply String.eqb_eq in Hs. now rewrite Hs.
    - intros s.
      destruct (String.eqb (Session._id s) (Attendance.session_id a)) eqn:E;
        [|exact E].
      destruct s; exact E. }
  split; [destruct session; reflexivity|]. split; [exact Hone|].
  intros env student body clock existing Hst Hbody. unfold admissionGate.
  rewrite Hst, Hbody, Hone.
  destruct (negb (validationResult env body)); [discriminate|].
  destruct (Session_findOne _ _ _) as [s|]; [|discriminate].
  destruct (_ >? _); [discriminate|]. destruct (Date_lt _ _); [discriminate|].
  destruct (method_of body); try discriminate.
  destruct (no_faceEmbedding student); [discriminate|].
  destruct (confidence_too_low _ _); discriminate.
Qed.

(** The teacher of the scenario deletes the record of the student. *)
Lemma delete_attendance_reopens_witness :
  delete_attendance none Scenario.db1 Scenario.teacher "a1"
  = (mkStore [Session.inc_attendanceCount (-1) Scenario.maths] [], Reviewed)
  /\ exists a session,
       Attendance_findById Scenario.db1 "a1" = Some a
       /\ Session_findById Scenario.db1 (Attendance.session_id a) = Some session.
Proof.
  assert (H : delete_attendance none Scenario.db1 Scenario.teacher "a1"
              = (mkStore [Session.inc_attendanceCount (-1) Scenario.maths] [],
                 Reviewed)) by (vm_compute; reflexivity).
  split; [exact H|].
  destruct (delete_attendance_reopens none Scenario.db1 _ Scenario.teacher "a1"
              unique_index_db1 H) as (a & session & Ha & Hs & _).
  exists a, session. split; [exact Ha|exact Hs].
Defined.

(** ** The session routes and the gate *)

(** The gate reads the sessions through the lookup of the presented id
    and token, and of the session it finds the expiry and the start. *)
Lemma gate_ext (env : Process) (db db' : Store) (user : User)
    (body body' : ScanBody) (clock : Clock) :
  validationResult env body' = validationResult env body ->
  qrData_sessionId body' = qrData_sessionId body ->
  method_of body' = method_of body ->
  body_faceConfidence body' = body_faceConfidence body ->
  attendances db' = attendances db ->
  match Session_findOne db' (qrData_sessionId body') (qrData_token body'),
        Session_findOne db (qrData_sessionId body) (qrData_token body) with
  | Some s', Some s =>
      Session.expiresAt s' = Session.expiresAt s
      /\ sessionStart env s' = sessionStart env s
  | None, None => True
  | _, _ => False
  end ->
  admissionGate env db' user body' clock = admissionGate env db user body clock.
Proof.
  intros Hv Hid Hm Hc Hatt Hfind. unfold admissionGate, Attendance_findOne.
  rewrite Hv, Hid, Hm, Hc, Hatt. rewrite Hid in Hfind.
  destruct (Session_findOne db' _ _) as [s'|],
           (Session_findOne db _ _) as [s|]; try contradiction; [|reflexivity].
  destruct Hfind as [-> ->]. reflexivity.
Qed.

Lemma gate_map_sessions (env : Process) (db : Store) (h : Session.doc -> Session.doc)
    (user : User) (body : ScanBody) (clock : Clock) :
  (forall s, Session._id (h s) = Session._id s
             /\ Session.qrToken (h s) = Session.qrToken s
             /\ Session.isActive (h s) = Session.isActive s
             /\ Session.expiresAt (h s) = Session.expiresAt s
             /\ Session.date (h s) = Session.date s
             /\ Session.startTime (h s) = Session.startTime s) ->
  admissionGate env (mkStore (map h (sessions db)) (attendances db)) user body clock
  = admissionGate env db user body clock.
Proof.
  intros Hh. apply gate_ext; try reflexivity.
  unfold Session_findOne. cbn [sessions]. rewrite find_map_key.
  - destruct (find _ (sessions db)) as [s|]; cbn [option_map]; [|exact I].
    destruct (Hh s) as (_ & _ & _ & He & Hd & Ht).
    split; [exact He|]. unfold sessionStart. now rewrite Hd, Ht.
  - intros s. destruct (Hh s) as (-> & -> & -> & _). reflexivity.
Qed.

(** X17. The gate reads neither [maxStudents] nor [attendanceCount]:
    whatever [PUT /api/sessions/:id] answers and writes, and whatever is
    added to the count of a session, every presentation is decided as
    before. A session is never closed for being full. *)
Theorem gate_ignores_capacity :
  forall (env : Process) (db : Store) (student : User) (scan : ScanBody)
         (clock : Clock),
    (forall user id body now,
        admissionGate env (fst (put_session env db user id body now))
                      student scan clock
        = admissionGate env db student scan clock)
    /\ (forall rejected id n db',
           Session_findByIdAndUpdate_inc rejected db id n = Return db' ->
           admissionGate env db' student scan clock
           = admissionGate env db student scan clock).
Proof.
  intros env db student scan clock. split.
  - intros user id body now. unfold put_session.
    destruct (negb (modify_validationResult env body)); [reflexivity|].
    destruct (Session_findById db id) as [session|]; [|reflexivity].
    destruct (negb (String.eqb (Session.teacher session) (user_id user)));
      [reflexivity|].
    destruct (Date_ge (Some now) (sessionStart env session)); [reflexivity|].
    cbn [fst]. apply gate_map_sessions. intros s.
    destruct (String.eqb (Session._id s) id); repeat split.
  - intros rejected id n db'. unfold Session_findByIdAndUpdate_inc.
    destruct rejected; [discriminate|]. intros H. injection H as <-.
    apply gate_map_sessions. intros s.
    destruct (String.eqb (Session._id s) id); repeat split.
Qed.

Lemma find_app_last {A : Type} (p : A -> bool) (l : list A) (x : A) :
  (forall y, In y l -> p y = false) -> p x = true ->
  find p (l ++ [x]) = Some x.
Proof.
  intros Hl Hx. induction l as [|y l IH]; simpl.
  - now rewrite Hx.
  - rewrite (Hl y (or_introl eq_refl)). apply IH.
    intros z Hz. apply Hl. now right.
Qed.

(** X18. A session that [POST /api/sessions] has created has an end
    time with two digits of hours, and its code expires 30 minutes after
    that end, read in the server's time zone: for a student without a
    record for it, a well-formed presentation of its id and token is
    answered 'expired' after that. Up to then, when the start time has
    two digits of hours the presentation is answered 'not started'
    before the start and passes the gate from the start on when its
    method is the QR code; when the start time has one digit of hours
    the start cannot be read, and the presentation passes the gate
    whatever the time. *)
Theorem created_session_admits :
  forall (env : Process) (db db' : Store) (user : User) (body : SessionBody)
         (now : Date) (uuid : string) (id : ObjectId) (session : Session.doc),
    post_session env db user body now uuid id = (db', Created session) ->
    forall (student : User) (scan : ScanBody) (clock : Clock),
      validationResult env scan = true ->
      qrData_sessionId scan = id ->
      qrData_token scan = uuid ->
      Attendance_findOne db (user_id student) id = None ->
      let start := local_time env (body_date body)
                              (hours (body_startTime body))
                              (minutes (body_startTime body)) in
      let end_ := local_time env (body_date body)
                             (hours (body_endTime body))
                             (minutes (body_endTime body)) in
      padded (body_endTime body) = true
      /\ (end_ + 30 * msPerMinute < at_expiry clock ->
          admissionGate env db' student scan clock = Reject QRExpired)
      /\ (padded (body_startTime body) = true ->
          at_expiry clock <= end_ + 30 * msPerMinute ->
          at_start clock < start ->
          admissionGate env db' student scan clock = Reject NotStarted)
      /\ (padded (body_startTime body) = true ->
          at_expiry clock <= end_ + 30 * msPerMinute ->
          start <= at_start clock ->
          method_of scan = Attendance.qr_code ->
          admissionGate env db' student scan clock = Proceed)
      /\ (padded (body_startTime body) = false ->
          at_expiry clock <= end_ + 30 * msPerMinute ->
          method_of scan = Attendance.qr_code ->
          admissionGate env db' student scan clock = Proceed).
Proof.
  intros env db db' user body now uuid id session H student scan clock
         Hv Hid Htok Hnone start end_.
  unfold post_session in H.
  destruct (session_validationResult env body) eqn:Hval; [|discriminate].
  cbn [negb] in H.
  unfold session_validationResult in Hval.
  apply andb_true_iff in Hval as [Hval _].
  apply andb_true_iff in Hval as [Hval Hme].
  apply andb_true_iff in Hval as [_ Hms].
  destruct (Date_ge _ _); [discriminate|].
  destruct (_ <? _); [discriminate|].
  destruct (Date_of_local env (body_date body) (body_endTime body))
    as [e|] eqn:He; [|discriminate].
  assert (Hpe : padded (body_endTime body) = true).
  { unfold Date_of_local in He.
    destruct (padded (body_endTime body)); [reflexivity|discriminate]. }
  rewrite (Date_of_local_padded env _ _ Hme Hpe) in He.
  fold end_ in He. injection He as <-.
  unfold Session_save_new in H. cbn [Session._id Session.qrToken] in H.
  destruct (existsb (fun s => String.eqb (Session._id s) id) (sessions db))
    eqn:Hfresh; [discriminate|].
  destruct (existsb (fun s => String.eqb (Session.qrToken s) uuid) (sessions db));
    [discriminate|].
  cbn [orb] in H. injection H as <- <-.
  set (session := Session.mk _ _ _ _ _ _ _ _ _ _ _ _ _).
  assert (Hfind : Session_findOne (mkStore (sessions db ++ [session])
                                           (attendances db)) id uuid
                  = Some session).
  { unfold Session_findOne. cbn [sessions]. apply find_app_last.
    - intros y Hy. rewrite (proj1 (existsb_false_In _ _) Hfresh y Hy).
      reflexivity.
    - unfold session. cbn. now rewrite !String.eqb_refl. }
  assert (Hstart : sessionStart env session
                   = Date_of_local env (body_date body) (body_startTime body)).
  { unfold sessionStart, session, toISODate, Date_of_day.
    cbn [Session.date Session.startTime].
    now rewrite Z.div_mul by (unfold msPerDay; lia). }
  assert (Hexp : Session.expiresAt session = end_ + 30 * msPerMinute)
    by reflexivity.
  split; [exact Hpe|].
  unfold admissionGate, Attendance_findOne. cbn [attendances].
  rewrite Hv, Hid, Htok, Hfind, Hstart, Hexp. cbn [negb].
  fold (Attendance_findOne db (user_id student) id). rewrite Hnone.
  split; [|split; [|split]].
  - intros Hlate.
    now replace (at_expiry clock >? end_ + 30 * msPerMinute) with true
      by (symmetry; rewrite Z.gtb_ltb; apply Z.ltb_lt; exact Hlate).
  - intros Hps Hin Hearly.
    replace (at_expiry clock >? end_ + 30 * msPerMinute) with false
      by (symmetry; rewrite Z.gtb_ltb; apply Z.ltb_ge; exact Hin).
    rewrite (Date_of_local_padded env _ _ Hms Hps). fold start.
    cbn [Date_lt].
    now replace (at_start clock <? start) with true
      by (symmetry; apply Z.ltb_lt; exact Hearly).
  - intros Hps Hin Hstarted Hm.
    replace (at_expiry clock >? end_ + 30 * msPerMinute) with false
      by (symmetry; rewrite Z.gtb_ltb; apply Z.ltb_ge; exact Hin).
    rewrite (Date_of_local_padded env _ _ Hms Hps). fold start.
    cbn [Date_lt].
    replace (at_start clock <? start) with false
      by (symmetry; apply Z.ltb_ge; exact Hstarted).
    now rewrite Hm.
  - intros Hps Hin Hm.
    replace (at_expiry clock >? end_ + 30 * msPerMinute) with false
      by (symmetry; rewrite Z.gtb_ltb; apply Z.ltb_ge; exact Hin).
    rewrite (Date_of_local_unpadded env _ _ Hps). cbn [Date_lt].
    now rewrite Hm.
Qed.

(** The session of the scenario, posted at 08:00, and the student of the
    scenario at 09:05. *)
Lemma created_session_admits_witness :
  post_session Scenario.IST empty Scenario.teacher Scenario.posted
               (Scenario.local 8 0) "token-1" "s1"
  = (Scenario.db0, Created Scenario.maths)
  /\ admissionGate Scenario.IST Scenario.db0 Scenario.student Scenario.qr
                   (tick (Scenario.local 9 5)) = Proceed.
Proof.
  assert (H : post_session Scenario.IST empty Scenario.teacher Scenario.posted
                           (Scenario.local 8 0) "token-1" "s1"
              = (Scenario.db0, Created Scenario.maths))
    by (vm_compute; reflexivity).
  split; [exact H|].
  refine (proj1 (proj2 (proj2 (proj2
            (created_session_admits _ _ _ _ _ _ _ _ _ H
               Scenario.student Scenario.qr (tick (Scenario.local 9 5))
               eq_refl eq_refl eq_refl eq_refl)))) eq_refl _ _ eq_refl).
  - apply Z.leb_le. vm_compute. reflexivity.
  - apply Z.leb_le. vm_compute. reflexivity.
Defined.

(** ** A new token *)

Lemma Session_findOne_unique (db : Store) (id : ObjectId) (token : string)
    (session : Session.doc) :
  unique_session_ids db ->
  Session_findById db id = Some session ->
  Session_findOne db id token
  = if String.eqb (Session.qrToken session) token && Session.isActive session
    then Some session else None.
Proof.
  intros Hu Hf. apply Session_findById_Some in Hf as [Hin Hid].
  destruct (Session_findOne db id token) as [s|] eqn:E.
  - apply Session_findOne_Some in E as (Hs & Hsid & Htok & Hact).
    assert (s = session) by (apply (unique_session db); congruence).
    subst s. apply String.eqb_eq in Htok. now rewrite Htok, Hact.
  - destruct (String.eqb (Session.qrToken session) token) eqn:Htok;
      [|reflexivity].
    apply String.eqb_eq in Htok.
    now rewrite (Session_findOne_None db id token E session Hin Hid Htok).
Qed.

(** X19. On a store whose sessions have distinct ids, after
    [POST /api/sessions/:id/regenerate-qr] has succeeded a well-formed
    presentation of the session with any other token, the old one
    included, is answered 'invalid QR', and a presentation with the new
    token is decided as the same presentation with the old token was
    before. *)
Theorem regenerate_qr_swaps_token :
  forall (env : Process) (db db' : Store) (user : User) (id : ObjectId)
         (uuid token : string) (session : Session.doc),
    unique_session_ids db ->
    Session_findById db id = Some session ->
    regenerate_qr db user id uuid = (db', Regenerated token) ->
    token = uuid
    /\ (forall student scan clock,
           validationResult env scan = true ->
           qrData_sessionId scan = id ->
           qrData_token scan <> uuid ->
           admissionGate env db' student scan clock = Reject InvalidQR)
    /\ (forall student method confidence embedding clock,
           admissionGate env db' student
                         (mkScanBody id uuid method confidence embedding) clock
           = admissionGate env db student
                           (mkScanBody id (Session.qrToken session) method
                                       confidence embedding) clock).
Proof.
  intros env db db' user id uuid token session Hu Hf H.
  unfold regenerate_qr in H. rewrite Hf in H.
  destruct (negb (String.eqb (Session.teacher session) (user_id user)));
    [discriminate|].
  unfold Session_save_qrToken in H. cbn [Session._id Session.qrToken
    Session.set_qrToken] in H.
  destruct (existsb _ (sessions db)); [discriminate|].
  injection H as <- <-.
  pose proof (Session_findById_Some db id session Hf) as [Hin Hsid].
  rewrite Hsid.
  set (db' := mkStore _ (attendances db)).
  assert (Hu' : unique_session_ids db').
  { unfold unique_session_ids, db' in *. cbn [sessions]. rewrite map_map.
    erewrite map_ext; [exact Hu|]. intros s. cbv beta.
    destruct (String.eqb (Session._id s) id); reflexivity. }
  assert (Hf' : Session_findById db' id = Some (Session.set_qrToken session uuid)).
  { unfold Session_findById, db'. cbn [sessions].
    rewrite Session_findById_after_save, Hf. cbn [option_map].
    apply String.eqb_eq in Hsid. now rewrite Hsid. }
  split; [reflexivity|]. split.
  - intros student scan clock Hv Hid Htok. unfold admissionGate.
    rewrite Hv, Hid, (Session_findOne_unique db' id _ _ Hu' Hf').
    cbn [Session.qrToken Session.set_qrToken negb].
    apply not_eq_sym, String.eqb_neq in Htok. now rewrite Htok.
  - intros student method confidence embedding clock.
    apply gate_ext; try reflexivity.
    cbn [qrData_sessionId qrData_token].
    rewrite (Session_findOne_unique db' id _ _ Hu' Hf'),
            (Session_findOne_unique db id _ _ Hu Hf).
    cbn [Session.qrToken Session.set_qrToken Session.isActive].
    rewrite !String.eqb_refl. cbn [andb].
    destruct (Session.isActive session); [|exact I].
    split; reflexivity.
Qed.

(** The teacher of the scenario takes a new token for the session; the
    student then presents the old one. *)
Lemma regenerate_qr_swaps_token_witness :
  regenerate_qr Scenario.db0 Scenario.teacher "s1" "token-2"
  = (mkStore [Session.set_qrToken Scenario.maths "token-2"] [],
     Regenerated "token-2")
  /\ admissionGate Scenario.IST
                   (mkStore [Session.set_qrToken Scenario.maths "token-2"] [])
                   Scenario.student Scenario.qr (tick (Scenario.local 9 5))
     = Reject InvalidQR.
Proof.
  assert (H : regenerate_qr Scenario.db0 Scenario.teacher "s1" "token-2"
              = (mkStore [Session.set_qrToken Scenario.maths "token-2"] [],
                 Regenerated "token-2")) by (vm_compute; reflexivity).
  split; [exact H|].
  assert (Hu : unique_session_ids Scenario.db0).
  { unfold unique_session_ids. cbn. constructor; [intros []|constructor]. }
  refine (proj1 (proj2 (regenerate_qr_swaps_token Scenario.IST Scenario.db0 _
                          Scenario.teacher "s1" "token-2" "token-2"
                          Scenario.maths Hu eq_refl H))
                Scenario.student Scenario.qr (tick (Scenario.local 9 5))
                eq_refl eq_refl _).
  discriminate.
Defined.

(** ** The two routes to the attendance of a session *)

(** X20. [GET /api/sessions/:id] and
    [GET /api/attendance/session/:sessionId] give the teacher of a
    session the same records with the same [total], [present] and
    [late]; an admin who is not the teacher is served by the second and
    never by the first. *)
Theorem session_routes_agree :
  forall (users : list User) (db : Store) (user : User) (id : ObjectId),
    (forall session attendance stats,
        get_session users db user id = SessionDetail session attendance stats ->
        Session.teacher session = user_id user
        /\ my_absent stats = 0%nat
        /\ exists stats',
             get_session_attendance db user id
             = SessionAttendance session attendance stats'
             /\ stats_total stats' = my_total stats
             /\ stats_present stats' = my_present stats
             /\ stats_late stats' = my_late stats)
    /\ (forall session,
           Session_findById db id = Some session ->
           Session.teacher session <> user_id user ->
           role user = admin_role ->
           (exists attendance stats,
               get_session_attendance db user id
               = SessionAttendance session attendance stats)
           /\ (get_session users db user id = DetailDenied
               \/ get_session users db user id = DetailServerError)).
Proof.
  intros users db user id. split.
  - intros session attendance stats. unfold get_session, get_session_attendance.
    destruct (Session_findById db id) as [s|] eqn:Hf; [|discriminate].
    destruct (User_findById users (Session.teacher s)) as [teacher|] eqn:Ht;
      [|discriminate].
    destruct (String.eqb (user_id teacher) (user_id user)) eqn:Hown;
      [|discriminate].
    cbn [negb]. intros H. injection H as <- <- <-.
    apply Session_findById_Some in Hf as [_ Hid].
    unfold User_findById in Ht. apply find_some in Ht as [_ Ht].
    apply String.eqb_eq in Ht, Hown.
    assert (Hteacher : Session.teacher s = user_id user) by congruence.
    split; [exact Hteacher|]. split; [reflexivity|].
    rewrite Hteacher, String.eqb_refl, Hid. cbn [negb andb].
    eexists. split; [reflexivity|]. repeat split.
  - intros session Hf Hne Hadmin. split.
    + unfold get_session_attendance. rewrite Hf.
      unfold is_admin. rewrite Hadmin. rewrite andb_false_r. eauto.
    + unfold get_session. rewrite Hf.
      destruct (User_findById users (Session.teacher session)) as [teacher|]
        eqn:Ht; [|now right].
      unfold User_findById in Ht. apply find_some in Ht as [_ Ht].
      apply String.eqb_eq in Ht.
      destruct (String.eqb (user_id teacher) (user_id user)) eqn:Hown;
        [|now left].
      apply String.eqb_eq in Hown. congruence.
Qed.
